(** * Voice agent: the turn-taking state machine and the session registry

    A shallow embedding of the LangGraph nodes of [backend/src/agents]
    (intent router, security check, card and account agents, the completion
    checks), of the banking tools they dispatch to ([backend/src/tools]) and
    of the connection registry of [backend/src/api/voice_websocket.py],
    followed by the properties established about them.

    Conventions.
    - [AgentState] is the TypedDict of [agents/state.py] as a record.  A
      field read with [state.get(k)] and tested for truthiness is a [bool]
      or an [option]; a missing key and [None] behave alike there.
    - Python exceptions are values of [exn]; a computation that may raise
      returns an [outcome].
    - The language model, bcrypt, the prompt texts, number formatting and
      the clock are not part of the repository's logic: they are fields of
      [Env] and [World], and every statement quantifies over them.
    - The database is explicit state ([World]) threaded by the monad [M]. *)

From Stdlib Require Import ZArith Floats String Ascii List Lia DecimalString.
From stdpp Require Import base option gmap strings list.
Import ListNotations.
Local Open Scope string_scope.
Local Open Scope Z_scope.

(* ================================================================= *)
(** ** Python values used by the nodes *)

Module Py.

(** An instance of [Exception] (what [except Exception] catches): its class
    name and [str(e)]. *)
Record exn := Exception { exn_class : string; exn_str : string }.

Inductive outcome (A : Type) : Type :=
| Return (a : A)
| Raise (e : exn).
Arguments Return {A} a.
Arguments Raise {A} e.

Definition is_raise {A} (o : outcome A) : bool :=
  match o with Raise _ => true | Return _ => false end.

(** Truthiness of a [str | None] value: [None] and the empty string are
    false. *)
Definition truthy (o : option string) : bool :=
  match o with
  | Some s => negb (String.eqb s EmptyString)
  | None => false
  end.

(** [x or d] on a [str | None] value. *)
Definition or_else (o : option string) (d : string) : string :=
  match o with
  | Some s => if String.eqb s EmptyString then d else s
  | None => d
  end.

(** [str(x)] of a [str | None] value, as an f-string renders it. *)
Definition str_of (o : option string) : string :=
  match o with Some s => s | None => "None" end.

Definition newline : string := String (ascii_of_nat 10) EmptyString.

(** [xs[-n:]] for a positive literal [n]. *)
Definition last_n {A} (n : nat) (xs : list A) : list A :=
  drop (length xs - n)%nat xs.

(** [sep.join(parts)]. *)
Definition join (sep : string) (parts : list string) : string :=
  String.concat sep parts.

(** [x in xs] for a list of string literals. *)
Definition str_in (x : string) (xs : list string) : bool :=
  existsb (String.eqb x) xs.

End Py.
Export Py.

(* ================================================================= *)
(** ** Messages and the agent state ([agents/state.py]) *)

Record BaseMessage := mkMessage { type : string; content : string }.

Definition HumanMessage (c : string) : BaseMessage := mkMessage "human" c.
Definition AIMessage (c : string) : BaseMessage := mkMessage "ai" c.
Definition SystemMessage (c : string) : BaseMessage := mkMessage "system" c.

(** The three dict-valued caches ([last_tool_output], [recent_transactions],
    [card_details]) are never read or written by any node and are left
    out. *)
Record AgentState := mkState {
  messages : list BaseMessage;
  customer_id : option string;
  authenticated : bool;
  authentication_method : option string;
  verification_attempts : Z;
  session_id : string;
  intent : option string;
  intent_confidence : option float;
  flow_stage : option string;
  needs_user_input : bool;
  resume_node : option string;
  escalation_requested : bool;
  escalation_reason : option string;
  account_balance : option float;
  pii_detected : list string;
  suspicious_activity : bool;
  critical_actions_taken : list string;
  turn_count : Z;
  start_time : float
}.

(** [{**state, "k": v}], one function per key that some node writes. *)
Definition set_messages (v : list BaseMessage) (s : AgentState) : AgentState :=
  mkState v (customer_id s) (authenticated s) (authentication_method s)
    (verification_attempts s) (session_id s) (intent s) (intent_confidence s)
    (flow_stage s) (needs_user_input s) (resume_node s)
    (escalation_requested s) (escalation_reason s) (account_balance s)
    (pii_detected s) (suspicious_activity s) (critical_actions_taken s)
    (turn_count s) (start_time s).

Definition set_customer_id (v : option string) (s : AgentState) : AgentState :=
  mkState (messages s) v (authenticated s) (authentication_method s)
    (verification_attempts s) (session_id s) (intent s) (intent_confidence s)
    (flow_stage s) (needs_user_input s) (resume_node s)
    (escalation_requested s) (escalation_reason s) (account_balance s)
    (pii_detected s) (suspicious_activity s) (critical_actions_taken s)
    (turn_count s) (start_time s).

Definition set_authenticated (v : bool) (s : AgentState) : AgentState :=
  mkState (messages s) (customer_id s) v (authentication_method s)
    (verification_attempts s) (session_id s) (intent s) (intent_confidence s)
    (flow_stage s) (needs_user_input s) (resume_node s)
    (escalation_requested s) (escalation_reason s) (account_balance s)
    (pii_detected s) (suspicious_activity s) (critical_actions_taken s)
    (turn_count s) (start_time s).

Definition set_authentication_method (v : option string) (s : AgentState)
  : AgentState :=
  mkState (messages s) (customer_id s) (authenticated s) v
    (verification_attempts s) (session_id s) (intent s) (intent_confidence s)
    (flow_stage s) (needs_user_input s) (resume_node s)
    (escalation_requested s) (escalation_reason s) (account_balance s)
    (pii_detected s) (suspicious_activity s) (critical_actions_taken s)
    (turn_count s) (start_time s).

Definition set_verification_attempts (v : Z) (s : AgentState) : AgentState :=
  mkState (messages s) (customer_id s) (authenticated s)
    (authentication_method s) v (session_id s) (intent s)
    (intent_confidence s) (flow_stage s) (needs_user_input s) (resume_node s)
    (escalation_requested s) (escalation_reason s) (account_balance s)
    (pii_detected s) (suspicious_activity s) (critical_actions_taken s)
    (turn_count s) (start_time s).

Definition set_intent (v : option string) (s : AgentState) : AgentState :=
  mkState (messages s) (customer_id s) (authenticated s)
    (authentication_method s) (verification_attempts s) (session_id s) v
    (intent_confidence s) (flow_stage s) (needs_user_input s) (resume_node s)
    (escalation_requested s) (escalation_reason s) (account_balance s)
    (pii_detected s) (suspicious_activity s) (critical_actions_taken s)
    (turn_count s) (start_time s).

Definition set_intent_confidence (v : option float) (s : AgentState)
  : AgentState :=
  mkState (messages s) (customer_id s) (authenticated s)
    (authentication_method s) (verification_attempts s) (session_id s)
    (intent s) v (flow_stage s) (needs_user_input s) (resume_node s)
    (escalation_requested s) (escalation_reason s) (account_balance s)
    (pii_detected s) (suspicious_activity s) (critical_actions_taken s)
    (turn_count s) (start_time s).

Definition set_flow_stage (v : option string) (s : AgentState) : AgentState :=
  mkState (messages s) (customer_id s) (authenticated s)
    (authentication_method s) (verification_attempts s) (session_id s)
    (intent s) (intent_confidence s) v (needs_user_input s) (resume_node s)
    (escalation_requested s) (escalation_reason s) (account_balance s)
    (pii_detected s) (suspicious_activity s) (critical_actions_taken s)
    (turn_count s) (start_time s).

Definition set_needs_user_input (v : bool) (s : AgentState) : AgentState :=
  mkState (messages s) (customer_id s) (authenticated s)
    (authentication_method s) (verification_attempts s) (session_id s)
    (intent s) (intent_confidence s) (flow_stage s) v (resume_node s)
    (escalation_requested s) (escalation_reason s) (account_balance s)
    (pii_detected s) (suspicious_activity s) (critical_actions_taken s)
    (turn_count s) (start_time s).

Definition set_resume_node (v : option string) (s : AgentState) : AgentState :=
  mkState (messages s) (customer_id s) (authenticated s)
    (authentication_method s) (verification_attempts s) (session_id s)
    (intent s) (intent_confidence s) (flow_stage s) (needs_user_input s) v
    (escalation_requested s) (escalation_reason s) (account_balance s)
    (pii_detected s) (suspicious_activity s) (critical_actions_taken s)
    (turn_count s) (start_time s).

Definition set_escalation_requested (v : bool) (s : AgentState) : AgentState :=
  mkState (messages s) (customer_id s) (authenticated s)
    (authentication_method s) (verification_attempts s) (session_id s)
    (intent s) (intent_confidence s) (flow_stage s) (needs_user_input s)
    (resume_node s) v (escalation_reason s) (account_balance s)
    (pii_detected s) (suspicious_activity s) (critical_actions_taken s)
    (turn_count s) (start_time s).

Definition set_escalation_reason (v : option string) (s : AgentState)
  : AgentState :=
  mkState (messages s) (customer_id s) (authenticated s)
    (authentication_method s) (verification_attempts s) (session_id s)
    (intent s) (intent_confidence s) (flow_stage s) (needs_user_input s)
    (resume_node s) (escalation_requested s) v (account_balance s)
    (pii_detected s) (suspicious_activity s) (critical_actions_taken s)
    (turn_count s) (start_time s).

Definition set_account_balance (v : option float) (s : AgentState)
  : AgentState :=
  mkState (messages s) (customer_id s) (authenticated s)
    (authentication_method s) (verification_attempts s) (session_id s)
    (intent s) (intent_confidence s) (flow_stage s) (needs_user_input s)
    (resume_node s) (escalation_requested s) (escalation_reason s) v
    (pii_detected s) (suspicious_activity s) (critical_actions_taken s)
    (turn_count s) (start_time s).

Definition set_critical_actions_taken (v : list string) (s : AgentState)
  : AgentState :=
  mkState (messages s) (customer_id s) (authenticated s)
    (authentication_method s) (verification_attempts s) (session_id s)
    (intent s) (intent_confidence s) (flow_stage s) (needs_user_input s)
    (resume_node s) (escalation_requested s) (escalation_reason s)
    (account_balance s) (pii_detected s) (suspicious_activity s) v
    (turn_count s) (start_time s).

Definition set_turn_count (v : Z) (s : AgentState) : AgentState :=
  mkState (messages s) (customer_id s) (authenticated s)
    (authentication_method s) (verification_attempts s) (session_id s)
    (intent s) (intent_confidence s) (flow_stage s) (needs_user_input s)
    (resume_node s) (escalation_requested s) (escalation_reason s)
    (account_balance s) (pii_detected s) (suspicious_activity s)
    (critical_actions_taken s) v (start_time s).

(** [state["messages"] + [AIMessage(content=c)]] written back under
    ["messages"]. *)
Definition reply (c : string) (s : AgentState) : AgentState :=
  set_messages (messages s ++ [AIMessage c]) s.

(* ================================================================= *)
(** ** Structured outputs of the language model (pydantic schemas) *)

Module IntentClassification.
Record t := mk { intent : string; confidence : float; reasoning : string }.
End IntentClassification.

Module IdentityExtraction.
Record t := mk {
  customer_id : option string;
  pin : option string;
  has_identity_info : bool }.
End IdentityExtraction.

Module CardAction.
Record t := mk {
  action : string;
  card_id : option string;
  reason : option string;
  confirmation_needed : bool;
  response : string }.
End CardAction.

Module AccountServiceAction.
Record t := mk {
  action : string;
  statement_period : option string;
  profile_updates : option (list (string * string));
  response : string }.
End AccountServiceAction.

(* ================================================================= *)
(** ** What the nodes call but the repository does not define *)

(** [llm_*] stand for [ChatOpenAI(...).with_structured_output(S).invoke(msgs)]
    at the four call sites; an entry may raise.  Building the client, which
    the nodes do before their [try], is taken to succeed.  The prompt texts are
    constants of the source files; the two agent prompts are templates
    filled by [.format(customer_id=..., authenticated=...)]. *)
Record Env := mkEnv {
  llm_intent : list BaseMessage -> outcome IntentClassification.t;
  llm_identity : list BaseMessage -> outcome IdentityExtraction.t;
  llm_card : list BaseMessage -> outcome CardAction.t;
  llm_account : list BaseMessage -> outcome AccountServiceAction.t;
  INTENT_SYSTEM_PROMPT : string;
  IDENTITY_EXTRACTION_PROMPT : string;
  CARD_AGENT_PROMPT_format : option string -> bool -> string;
  ACCOUNT_SERVICING_PROMPT_format : option string -> bool -> string;
  (** [bcrypt.checkpw(pin, hash)] *)
  checkpw : string -> string -> outcome bool;
  (** [str.title()] and the format spec [:,.2f] *)
  title : string -> string;
  format_money : float -> string;
  (** [re.search(email_pattern, text)], giving [match.group()] *)
  email_search : string -> option string
}.

(* ================================================================= *)
(** ** The database rows ([database/models.py]) and the world *)

Module Models.
Record Customer := mkCustomer {
  customer_id : string;
  name : string;
  email : option string;
  phone : option string;
  pin_hash : string }.

Record Account := mkAccount {
  account_id : string;
  owner_id : string;          (* Account.customer_id *)
  account_type : string;
  balance : float;
  currency : string }.

(** Timestamps are kept as their [isoformat()] strings. *)
Record Card := mkCard {
  card_id : string;
  card_account_id : string;   (* Card.account_id *)
  card_number_last4 : string;
  status : string;
  blocked_at : option string;
  blocked_reason : option string;
  expiration_date : option string }.
End Models.

(** A call of one of the banking tools, as the node makes it. *)
Inductive ToolCall :=
| Call_block_card (card_id reason : string)
| Call_get_card_details (card_id : string)
| Call_get_account_balance (customer_id : option string)
| Call_request_statement (customer_id : option string) (period : string)
| Call_update_profile (customer_id : option string)
    (updates : list (string * string)).

Record World := mkWorld {
  customers : gmap string Models.Customer;
  accounts : list Models.Account;
  cards : gmap string Models.Card;
  (** when set, opening a database session raises this exception *)
  db_fault : option exn;
  (** the clock: [utcnow_iso n] is what the [n]-th reading of
      [datetime.utcnow()] within one tool call gives, in [isoformat]
      (counted from 0; each reading is a call of its own, so two readings
      need not agree); then [now().strftime('%Y%m%d%H%M%S')] and
      [now().strftime('%Y%m%d')] *)
  utcnow_iso : nat -> string;
  now_stamp : string;
  now_day : string;
  (** the tool calls made so far, oldest first *)
  tool_log : list ToolCall
}.

Definition set_cards (v : gmap string Models.Card) (w : World) : World :=
  mkWorld (customers w) (accounts w) v (db_fault w) (utcnow_iso w)
    (now_stamp w) (now_day w) (tool_log w).

Definition set_customers (v : gmap string Models.Customer) (w : World)
  : World :=
  mkWorld v (accounts w) (cards w) (db_fault w) (utcnow_iso w)
    (now_stamp w) (now_day w) (tool_log w).

Definition set_tool_log (v : list ToolCall) (w : World) : World :=
  mkWorld (customers w) (accounts w) (cards w) (db_fault w) (utcnow_iso w)
    (now_stamp w) (now_day w) v.

(* ================================================================= *)
(** ** The monad of the async nodes: world passing and exceptions *)

Definition M (A : Type) : Type := World -> World * outcome A.

#[global] Instance M_ret : MRet M := fun A a w => (w, Return a).

#[global] Instance M_bind : MBind M := fun A B f m w =>
  match m w with
  | (w', Return a) => f a w'
  | (w', Raise e) => (w', Raise e)
  end.

Definition throw {A} (e : exn) : M A := fun w => (w, Raise e).

Definition lift {A} (o : outcome A) : M A := fun w => (w, o).

Definition gets {A} (f : World -> A) : M A := fun w => (w, Return (f w)).

Definition modify (f : World -> World) : M unit := fun w => (f w, Return tt).

(** [try: body  except Exception as e: handler(e)] *)
Definition try_except {A} (body : M A) (handler : exn -> M A) : M A :=
  fun w =>
    match body w with
    | (w', Raise e) => handler e w'
    | r => r
    end.

(** [async with async_session() as session] followed by a statement on it. *)
Definition async_session : M unit := fun w =>
  match db_fault w with
  | Some e => (w, Raise e)
  | None => (w, Return tt)
  end.

Definition log_call (c : ToolCall) : M unit :=
  modify (fun w => set_tool_log (tool_log w ++ [c]) w).

(** The tool calls made between two worlds of one run, and whether
    [block_card] is among them. *)
Definition new_calls (w w' : World) : list ToolCall :=
  drop (length (tool_log w)) (tool_log w').

Definition is_block_call (c : ToolCall) : bool :=
  match c with Call_block_card _ _ => true | _ => false end.

Definition block_invoked (w w' : World) : bool :=
  existsb is_block_call (new_calls w w').

(* ================================================================= *)
(** ** Tool decorators ([tools/decorators.py]) *)

Definition AuthenticationRequired (msg : string) : exn :=
  Exception "AuthenticationRequired" msg.

(** [@requires_auth]: the wrapped tool runs only for an authenticated state;
    [name] is the wrapped function's [__name__]. *)
Definition requires_auth {A} (name : string) (state : AgentState)
    (func : M A) : M A :=
  if negb (authenticated state)
  then throw (AuthenticationRequired (name ++ " requires authentication"))
  else func.

(** [@log_critical_action(action_type)]: after the tool has returned, the
    action is appended in place to [state["critical_actions_taken"]]; the
    state the caller holds afterwards is returned with the result. *)
Definition log_critical_action {A} (action_type : string)
    (state : AgentState) (func : M A) : M (A * AgentState) :=
  result ← func;
  mret (result,
        set_critical_actions_taken
          (critical_actions_taken state ++ [action_type]) state).

(* ================================================================= *)
(** ** Banking tools ([tools/banking.py]) *)

Module Banking.

Inductive CardDetails :=
| CardFound (card_id last_4 status : string)
    (expiration blocked_at blocked_reason : option string)
| CardMissing (error : string).

Inductive BlockResult :=
| BlockOk (card_id reference_id blocked_at message : string)
| BlockFail (error : string) (blocked_at blocked_reason : option string).

Record AccountBalance := mkAccountBalance {
  ab_account_id : string;
  ab_account_type : string;
  ab_balance : float;
  ab_currency : string }.

Inductive BalanceResult :=
| BalanceOk (total_balance : float) (accounts : list AccountBalance)
| BalanceFail (error : string).

Inductive ProfileResult :=
| ProfileOk (updated_fields : list string) (message : string)
| ProfileFail (error : string).

Record StatementResult := mkStatementResult {
  st_success : bool;
  st_reference_id : string;
  st_period : string;
  st_message : string }.

Definition get_card_details (state : AgentState) (card_id : string)
  : M CardDetails :=
  log_call (Call_get_card_details card_id);;
  async_session;;
  card ← gets (fun w => cards w !! card_id);
  match card with
  | None => mret (CardMissing "Card not found")
  | Some card =>
      mret (CardFound (Models.card_id card) (Models.card_number_last4 card)
              (Models.status card) (Models.expiration_date card)
              (Models.blocked_at card) (Models.blocked_reason card))
  end.

(** The body of [block_card], below its two decorators. *)
Definition block_card_body (card_id reason : string) : M BlockResult :=
  async_session;;
  card ← gets (fun w => cards w !! card_id);
  match card with
  | None => mret (BlockFail "Card not found" None None)
  | Some card =>
      if String.eqb (Models.status card) "blocked" then
        match Models.blocked_at card with
        | None =>
            (* card.blocked_at.isoformat() on None *)
            throw (Exception "AttributeError"
                     "'NoneType' object has no attribute 'isoformat'")
        | Some at_ =>
            mret (BlockFail "Card is already blocked" (Some at_)
                    (Models.blocked_reason card))
        end
      else
        (* values(..., blocked_at=datetime.utcnow(), ...) *)
        stored_at ← gets (fun w => utcnow_iso w 0%nat);
        modify (fun w =>
          set_cards
            (<[card_id :=
                 Models.mkCard (Models.card_id card)
                   (Models.card_account_id card)
                   (Models.card_number_last4 card)
                   "blocked" (Some stored_at) (Some reason)
                   (Models.expiration_date card)]> (cards w)) w);;
        stamp ← gets now_stamp;
        let reference_id := "BLK-" ++ card_id ++ "-" ++ stamp in
        (* "blocked_at": datetime.utcnow().isoformat(), a second reading *)
        returned_at ← gets (fun w => utcnow_iso w 1%nat);
        mret (BlockOk card_id reference_id returned_at
                ("Card ending in " ++ Models.card_number_last4 card
                 ++ " has been blocked successfully."))
  end.

Definition block_card (state : AgentState) (card_id reason : string)
  : M (BlockResult * AgentState) :=
  log_call (Call_block_card card_id reason);;
  requires_auth "block_card" state
    (log_critical_action "CARD_BLOCKED" state
       (block_card_body card_id reason)).

Definition sum_balances (bs : list AccountBalance) : float :=
  fold_left (fun acc b => PrimFloat.add acc (ab_balance b)) bs 0%float.

Definition get_account_balance (state : AgentState)
    (customer_id : option string) : M BalanceResult :=
  log_call (Call_get_account_balance customer_id);;
  requires_auth "get_account_balance" state
    (async_session;;
     rows ← gets (fun w =>
       filter (fun acc => Some (Models.owner_id acc) = customer_id)
              (accounts w));
     match rows with
     | [] => mret (BalanceFail "No accounts found for customer")
     | _ =>
         let account_balances :=
           map (fun acc =>
                  mkAccountBalance (Models.account_id acc)
                    (Models.account_type acc) (Models.balance acc)
                    (Models.currency acc)) rows in
         mret (BalanceOk (sum_balances account_balances) account_balances)
     end).

Definition allowed_fields : list string := ["email"; "phone"].

(** The columns [update_profile] can write ([database/models.py]):
    [email] is [String(100)] and [phone] is [String(20)]. *)
Definition column_length (field : string) : nat :=
  if String.eqb field "email" then 100%nat else 20%nat.

(** What the database does with a value assigned to a [String(n)]
    column: a value of at most [n] characters is stored as it is; of a
    longer one whose excess characters are all spaces the first [n]
    characters are stored; any other is rejected. *)
Definition excess (n : nat) (v : string) : string :=
  substring n (String.length v - n) v.

Definition all_spaces (s : string) : bool :=
  forallb (Ascii.eqb " "%char) (list_ascii_of_string s).

Definition fits_column (kv : string * string) : bool :=
  Nat.leb (String.length (snd kv)) (column_length (fst kv))
  || all_spaces (excess (column_length (fst kv)) (snd kv)).

Definition stored_value (kv : string * string) : string :=
  if Nat.leb (String.length (snd kv)) (column_length (fst kv)) then snd kv
  else substring 0 (column_length (fst kv)) (snd kv).

(** What the database answers to an UPDATE that assigns a value longer
    than its column; the text stands for the driver's message. *)
Definition StringDataRightTruncation (field : string) : exn :=
  Exception "DBAPIError"
    (if String.eqb field "email"
     then "value too long for type character varying(100)"
     else "value too long for type character varying(20)").

Definition apply_profile_update (c : Models.Customer) (kv : string * string)
  : Models.Customer :=
  if String.eqb (fst kv) "email" then
    Models.mkCustomer (Models.customer_id c) (Models.name c)
      (Some (stored_value kv)) (Models.phone c) (Models.pin_hash c)
  else if String.eqb (fst kv) "phone" then
    Models.mkCustomer (Models.customer_id c) (Models.name c) (Models.email c)
      (Some (stored_value kv)) (Models.pin_hash c)
  else c.

Definition update_profile (state : AgentState) (customer_id : option string)
    (updates : list (string * string)) : M ProfileResult :=
  log_call (Call_update_profile customer_id updates);;
  requires_auth "update_profile" state
    (let filtered_updates :=
       filter (fun kv => str_in (fst kv) allowed_fields = true) updates in
     match filtered_updates with
     | [] => mret (ProfileFail "No valid fields to update")
     | _ =>
         async_session;;
         (* session.execute of the UPDATE with the filtered values: the
            database rejects a value that does not fit its column (taken
            here to be so whether or not a row matches) *)
         match filter (fun kv => fits_column kv = false) filtered_updates with
         | kv :: _ => throw (StringDataRightTruncation (fst kv))
         | [] =>
             modify (fun w =>
               match customer_id with
               | Some cid =>
                   set_customers
                     (alter (fun c => fold_left apply_profile_update
                                        filtered_updates c) cid
                        (customers w)) w
               | None => w
               end);;
             mret (ProfileOk (map fst filtered_updates)
                     "Profile updated successfully")
         end
     end).

Definition request_statement (state : AgentState)
    (customer_id : option string) (period : string) : M StatementResult :=
  log_call (Call_request_statement customer_id period);;
  requires_auth "request_statement" state
    (day ← gets now_day;
     let reference_id := "STMT-" ++ str_of customer_id ++ "-" ++ day in
     mret (mkStatementResult true reference_id period
             ("Your " ++ period
              ++ " statement will be emailed within 24 hours."))).

End Banking.

(* ================================================================= *)
(** ** Intent router ([agents/nodes/intent_router.py]) *)

(** The float literal [0.3]: the binary64 value nearest to it. *)
Definition float_0_3 : float := 0x1.3333333333333p-2%float.

Definition user_messages (state : AgentState) : list BaseMessage :=
  List.filter (fun msg => String.eqb (type msg) "human") (messages state).

Definition route_intent_node (env : Env) (state : AgentState) : AgentState :=
  if truthy (resume_node state) then state
  else
    match last (user_messages state) with
    | None =>
        set_intent_confidence (Some 0.5%float)
          (set_intent (Some "general_inquiry") state)
    | Some last_user =>
        let last_user_message := content last_user in
        match llm_intent env [SystemMessage (INTENT_SYSTEM_PROMPT env);
                              HumanMessage last_user_message] with
        | Return result =>
            set_intent_confidence
              (Some (IntentClassification.confidence result))
              (set_intent (Some (IntentClassification.intent result)) state)
        | Raise e =>
            set_intent_confidence (Some float_0_3)
              (set_intent (Some "general_inquiry") state)
        end
    end.

(** The literal dict [intent_to_node] of [route_to_flow]. *)
Definition intent_to_node : list (string * string) :=
  [("card_atm", "security_check");
   ("account_servicing", "security_check");
   ("transfer_payment", "security_check");
   ("account_closure", "security_check");
   ("account_opening", "opening_agent");
   ("digital_support", "digital_agent");
   ("general_inquiry", "general_inquiry_node")].

(** [d.get(k, default)] on a literal dict with string keys; a [None] key is
    never found. *)
Fixpoint dict_get (d : list (string * string)) (k : option string)
    (default : string) : string :=
  match d with
  | [] => default
  | (k', v) :: d' =>
      match k with
      | Some s => if String.eqb s k' then v else dict_get d' k default
      | None => default
      end
  end.

Definition TypeError (msg : string) : exn := Exception "TypeError" msg.

Definition route_to_flow (state : AgentState) : outcome string :=
  let resume := resume_node state in
  if truthy resume then Return (str_of resume)
  else
    let intent := intent state in
    match intent_confidence state with
    | None =>
        Raise (TypeError
          "'<' not supported between instances of 'NoneType' and 'float'")
    | Some confidence =>
        if PrimFloat.ltb confidence 0.5%float
        then Return "general_inquiry_node"
        else Return (dict_get intent_to_node intent "general_inquiry_node")
    end.

(* ================================================================= *)
(** ** Security check ([agents/nodes/security_check.py]) *)

Definition str_of_int (z : Z) : string :=
  NilZero.string_of_int (Z.to_int z).

Definition verify_pin (env : Env) (customer_id pin : string) : M bool :=
  async_session;;
  customer ← gets (fun w => customers w !! customer_id);
  match customer with
  | None => mret false
  | Some customer => lift (checkpw env pin (Models.pin_hash customer))
  end.

Definition conversation_lines (n : nat) (state : AgentState) : string :=
  join newline
    (map (fun msg => type msg ++ ": " ++ content msg)
         (last_n n (messages state))).

(** [{**state, "needs_user_input": True, "resume_node": node,
      "messages": state["messages"] + [AIMessage(content=prompt)]}] *)
Definition ask_user (node prompt : string) (state : AgentState) : AgentState :=
  reply prompt (set_resume_node (Some node) (set_needs_user_input true state)).

(** The messages handed to the model by the security check: the prompt and
    the last five messages. *)
Definition identity_prompt (env : Env) (state : AgentState)
  : list BaseMessage :=
  let conversation_text := conversation_lines 5 state in
  [SystemMessage (IDENTITY_EXTRACTION_PROMPT env);
   HumanMessage conversation_text].

Definition security_check_node (env : Env) (state : AgentState)
  : M AgentState :=
  if authenticated state then mret state
  else
    let verification_attempts := verification_attempts state in
    if 3 <=? verification_attempts then
      mret (reply
        ("I'm sorry, but for your security, I need to transfer you "
         ++ "to a representative after multiple failed verification attempts. "
         ++ "Please hold while I connect you.")
        (set_escalation_reason (Some "Failed authentication after 3 attempts")
           (set_escalation_requested true state)))
    else
      let on_error (state : AgentState) : AgentState :=
        ask_user "security_check"
          ("I apologize, but I'm having trouble verifying your identity. "
           ++ "Could you please provide your Customer ID and PIN?") state in
      match llm_identity env (identity_prompt env state) with
      | Raise e => mret (on_error state)
      | Return extraction =>
          let ex_id := IdentityExtraction.customer_id extraction in
          let ex_pin := IdentityExtraction.pin extraction in
          if negb (IdentityExtraction.has_identity_info extraction) then
            let prompt :=
              if negb (truthy (customer_id state)) then
                "For security purposes, I'll need to verify your identity. "
                ++ "Could you please provide your Customer ID? "
                ++ "It should be in the format CUST followed by numbers, like CUST00001."
              else
                "Thank you. Now, could you please provide your 4-digit PIN "
                ++ "to verify your identity?" in
            mret (ask_user "security_check" prompt state)
          else
            (* state = {**state, "customer_id": extraction.customer_id} *)
            let state :=
              if truthy ex_id then set_customer_id ex_id state else state in
            try_except
              (if truthy ex_id && truthy ex_pin then
                 is_valid ← verify_pin env (str_of ex_id) (str_of ex_pin);
                 if is_valid : bool then
                   mret (reply
                     ("Thank you for verifying your identity. "
                      ++ "How can I assist you today?")
                     (set_resume_node None
                        (set_needs_user_input false
                           (set_customer_id ex_id
                              (set_authentication_method (Some "pin")
                                 (set_authenticated true state))))))
                 else
                   let new_attempts := verification_attempts + 1 in
                   let remaining_attempts := 3 - new_attempts in
                   let message :=
                     if 0 <? remaining_attempts then
                       "I'm sorry, but that PIN doesn't match our records. "
                       ++ "You have " ++ str_of_int remaining_attempts
                       ++ " attempt(s) remaining. "
                       ++ "Please try again."
                     else
                       "I'm sorry, but I need to transfer you to a representative "
                       ++ "for security reasons. Please hold." in
                   mret (ask_user "security_check" message
                           (set_verification_attempts new_attempts state))
               else if truthy ex_id && negb (truthy ex_pin) then
                 mret (ask_user "security_check"
                         ("Thank you. Now, could you please provide your "
                          ++ "4-digit PIN to verify your identity?")
                         (set_customer_id ex_id state))
               else
                 mret (ask_user "security_check"
                         "Could you please provide your Customer ID and PIN?"
                         state))
              (fun e => mret (on_error state))
      end.

(** The literal dict [intent_to_node] of [check_auth_status]. *)
Definition auth_intent_to_node : list (string * string) :=
  [("card_atm", "card_atm_agent");
   ("account_servicing", "account_servicing_agent");
   ("transfer_payment", "transfer_agent");
   ("account_closure", "closure_agent")].

Definition check_auth_status (state : AgentState) : string :=
  if escalation_requested state then "escalation"
  else if needs_user_input state then "__end__"
  else if negb (authenticated state) then "security_check"
  else dict_get auth_intent_to_node (intent state) "escalation".

(* ================================================================= *)
(** ** Card and ATM agent ([agents/nodes/card_agent.py]) *)

(** [{**state, "escalation_requested": True, "escalation_reason": why,
      "messages": state["messages"] + [AIMessage(content=text)]}] *)
Definition escalate (why text : string) (state : AgentState) : AgentState :=
  reply text
    (set_escalation_reason (Some why) (set_escalation_requested true state)).

(** What the [except] clause of the two agents returns: the state
    escalated with the exception's text, and an apology appended. *)
Definition agent_error (apology : string) (e : exn) (state : AgentState)
  : AgentState :=
  escalate ("Agent error: " ++ exn_str e) apology state.

Definition card_apology : string :=
  "I'm having trouble processing your request. Let me connect you with a specialist.".

Definition account_apology : string :=
  "I'm having trouble. Let me connect you with a specialist.".

(** The messages handed to the model by the card agent. *)
Definition card_agent_prompt (env : Env) (state : AgentState)
  : list BaseMessage :=
  let customer_id := customer_id state in
  let conversation_history := conversation_lines 10 state in
  let system_prompt :=
    CARD_AGENT_PROMPT_format env customer_id (authenticated state) in
  [SystemMessage system_prompt;
   HumanMessage ("Conversation:" ++ newline ++ conversation_history)].

(** The [if]/[elif] chain under "Execute action".  It yields [None] when
    control falls off the end of the function without reaching a
    [return]. *)
Definition card_atm_agent_dispatch (state : AgentState)
    (decision : CardAction.t) : M (option AgentState) :=
  let action := CardAction.action decision in
  if String.eqb action "block_card" then
    if negb (CardAction.confirmation_needed decision) then
      if truthy (CardAction.card_id decision) then
        '(result, state) ← Banking.block_card state
            (str_of (CardAction.card_id decision))
            (or_else (CardAction.reason decision) "Customer request");
        match result with
        | Banking.BlockOk _ reference_id _ _ =>
            (* the result dict has no key 'last_4': .get gives 'XXXX' *)
            let response :=
              "Your card ending in " ++ "XXXX"
              ++ " has been blocked successfully. "
              ++ "Reference number: " ++ reference_id ++ ". "
              ++ "A replacement card will be mailed to your address on file within 5-7 business days. "
              ++ "Is there anything else I can help you with?" in
            mret (Some (reply response
                          (set_flow_stage (Some "card_blocked") state)))
        | Banking.BlockFail error _ _ =>
            let response :=
              "I encountered an issue: " ++ error
              ++ ". Let me transfer you to a specialist." in
            mret (Some (escalate ("Card block failed: " ++ error)
                          response state))
        end
      else
        mret (Some (ask_user "card_atm_agent"
                "Could you provide your card number or the last 4 digits?"
                state))
    else
      mret (Some (ask_user "card_atm_agent" (CardAction.response decision)
              (set_flow_stage (Some "awaiting_confirmation") state)))
  else if String.eqb action "check_status" then
    if truthy (CardAction.card_id decision) then
      card_info ← Banking.get_card_details state
          (str_of (CardAction.card_id decision));
      let response :=
        match card_info with
        | Banking.CardFound _ last_4 status _ blocked_at blocked_reason =>
            "Your card ending in " ++ last_4 ++ " is currently " ++ status
            ++ "."
            ++ (if String.eqb status "blocked"
                then " It was blocked on " ++ str_of blocked_at
                     ++ " due to: " ++ str_of blocked_reason ++ "."
                else EmptyString)
        | Banking.CardMissing _ =>
            "I couldn't find that card in our system. Could you verify the card number?"
        end in
      mret (Some (reply response state))
    else
      (* no branch of the if/elif chain returns *)
      mret None
  else if String.eqb action "escalate" then
    mret (Some (escalate "Card issue requires specialist"
                  (CardAction.response decision) state))
  else if String.eqb action "complete" then
    mret (Some (reply (CardAction.response decision)
                  (set_flow_stage (Some "complete") state)))
  else
    mret (Some (ask_user "card_atm_agent" (CardAction.response decision)
                  state)).

(** The body of the [try] block: the model call, then the dispatch. *)
Definition card_atm_agent_try (env : Env) (state : AgentState)
  : M (option AgentState) :=
  decision ← lift (llm_card env (card_agent_prompt env state));
  card_atm_agent_dispatch state decision.

Definition card_atm_agent_node (env : Env) (state : AgentState)
  : M (option AgentState) :=
  try_except (card_atm_agent_try env state)
    (fun e => mret (Some (agent_error card_apology e state))).

Definition check_card_flow_completion (state : AgentState) : string :=
  if escalation_requested state then "escalation"
  else if needs_user_input state then "__end__"
  else if match flow_stage state with
          | Some stage => str_in stage ["card_blocked"; "complete"]
          | None => false
          end
  then "complete"
  else "card_atm_agent".

(* ================================================================= *)
(** ** Account servicing agent ([agents/nodes/account_agent.py]) *)

Definition account_agent_prompt (env : Env) (state : AgentState)
  : list BaseMessage :=
  let customer_id := customer_id state in
  let conversation_history := conversation_lines 10 state in
  let system_prompt :=
    ACCOUNT_SERVICING_PROMPT_format env customer_id (authenticated state) in
  [SystemMessage system_prompt;
   HumanMessage ("Conversation:" ++ newline ++ conversation_history)].

Definition account_servicing_agent_dispatch (env : Env) (state : AgentState)
    (decision : AccountServiceAction.t) : M (option AgentState) :=
  let customer_id := customer_id state in
  let action := AccountServiceAction.action decision in
  if String.eqb action "get_balance" then
    result ← Banking.get_account_balance state customer_id;
    match result with
    | Banking.BalanceOk total_balance accounts =>
        let accounts_text :=
          join newline
            (map (fun acc =>
                    "- " ++ title env (Banking.ab_account_type acc)
                    ++ ": $" ++ format_money env (Banking.ab_balance acc))
                 accounts) in
        let response :=
          "Here are your account balances:" ++ newline ++ accounts_text
          ++ newline
          ++ "Total: $" ++ format_money env total_balance ++ newline
          ++ "Is there anything else I can help you with?" in
        mret (Some (reply response
                      (set_flow_stage (Some "complete")
                         (set_account_balance (Some total_balance) state))))
    | Banking.BalanceFail error =>
        mret (Some (reply ("I couldn't retrieve your balance: " ++ error)
                      state))
    end
  else if String.eqb action "request_statement" then
    let period :=
      or_else (AccountServiceAction.statement_period decision) "monthly" in
    result ← Banking.request_statement state customer_id period;
    if Banking.st_success result then
      let response :=
        "Your " ++ period ++ " statement has been requested. "
        ++ "Reference number: " ++ Banking.st_reference_id result ++ ". "
        ++ Banking.st_message result in
      mret (Some (reply response (set_flow_stage (Some "complete") state)))
    else mret None
  else if String.eqb action "update_profile" then
    match AccountServiceAction.profile_updates decision with
    | Some (kv :: kvs) =>
        result ← Banking.update_profile state customer_id (kv :: kvs);
        match result with
        | Banking.ProfileOk updated_fields _ =>
            let updated := join ", " updated_fields in
            mret (Some (reply
                    ("Your " ++ updated ++ " has been updated successfully.")
                    (set_flow_stage (Some "complete") state)))
        | Banking.ProfileFail error =>
            mret (Some (reply ("Update failed: " ++ error) state))
        end
    | _ => mret None       (* empty or missing dict: nothing returns *)
    end
  else if String.eqb action "escalate" then
    mret (Some (escalate "Account servicing requires specialist"
                  (AccountServiceAction.response decision) state))
  else if String.eqb action "complete" then
    mret (Some (reply (AccountServiceAction.response decision)
                  (set_flow_stage (Some "complete") state)))
  else
    mret (Some (ask_user "account_servicing_agent"
                  (AccountServiceAction.response decision) state)).

Definition account_servicing_agent_try (env : Env) (state : AgentState)
  : M (option AgentState) :=
  decision ← lift (llm_account env (account_agent_prompt env state));
  account_servicing_agent_dispatch env state decision.

Definition account_servicing_agent_node (env : Env) (state : AgentState)
  : M (option AgentState) :=
  try_except (account_servicing_agent_try env state)
    (fun e => mret (Some (agent_error account_apology e state))).

Definition check_account_flow_completion (state : AgentState) : string :=
  if escalation_requested state then "escalation"
  else if needs_user_input state then "__end__"
  else if bool_decide (flow_stage state = Some "complete") then "complete"
  else "account_servicing_agent".

(* ================================================================= *)
(** ** Stub agents' check ([agents/nodes/stub_agents.py]) and the
       general-inquiry edge ([agents/graph.py]) *)

(** [state.get("intent", "general_inquiry") + "_agent"]: the key is always
    present, so the default is never used, and [None + str] raises. *)
Definition check_flow_completion (state : AgentState) : outcome string :=
  if escalation_requested state then Return "escalation"
  else if needs_user_input state then Return "__end__"
  else if bool_decide (flow_stage state = Some "complete")
  then Return "complete"
  else
    match intent state with
    | Some intent => Return (intent ++ "_agent")
    | None =>
        Raise (TypeError
          "unsupported operand type(s) for +: 'NoneType' and 'str'")
    end.

(** The lambda on the conditional edge out of [general_inquiry_node]. *)
Definition general_inquiry_edge (state : AgentState) : string :=
  if bool_decide (flow_stage state = Some "complete") then "complete"
  else "general_inquiry_node".

(* ================================================================= *)
(** ** Connection registry ([api/voice_websocket.py]) *)

Module Registry.

(** A transport handle, and what was written to each handle.  A frame is a
    JSON object (flat here: key and rendered value) or raw bytes. *)
Definition WebSocket := nat.

Inductive Frame :=
| JsonFrame (message : list (string * string))
| BytesFrame (data : list Byte.byte).

Record Transport := mkTransport {
  (** frames written so far, oldest first *)
  sent : list (WebSocket * Frame);
  (** handles on which a write raises, with the exception raised *)
  broken : gmap WebSocket exn;
  (** handles whose handshake was accepted *)
  accepted : list WebSocket
}.

Record VoiceConnectionManager := mkManager {
  active_connections : gmap string WebSocket
}.

Definition IO (A : Type) : Type := Transport -> Transport * outcome A.

(** [await websocket.send_json(m)] and [await websocket.send_bytes(b)] *)
Definition ws_send (websocket : WebSocket) (f : Frame) : IO unit := fun t =>
  match broken t !! websocket with
  | Some e => (t, Raise e)
  | None =>
      (mkTransport (sent t ++ [(websocket, f)]) (broken t) (accepted t),
       Return tt)
  end.

Definition ws_accept (websocket : WebSocket) : IO unit := fun t =>
  match broken t !! websocket with
  | Some e => (t, Raise e)
  | None =>
      (mkTransport (sent t) (broken t) (accepted t ++ [websocket]), Return tt)
  end.

Definition init : VoiceConnectionManager := mkManager ∅.

(** The methods return the manager as they leave it. *)
Definition connect (self : VoiceConnectionManager) (session_id : string)
    (websocket : WebSocket) : IO VoiceConnectionManager := fun t =>
  match ws_accept websocket t with
  | (t', Raise e) => (t', Raise e)
  | (t', Return _) =>
      (t', Return (mkManager
                     (<[session_id := websocket]> (active_connections self))))
  end.

Definition disconnect (self : VoiceConnectionManager) (session_id : string)
  : VoiceConnectionManager :=
  if bool_decide (is_Some (active_connections self !! session_id))
  then mkManager (delete session_id (active_connections self))
  else self.

Definition send_json (self : VoiceConnectionManager) (session_id : string)
    (message : list (string * string)) : IO unit := fun t =>
  match active_connections self !! session_id with
  | Some websocket => ws_send websocket (JsonFrame message) t
  | None => (t, Return tt)
  end.

Definition send_bytes (self : VoiceConnectionManager) (session_id : string)
    (data : list Byte.byte) : IO unit := fun t =>
  match active_connections self !! session_id with
  | Some websocket => ws_send websocket (BytesFrame data) t
  | None => (t, Return tt)
  end.

End Registry.

(* ================================================================= *)
(** ** Stub agents and the escalation node ([agents/nodes/stub_agents.py]) *)

Module Stubs.

Record LeadResult := mkLeadResult {
  lead_reference_id : string;
  lead_message : string }.

(** [create_lead] of [tools/banking.py]: no authentication, no database. *)
Definition create_lead (state : AgentState) (email : string) : M LeadResult :=
  stamp ← gets now_stamp;
  mret (mkLeadResult ("LEAD-" ++ stamp)
          "Thank you! A representative will contact you within 2 business days.").

Definition account_opening_agent_node (env : Env) (state : AgentState)
  : M AgentState :=
  let response :=
    "Thank you for your interest in opening an account with Bank ABC! "
    ++ "Our account specialists can help you choose the right account for your needs. "
    ++ "May I have your name, email, and phone number to have someone contact you?" in
  let messages_content := join " " (map content (user_messages state)) in
  match email_search env messages_content with
  | Some email =>
      result ← create_lead state email;
      let response :=
        "Thank you! I've created a reference for you: "
        ++ lead_reference_id result ++ ". " ++ lead_message result in
      mret (reply response (set_flow_stage (Some "complete") state))
  | None => mret (ask_user "opening_agent" response state)
  end.

Definition digital_support_agent_node (state : AgentState) : AgentState :=
  escalate "Digital support - requires technical specialist"
    ("I understand you're having trouble with our digital banking services. "
     ++ "Our technical support team is best equipped to help you with app and online banking issues. "
     ++ "Let me connect you with a digital banking specialist who can assist you right away.")
    state.

Definition transfer_payment_agent_node (state : AgentState) : AgentState :=
  escalate "Transfer/payment issue - requires specialist"
    ("I can help connect you with our payments team. "
     ++ "Transfer and payment issues require detailed investigation. "
     ++ "Let me transfer you to a specialist who can review your transaction and resolve this for you.")
    state.

Definition account_closure_agent_node (state : AgentState) : AgentState :=
  if negb (truthy (flow_stage state)) then
    ask_user "closure_agent"
      ("I'm sorry to hear you're considering closing your account. "
       ++ "May I ask what's prompting this decision? "
       ++ "Perhaps there's something we can do to address your concerns.")
      (set_flow_stage (Some "retention_attempt") state)
  else
    escalate "Account closure - retention specialist needed"
      ("I appreciate you sharing that with me. "
       ++ "Our customer retention team would like to discuss options with you personally. "
       ++ "Let me connect you with a specialist who can help.")
      state.

Definition general_inquiry_agent_node (state : AgentState) : AgentState :=
  reply
    ("I'm Bank ABC's virtual assistant. I can help you with:" ++ newline
     ++ "- Card issues (lost/stolen, blocked cards)" ++ newline
     ++ "- Account servicing (balance, statements, profile updates)" ++ newline
     ++ "- Account opening inquiries" ++ newline
     ++ "- Digital banking support" ++ newline
     ++ newline ++ "What can I help you with today?")
    (set_flow_stage (Some "complete") state).

Definition human_escalation_node (state : AgentState) : AgentState :=
  reply
    ("Thank you for your patience. I'm connecting you with a specialist "
     ++ "who can better assist you. Please hold while I transfer your call.")
    (set_flow_stage (Some "escalated") state).

End Stubs.

(* ================================================================= *)
(** ** The wiring of the graph ([agents/graph.py]) and a session's run *)

(** The task handlers, with the node name each is registered under. *)
Inductive Handler :=
| card_atm_agent
| account_servicing_agent
| opening_agent
| digital_agent
| transfer_agent
| closure_agent
| general_inquiry_node.

Definition node_name (h : Handler) : string :=
  match h with
  | card_atm_agent => "card_atm_agent"
  | account_servicing_agent => "account_servicing_agent"
  | opening_agent => "opening_agent"
  | digital_agent => "digital_agent"
  | transfer_agent => "transfer_agent"
  | closure_agent => "closure_agent"
  | general_inquiry_node => "general_inquiry_node"
  end.

(** The function [add_conditional_edges] attaches to each handler. *)
Definition completion_check (h : Handler) (state : AgentState)
  : outcome string :=
  match h with
  | card_atm_agent => Return (check_card_flow_completion state)
  | account_servicing_agent => Return (check_account_flow_completion state)
  | opening_agent | digital_agent | transfer_agent | closure_agent =>
      check_flow_completion state
  | general_inquiry_node => Return (general_inquiry_edge state)
  end.

(** The state a voice session starts from ([handle_voice_websocket]). *)
Definition initial_state (session_id : string) (start_time : float)
  : AgentState :=
  mkState [] None false None 0 session_id None None None false None false
    None None [] false [] 0 start_time.

(** [agent_worker] appends the final transcript before invoking the graph. *)
Definition user_turn (user_text : string) (s : AgentState) : AgentState :=
  set_turn_count (turn_count s + 1)
    (set_messages (messages s ++ [HumanMessage user_text]) s).

(** One move of a session: a user turn, or a node of the graph run on the
    current state.  A node that raises or returns no state is not a move. *)
Inductive step (env : Env) : World * AgentState -> World * AgentState -> Prop :=
| step_user w s text :
    step env (w, s) (w, user_turn text s)
| step_intent_router w s :
    step env (w, s) (w, route_intent_node env s)
| step_security_check w s w' s' :
    security_check_node env s w = (w', Return s') ->
    step env (w, s) (w', s')
| step_card w s w' s' :
    card_atm_agent_node env s w = (w', Return (Some s')) ->
    step env (w, s) (w', s')
| step_account w s w' s' :
    account_servicing_agent_node env s w = (w', Return (Some s')) ->
    step env (w, s) (w', s')
| step_opening w s w' s' :
    Stubs.account_opening_agent_node env s w = (w', Return s') ->
    step env (w, s) (w', s')
| step_digital w s :
    step env (w, s) (w, Stubs.digital_support_agent_node s)
| step_transfer w s :
    step env (w, s) (w, Stubs.transfer_payment_agent_node s)
| step_closure w s :
    step env (w, s) (w, Stubs.account_closure_agent_node s)
| step_general w s :
    step env (w, s) (w, Stubs.general_inquiry_agent_node s)
| step_escalation w s :
    step env (w, s) (w, Stubs.human_escalation_node s).

Inductive reachable (env : Env) (w0 : World) (s0 : AgentState)
  : World * AgentState -> Prop :=
| reach_start : reachable env w0 s0 (w0, s0)
| reach_step c c' :
    reachable env w0 s0 c -> step env c c' -> reachable env w0 s0 c'.

(* ================================================================= *)
(** ** Texts the statements below refer to *)

(** The reprompt of the security check's [except] clause. *)
Definition identity_apology : string :=
  "I apologize, but I'm having trouble verifying your identity. "
  ++ "Could you please provide your Customer ID and PIN?".

(** What a node run leaves alone: identity, authentication, counter and
    classification. *)
Definition same_session (s s' : AgentState) : Prop :=
  session_id s' = session_id s /\
  authenticated s' = authenticated s /\
  customer_id s' = customer_id s /\
  authentication_method s' = authentication_method s /\
  verification_attempts s' = verification_attempts s /\
  intent s' = intent s /\
  intent_confidence s' = intent_confidence s.

(** A state on which none of the three tests of a completion check fires. *)
Definition flow_open (s : AgentState) : Prop :=
  escalation_requested s = false /\
  needs_user_input s = false /\
  flow_stage s <> Some "complete" /\
  flow_stage s <> Some "card_blocked".

(** The keys [update_profile] keeps: [k in allowed_fields]. *)
Definition allowed (kv : string * string) : Prop :=
  str_in (fst kv) Banking.allowed_fields = true.

(** A value the database rejects: longer than the column of its key. *)
Definition too_long (kv : string * string) : Prop :=
  Banking.fits_column kv = false.

(** Every value that [update_profile] would write fits its column. *)
Definition values_fit (updates : list (string * string)) : Prop :=
  forall k v,
    (k, v) ∈ updates -> allowed (k, v) ->
    (String.length v <= Banking.column_length k)%nat.

(* ================================================================= *)
(** ** Further banking tools ([tools/banking.py]) *)

Module BankingExtra.

Inductive IdentityResult :=
| IdentityOk (customer_id customer_name : string)
| IdentityFail (error : string).

(** [verify_identity]: the explicit verification tool, a second
    implementation of the check made by [verify_pin]. *)
Definition verify_identity (env : Env) (state : AgentState)
    (customer_id pin : string) : M IdentityResult :=
  async_session;;
  customer ← gets (fun w => customers w !! customer_id);
  match customer with
  | None => mret (IdentityFail "Customer not found")
  | Some customer =>
      is_valid ← lift (checkpw env pin (Models.pin_hash customer));
      if is_valid : bool
      then mret (IdentityOk customer_id (Models.name customer))
      else mret (IdentityFail "Invalid PIN")
  end.

Record Transaction := mkTransaction {
  tx_date : string;
  tx_description : string;
  tx_amount : float;
  tx_category : string }.

Record TransactionsResult := mkTransactionsResult {
  tx_success : bool;
  transactions : list Transaction;
  tx_count : nat }.

(** [float(n)] for a small non-negative integer. *)
Definition float_of_nat (n : nat) : float :=
  PrimFloat.of_uint63 (Uint63.of_Z (Z.of_nat n)).

(** [get_recent_transactions]: mock data, one entry per [i in range(count)].
    [iso_days_ago i] stands for
    [(datetime.now() - timedelta(days=i)).isoformat()].  No node calls this
    tool, so it is not entered in the tool log. *)
Definition get_recent_transactions (iso_days_ago : nat -> string)
    (state : AgentState) (customer_id : string) (count : Z)
  : M TransactionsResult :=
  requires_auth "get_recent_transactions" state
    (let mock_transactions :=
       map (fun i =>
              mkTransaction (iso_days_ago i)
                ("Transaction " ++ str_of_int (Z.of_nat i + 1))
                (PrimFloat.mul (-50)%float (float_of_nat (i + 1)))
                (if Nat.even i then "Grocery" else "Dining"))
           (seq 0 (Z.to_nat count)) in
     mret (mkTransactionsResult true mock_transactions
             (length mock_transactions))).

End BankingExtra.

(* ================================================================= *)
(** ** The graph as wired by [create_agent_graph] ([agents/graph.py]) *)

Module Graph.

Inductive Node :=
| intent_router
| security_check
| handler (h : Handler)
| escalation.

Inductive Target :=
| To (n : Node)
| END.



(** The path map given with each conditional edge. *)
Definition path_map (n : Node) : list (string * Target) :=
  match n with
  | intent_router =>
      [("security_check", To security_check);
       ("opening_agent", To (handler opening_agent));
       ("digital_agent", To (handler digital_agent));
       ("general_inquiry_node", To (handler general_inquiry_node));
       ("card_atm_agent", To (handler card_atm_agent));
       ("account_servicing_agent", To (handler account_servicing_agent));
       ("transfer_agent", To (handler transfer_agent));
       ("closure_agent", To (handler closure_agent))]
  | security_check =>
      [("card_atm_agent", To (handler card_atm_agent));
       ("account_servicing_agent", To (handler account_servicing_agent));
       ("transfer_agent", To (handler transfer_agent));
       ("closure_agent", To (handler closure_agent));
       ("security_check", To security_check);
       ("escalation", To escalation);
       ("__end__", END)]
  | handler general_inquiry_node =>
      [("general_inquiry_node", To (handler general_inquiry_node));
       ("complete", END)]
  | handler h =>
      [(node_name h, To (handler h));
       ("escalation", To escalation);
       ("complete", END);
       ("__end__", END)]
  | escalation => [("__end__", END)]
  end.

Fixpoint lookup_label (label : string) (m : list (string * Target))
  : option Target :=
  match m with
  | [] => None
  | (k, t) :: m' => if String.eqb label k then Some t else lookup_label label m'
  end.

(** The handlers that sit behind the security check. *)
Definition protected (n : Node) : bool :=
  match n with
  | handler card_atm_agent | handler account_servicing_agent
  | handler transfer_agent | handler closure_agent => true
  | _ => false
  end.









(** The name each node is registered under by [add_node]. *)
Definition name (n : Node) : string :=
  match n with
  | intent_router => "intent_router"
  | security_check => "security_check"
  | handler h => node_name h
  | escalation => "escalation"
  end.





End Graph.

(* ================================================================= *)
(** ** The ingress task of the voice pipeline
       ([audio_receiver] in [api/voice_websocket.py]) *)

Module Ingress.

(** What [websocket.receive()] returns: a missing key and [None] are both
    [None] here. *)
Record Message := mkMessage {
  mtype : string;
  bytes : option (list Byte.byte);
  text : option string }.

(** What [json.loads] makes of a text frame, as far as the task looks: a
    decode error, an object with the string under ["type"] (if any), or a
    value that is not an object. *)
Inductive Json :=
| JsonDecodeError
| JsonObject (type_field : option string)
| JsonOther.

(** What one [await asyncio.wait_for(websocket.receive(), timeout=1.0)]
    produced. *)
Inductive Recv :=
| TimedOut
| Received (m : Message)
| ReceiveRaised (e : exn).

(** One pass of the loop: the result of the await, and whether another
    task set the shutdown event while this one was waiting. *)
Record Pass := mkPass { set_meanwhile : bool; received : Recv }.

(** The event shared by the four tasks, and what this task has put on
    the (unbounded) queue so far, oldest first. *)
Record State := mkState {
  shutdown_event : bool;
  audio_in_queue : list (list Byte.byte) }.

Inductive Status := Looping | Exited.

Definition truthy_bytes (b : option (list Byte.byte)) : bool :=
  match b with Some (_ :: _) => true | _ => false end.

(** The body of the [while] loop for one received value; [Exited] stands
    for [break] and for an exception reaching the outer handlers, which
    set the event. *)
Definition handle (json_loads : string -> Json) (r : Recv) (st : State)
  : State * Status :=
  match r with
  | TimedOut => (st, Looping)
  | ReceiveRaised e => (mkState true (audio_in_queue st), Exited)
  | Received m =>
      if String.eqb (mtype m) "websocket.disconnect" then
        (mkState true (audio_in_queue st), Exited)
      else if truthy_bytes (bytes m) then
        (mkState (shutdown_event st)
           (audio_in_queue st ++ [default [] (bytes m)]), Looping)
      else if truthy (text m) then
        match json_loads (str_of (text m)) with
        | JsonObject (Some "stop") =>
            (mkState true (audio_in_queue st), Exited)
        | JsonObject _ => (st, Looping)
        | JsonDecodeError => (st, Looping)
        | JsonOther =>
            (* data.get raises AttributeError *)
            (mkState true (audio_in_queue st), Exited)
        end
      else (st, Looping)
  end.

(** The task run against the passes it lives through.  With the passes
    used up and the event unset the task is still waiting ([Looping]). *)
Fixpoint audio_receiver (json_loads : string -> Json) (passes : list Pass)
    (st : State) : State * Status :=
  if shutdown_event st then (st, Exited)
  else
    match passes with
    | [] => (st, Looping)
    | p :: rest =>
        let st1 :=
          mkState (shutdown_event st || set_meanwhile p)
            (audio_in_queue st) in
        match handle json_loads (received p) st1 with
        | (st2, Exited) => (st2, Exited)
        | (st2, Looping) => audio_receiver json_loads rest st2
        end
    end.

(** The audio a pass puts on the queue. *)
Definition payload (p : Pass) : list (list Byte.byte) :=
  match received p with
  | Received m =>
      if String.eqb (mtype m) "websocket.disconnect" then []
      else if truthy_bytes (bytes m) then [default [] (bytes m)] else []
  | _ => []
  end.

End Ingress.

(* ================================================================= *)
(** ** Concrete sessions used to exercise the statements *)

Module Fixtures.

(** The float literal [0.9]. *)
Definition float_0_9 : float := 0x1.ccccccccccccdp-1%float.

Definition fresh_state : AgentState :=
  initial_state "test-session-001" 0%float.

(** A state classified as a lost-card request with a given confidence (the
    cases of the router's tests use 0.9 and 0.3). *)
Definition state_card_atm (confidence : float) : AgentState :=
  set_intent_confidence (Some confidence)
    (set_intent (Some "card_atm") fresh_state).

(** The session after the caller said that the card is lost. *)
Definition state_lost_card : AgentState :=
  user_turn "I lost my card" (state_card_atm float_0_9).

(** The same session, authenticated as CUST00001. *)
Definition state_authenticated : AgentState :=
  set_customer_id (Some "CUST00001")
    (set_authentication_method (Some "pin")
       (set_authenticated true state_lost_card)).

(** A session suspended inside the security check after [n] failed
    attempts. *)
Definition state_awaiting_pin (n : Z) : AgentState :=
  set_resume_node (Some "security_check")
    (set_needs_user_input true
       (set_verification_attempts n state_lost_card)).

(** An escalated session whose flow stage is ["complete"]. *)
Definition state_escalated_complete : AgentState :=
  set_flow_stage (Some "complete")
    (set_escalation_requested true state_lost_card).

Definition api_error : exn := Exception "Exception" "API Error".

Definition classified_card : IntentClassification.t :=
  IntentClassification.mk "card_atm" float_0_9 "User mentioned lost card".

Definition wrong_pin : IdentityExtraction.t :=
  IdentityExtraction.mk (Some "CUST00001") (Some "0000") true.

Definition no_account_action : AccountServiceAction.t :=
  AccountServiceAction.mk "gather_info" None None "How can I help?".

(** An environment whose model answers are fixed in advance; the stored
    hash of a PIN is the PIN itself. *)
Definition scripted (i : outcome IntentClassification.t)
    (x : outcome IdentityExtraction.t) (c : outcome CardAction.t)
    (a : outcome AccountServiceAction.t) : Env :=
  mkEnv (fun _ => i) (fun _ => x) (fun _ => c) (fun _ => a)
    "intent prompt" "identity prompt"
    (fun _ _ => "card prompt") (fun _ _ => "account prompt")
    (fun pin hash => Return (String.eqb pin hash))
    (fun s => s) (fun _ => "0.00") (fun _ => None).

Definition env_card (c : outcome CardAction.t) : Env :=
  scripted (Return classified_card) (Return wrong_pin) c
    (Return no_account_action).

Definition env_account (a : outcome AccountServiceAction.t) : Env :=
  scripted (Return classified_card) (Return wrong_pin)
    (Raise api_error) a.

Definition env_model_down : Env :=
  scripted (Raise api_error) (Raise api_error) (Raise api_error)
    (Raise api_error).

(** One customer (PIN 1234) with one account and one active card. *)
Definition world0 : World :=
  mkWorld
    {[ "CUST00001" :=
         Models.mkCustomer "CUST00001" "Test Customer" None None "1234" ]}
    [Models.mkAccount "ACC000010" "CUST00001" "checking" 100%float "USD"]
    {[ "CARD000010" :=
         Models.mkCard "CARD000010" "ACC000010" "4242" "active" None None
           None ]}
    None
    (fun n => match n with
              | O => "2026-01-01T00:00:00.000100"
              | _ => "2026-01-01T00:00:00.000200"
              end)
    "20260101000000" "20260101" [].

Definition block_request (confirm : bool) : CardAction.t :=
  CardAction.mk "block_card" (Some "CARD000010") (Some "Lost") confirm
    "To protect your account, would you like me to block this card?".

Definition status_request_without_card : CardAction.t :=
  CardAction.mk "check_status" None None false
    "Let me check the status of your card.".

(** The model reads CUST00001 and the PIN 0000 out of every conversation. *)
Definition env_wrong_pin : Env := env_card (Raise api_error).

(** The fresh session after the caller gave a wrong PIN once. *)
Definition state_first_attempt : AgentState :=
  user_turn "My ID is CUST00001 and my PIN is 0000" fresh_state.

Definition state_after_first_failure : AgentState :=
  match snd (security_check_node env_wrong_pin state_first_attempt world0) with
  | Return s => s
  | Raise _ => state_first_attempt
  end.

Definition balance_request : AccountServiceAction.t :=
  AccountServiceAction.mk "get_balance" None None "Let me check that.".

End Fixtures.
Import Fixtures.

Module MoreFixtures.

Definition right_pin : IdentityExtraction.t :=
  IdentityExtraction.mk (Some "CUST00001") (Some "1234") true.

Definition unknown_customer : IdentityExtraction.t :=
  IdentityExtraction.mk (Some "CUST99999") (Some "1234") true.

(** The model reads CUST00001 and the right PIN out of every
    conversation. *)
Definition env_right_pin : Env :=
  scripted (Return classified_card) (Return right_pin) (Raise api_error)
    (Return no_account_action).

Definition env_unknown_customer : Env :=
  scripted (Return classified_card) (Return unknown_customer)
    (Raise api_error) (Return no_account_action).

(** The database of [world0], unreachable. *)
Definition world_db_down : World :=
  mkWorld (customers world0) (accounts world0) (cards world0)
    (Some (Exception "OperationalError" "connection refused"))
    (utcnow_iso world0) (now_stamp world0) (now_day world0) [].

Definition profile_request_without_fields : AccountServiceAction.t :=
  AccountServiceAction.mk "update_profile" None None
    "What would you like to update?".

Definition status_request (card : string) : CardAction.t :=
  CardAction.mk "check_status" (Some card) None false
    "Let me check the status of your card.".

(** An authenticated session that is neither suspended nor finished. *)
Definition state_open : AgentState :=
  set_needs_user_input false (set_resume_node None state_authenticated).

Definition address_update : AccountServiceAction.t :=
  AccountServiceAction.mk "update_profile" None
    (Some [("address", "1 Main St")]) "I will update your address.".





(** Frames of a voice session: two chunks of audio, a control message the
    parser reads as [{"type": "stop"}], and one it cannot parse. *)
Definition chunk_a : list Byte.byte := [Byte.x01; Byte.x02].
Definition chunk_b : list Byte.byte := [Byte.x03].

Definition binary_frame (b : list Byte.byte) : Ingress.Pass :=
  Ingress.mkPass false
    (Ingress.Received (Ingress.mkMessage "websocket.receive" (Some b) None)).

Definition text_frame (s : string) : Ingress.Pass :=
  Ingress.mkPass false
    (Ingress.Received (Ingress.mkMessage "websocket.receive" None (Some s))).

Definition parse_control (s : string) : Ingress.Json :=
  if String.eqb s "stop-message" then Ingress.JsonObject (Some "stop")
  else Ingress.JsonDecodeError.

Definition idle : Ingress.State := Ingress.mkState false [].

End MoreFixtures.
Import MoreFixtures.

(* ================================================================= *)
(** * Properties *)

(** ** Floats: the comparison made by the router *)

Lemma Prim2SF_half :
  Prim2SF 0.5%float = S754_finite false 4503599627370496 (-53).
Proof. vm_compute. reflexivity. Qed.

(** [0.5 <= c] excludes [c < 0.5]; neither holds when [c] is a NaN. *)
Lemma float_ge_half_not_lt (c : float) :
  PrimFloat.leb 0.5%float c = true -> PrimFloat.ltb c 0.5%float = false.
Proof.
  rewrite leb_spec, ltb_spec, Prim2SF_half.
  generalize (Prim2SF c). intros x.
  unfold SFleb, SFltb.
  destruct x as [sg | sg | | sg m e]; cbn [SFcompare];
    try (destruct sg); try done.
  rewrite (Z.compare_antisym e (-53)).
  destruct (e ?= -53)%Z eqn:He; cbn [CompOpp]; try done.
  rewrite (ZC4 4503599627370496 m).
  destruct (Pos.compare_cont Eq m 4503599627370496); cbn [CompOpp]; done.
Qed.

(** ** Truthiness *)

Lemma truthy_Some (o : option string) :
  truthy o = true -> exists s, o = Some s /\ s <> EmptyString /\ str_of o = s.
Proof.
  destruct o as [s|]; simpl; [|done].
  intros H. exists s. split; [done|]. split; [|done].
  intros ->. simpl in H. done.
Qed.

(** ** Routing out of the intent router *)

Lemma route_to_flow_confident (s : AgentState) (c : float) :
  truthy (resume_node s) = false ->
  intent_confidence s = Some c ->
  PrimFloat.leb 0.5%float c = true ->
  route_to_flow s =
    Return (dict_get intent_to_node (intent s) "general_inquiry_node").
Proof.
  intros Hres Hc Hge. unfold route_to_flow.
  by rewrite Hres, Hc, (float_ge_half_not_lt c Hge).
Qed.

(** C3. With [resume_node] unset and a confidence [c]: if [c >= 0.5] each
    of the seven intents is routed to its documented node ([card_atm],
    [account_servicing], [transfer_payment] and [account_closure] to
    [security_check], [account_opening] to [opening_agent],
    [digital_support] to [digital_agent], [general_inquiry] to
    [general_inquiry_node]); if [c < 0.5] the route is
    [general_inquiry_node] whatever the intent. *)
Theorem route_to_flow_routing_table (s : AgentState) (c : float) :
  truthy (resume_node s) = false ->
  intent_confidence s = Some c ->
  (PrimFloat.leb 0.5%float c = true ->
     (intent s = Some "card_atm" ->
        route_to_flow s = Return "security_check") /\
     (intent s = Some "account_servicing" ->
        route_to_flow s = Return "security_check") /\
     (intent s = Some "transfer_payment" ->
        route_to_flow s = Return "security_check") /\
     (intent s = Some "account_closure" ->
        route_to_flow s = Return "security_check") /\
     (intent s = Some "account_opening" ->
        route_to_flow s = Return "opening_agent") /\
     (intent s = Some "digital_support" ->
        route_to_flow s = Return "digital_agent") /\
     (intent s = Some "general_inquiry" ->
        route_to_flow s = Return "general_inquiry_node")) /\
  (PrimFloat.ltb c 0.5%float = true ->
     route_to_flow s = Return "general_inquiry_node").
Proof.
  intros Hres Hc. split.
  - intros Hge.
    pose proof (route_to_flow_confident s c Hres Hc Hge) as Hr.
    repeat split; intros Hi; rewrite Hr, Hi; reflexivity.
  - intros Hlt. unfold route_to_flow. by rewrite Hres, Hc, Hlt.
Qed.

Lemma route_to_flow_routing_table_witness :
  route_to_flow (state_card_atm float_0_9) = Return "security_check" /\
  route_to_flow (state_card_atm float_0_3) = Return "general_inquiry_node".
Proof.
  split.
  - destruct (route_to_flow_routing_table (state_card_atm float_0_9)
                float_0_9 eq_refl eq_refl) as [Hhigh _].
    destruct (Hhigh eq_refl) as [Hcard _].
    exact (Hcard eq_refl).
  - destruct (route_to_flow_routing_table (state_card_atm float_0_3)
                float_0_3 eq_refl eq_refl) as [_ Hlow].
    exact (Hlow eq_refl).
Defined.

(** Classification followed by routing: a confident answer of the model is
    routed by the table. *)
Lemma route_after_classification (env : Env) (s : AgentState)
    (m : BaseMessage) (r : IntentClassification.t) :
  truthy (resume_node s) = false ->
  last (user_messages s) = Some m ->
  llm_intent env [SystemMessage (INTENT_SYSTEM_PROMPT env);
                  HumanMessage (content m)] = Return r ->
  PrimFloat.leb 0.5%float (IntentClassification.confidence r) = true ->
  route_to_flow (route_intent_node env s) =
    Return (dict_get intent_to_node (Some (IntentClassification.intent r))
              "general_inquiry_node").
Proof.
  intros Hres Hlast Hr Hge.
  assert (Hnode : route_intent_node env s =
            set_intent_confidence (Some (IntentClassification.confidence r))
              (set_intent (Some (IntentClassification.intent r)) s)).
  { unfold route_intent_node. by rewrite Hres, Hlast, Hr. }
  rewrite Hnode.
  rewrite (route_to_flow_confident _ (IntentClassification.confidence r));
    [reflexivity | exact Hres | reflexivity | exact Hge].
Qed.

Lemma resume_passthrough (env : Env) (s : AgentState) :
  truthy (resume_node s) = true ->
  route_intent_node env s = s /\
  route_to_flow s = Return (str_of (resume_node s)).
Proof.
  intros Hres. unfold route_intent_node, route_to_flow. by rewrite Hres.
Qed.

(** C4. When [resume_node] is set, the intent router returns the state as
    it is (so intent and confidence are the earlier ones) and the routing
    function returns the node named by [resume_node]. *)
Theorem resume_node_skips_classification (env : Env) (s : AgentState) :
  truthy (resume_node s) = true ->
  exists node,
    resume_node s = Some node /\
    route_intent_node env s = s /\
    intent (route_intent_node env s) = intent s /\
    intent_confidence (route_intent_node env s) = intent_confidence s /\
    route_to_flow (route_intent_node env s) = Return node.
Proof.
  intros Hres. destruct (truthy_Some _ Hres) as (node & Hn & _ & Hstr).
  exists node.
  destruct (resume_passthrough env s Hres) as [Hid Hroute].
  rewrite Hid, Hroute, Hstr. done.
Qed.

Lemma resume_node_skips_classification_witness :
  route_intent_node env_model_down (state_awaiting_pin 1)
    = state_awaiting_pin 1 /\
  route_to_flow (route_intent_node env_model_down (state_awaiting_pin 1))
    = Return "security_check".
Proof.
  destruct (resume_node_skips_classification env_model_down
              (state_awaiting_pin 1) eq_refl)
    as (node & Hnode & Hsame & _ & _ & Hroute).
  split; [exact Hsame|].
  rewrite Hroute. injection Hnode as <-. reflexivity.
Defined.

(** ** Classification fallbacks *)

Lemma user_messages_nil (s : AgentState) :
  Forall (fun m => type m <> "human") (messages s) -> user_messages s = [].
Proof.
  unfold user_messages. induction 1 as [|m ms Hm _ IH]; [done|].
  simpl. destruct (String.eqb_spec (type m) "human"); [done|exact IH].
Qed.

(** C7. When classification runs ([resume_node] unset): with no user
    message in the history the result is the state with intent
    [general_inquiry] and confidence 0.5; when the model call raises, it is
    the state with intent [general_inquiry] and confidence 0.3.  The node
    is a total function to states: nothing is raised in either case. *)
Theorem route_intent_node_fallbacks (env : Env) (s : AgentState) :
  truthy (resume_node s) = false ->
  (Forall (fun m => type m <> "human") (messages s) ->
     route_intent_node env s =
       set_intent_confidence (Some 0.5%float)
         (set_intent (Some "general_inquiry") s) /\
     intent (route_intent_node env s) = Some "general_inquiry" /\
     intent_confidence (route_intent_node env s) = Some 0.5%float) /\
  (forall m e,
     last (user_messages s) = Some m ->
     llm_intent env [SystemMessage (INTENT_SYSTEM_PROMPT env);
                     HumanMessage (content m)] = Raise e ->
     route_intent_node env s =
       set_intent_confidence (Some float_0_3)
         (set_intent (Some "general_inquiry") s) /\
     intent (route_intent_node env s) = Some "general_inquiry" /\
     intent_confidence (route_intent_node env s) = Some float_0_3).
Proof.
  intros Hres. split.
  - intros Hnone. unfold route_intent_node.
    rewrite Hres, (user_messages_nil s Hnone). simpl. done.
  - intros m e Hlast Hraise. unfold route_intent_node.
    rewrite Hres, Hlast, Hraise. done.
Qed.

Lemma route_intent_node_fallbacks_witness :
  intent_confidence (route_intent_node env_model_down fresh_state)
    = Some 0.5%float /\
  intent (route_intent_node env_model_down state_lost_card)
    = Some "general_inquiry" /\
  intent_confidence (route_intent_node env_model_down state_lost_card)
    = Some float_0_3.
Proof.
  split.
  - destruct (route_intent_node_fallbacks env_model_down fresh_state eq_refl)
      as [Hnone _].
    destruct (Hnone (List.Forall_nil _)) as (_ & _ & Hc). exact Hc.
  - destruct (route_intent_node_fallbacks env_model_down state_lost_card
                eq_refl) as [_ Hraise].
    destruct (Hraise (HumanMessage "I lost my card") api_error
                eq_refl eq_refl) as (_ & Hi & Hc).
    split; [exact Hi | exact Hc].
Defined.

(** ** Completion checks *)

(** C2 as stated fails for the general-inquiry handler: the check on its
    outgoing edge reads [flow_stage] only, so an escalated state whose flow
    stage is ["complete"] yields [complete], not [escalation]. *)
Lemma general_inquiry_edge_ignores_escalation :
  escalation_requested state_escalated_complete = true /\
  completion_check general_inquiry_node state_escalated_complete
    = Return "complete" /\
  completion_check general_inquiry_node state_escalated_complete
    <> Return "escalation".
Proof. split; [reflexivity|]. split; [reflexivity | discriminate]. Qed.

Lemma flow_stage_terminal_card (s : AgentState) :
  flow_stage s <> Some "complete" ->
  flow_stage s <> Some "card_blocked" ->
  match flow_stage s with
  | Some stage => str_in stage ["card_blocked"; "complete"]
  | None => false
  end = false.
Proof.
  intros Hc Hb. destruct (flow_stage s) as [stage|]; [|done].
  unfold str_in. simpl.
  destruct (String.eqb_spec stage "card_blocked") as [->|_]; [done|].
  destruct (String.eqb_spec stage "complete") as [->|_]; done.
Qed.

(** C2, amended.  The checks of the card, account-servicing and stub
    handlers test, in this order, [escalation_requested] (result
    [escalation]), [needs_user_input] (result [__end__], which ends the
    graph) and a terminal [flow_stage] (result [complete]: ["complete"], and
    for the card handler also ["card_blocked"]); past these the card and
    account checks name their own handler.  So for these handlers an
    escalated state yields [escalation] whatever the other fields are.  The
    general-inquiry check depends on [flow_stage] alone. *)
Theorem completion_check_priority (s : AgentState) :
  (forall h, h <> general_inquiry_node ->
     (escalation_requested s = true ->
        completion_check h s = Return "escalation") /\
     (escalation_requested s = false -> needs_user_input s = true ->
        completion_check h s = Return "__end__") /\
     (escalation_requested s = false -> needs_user_input s = false ->
      flow_stage s = Some "complete" ->
        completion_check h s = Return "complete")) /\
  (escalation_requested s = false -> needs_user_input s = false ->
     (flow_stage s = Some "card_blocked" ->
        completion_check card_atm_agent s = Return "complete") /\
     (flow_stage s <> Some "complete" -> flow_stage s <> Some "card_blocked" ->
        completion_check card_atm_agent s
          = Return (node_name card_atm_agent)) /\
     (flow_stage s <> Some "complete" ->
        completion_check account_servicing_agent s
          = Return (node_name account_servicing_agent))) /\
  (flow_stage s = Some "complete" ->
     completion_check general_inquiry_node s = Return "complete") /\
  (flow_stage s <> Some "complete" ->
     completion_check general_inquiry_node s = Return "general_inquiry_node").
Proof.
  split; [|split; [|split]].
  - intros h Hh. repeat split.
    + intros He. destruct h; try done; simpl;
        unfold check_card_flow_completion, check_account_flow_completion,
          check_flow_completion; by rewrite He.
    + intros He Hn. destruct h; try done; simpl;
        unfold check_card_flow_completion, check_account_flow_completion,
          check_flow_completion; by rewrite He, Hn.
    + intros He Hn Hf. destruct h; try done; simpl;
        unfold check_card_flow_completion, check_account_flow_completion,
          check_flow_completion; by rewrite He, Hn, Hf.
  - intros He Hn. repeat split.
    + intros Hf. simpl. unfold check_card_flow_completion.
      by rewrite He, Hn, Hf.
    + intros Hc Hb. simpl. unfold check_card_flow_completion.
      by rewrite He, Hn, (flow_stage_terminal_card s Hc Hb).
    + intros Hc. simpl. unfold check_account_flow_completion.
      rewrite He, Hn. by rewrite bool_decide_eq_false_2.
  - intros Hf. simpl. unfold general_inquiry_edge. by rewrite Hf.
  - intros Hf. simpl. unfold general_inquiry_edge.
    by rewrite bool_decide_eq_false_2.
Qed.

Lemma completion_check_priority_witness :
  completion_check card_atm_agent state_escalated_complete
    = Return "escalation" /\
  completion_check closure_agent (state_awaiting_pin 1) = Return "__end__" /\
  completion_check card_atm_agent state_lost_card = Return "card_atm_agent" /\
  completion_check general_inquiry_node state_escalated_complete
    = Return "complete".
Proof.
  split; [|split; [|split]].
  - destruct (completion_check_priority state_escalated_complete)
      as (Hall & _).
    destruct (Hall card_atm_agent ltac:(discriminate)) as (Hesc & _).
    exact (Hesc eq_refl).
  - destruct (completion_check_priority (state_awaiting_pin 1))
      as (Hall & _).
    destruct (Hall closure_agent ltac:(discriminate)) as (_ & Hend & _).
    exact (Hend eq_refl eq_refl).
  - destruct (completion_check_priority state_lost_card)
      as (_ & Hown & _).
    destruct (Hown eq_refl eq_refl) as (_ & Hcard & _).
    exact (Hcard ltac:(discriminate) ltac:(discriminate)).
  - destruct (completion_check_priority state_escalated_complete)
      as (_ & _ & Hgen & _).
    exact (Hgen eq_refl).
Defined.

(** Past the three tests the stub check does not name the handler it is
    attached to: it appends ["_agent"] to the intent label, and no node is
    registered under that name; with no intent it raises. *)
Remark stub_check_names_no_handler :
  check_flow_completion (set_intent (Some "account_opening") fresh_state)
    = Return "account_opening_agent" /\
  node_name opening_agent = "opening_agent" /\
  is_raise (check_flow_completion fresh_state) = true.
Proof. split; [reflexivity|]. split; reflexivity. Qed.

(** ** The connection registry *)

(** C8. For a session id with no registered handle, [send_json] and
    [send_bytes] return normally and leave the transport as it was: nothing
    is written to any handle and nothing is raised. *)
Theorem send_to_unregistered_session (self : Registry.VoiceConnectionManager)
    (session_id : string) (t : Registry.Transport) :
  Registry.active_connections self !! session_id = None ->
  (forall message,
     Registry.send_json self session_id message t = (t, Return tt)) /\
  (forall data,
     Registry.send_bytes self session_id data t = (t, Return tt)).
Proof.
  intros Hnone. split; intros x;
    unfold Registry.send_json, Registry.send_bytes; by rewrite Hnone.
Qed.

Lemma disconnect_unregisters (self : Registry.VoiceConnectionManager)
    (session_id : string) :
  Registry.active_connections (Registry.disconnect self session_id)
    !! session_id = None.
Proof.
  unfold Registry.disconnect. case_bool_decide as Hin; simpl.
  - apply lookup_delete_eq.
  - by apply eq_None_not_Some.
Qed.

Lemma send_to_unregistered_session_witness :
  Registry.send_json Registry.init "closed-session" [("type", "audio_end")]
    (Registry.mkTransport [] ∅ [])
    = (Registry.mkTransport [] ∅ [], Return tt) /\
  Registry.send_bytes Registry.init "closed-session" []
    (Registry.mkTransport [] ∅ [])
    = (Registry.mkTransport [] ∅ [], Return tt).
Proof.
  destruct (send_to_unregistered_session Registry.init "closed-session"
              (Registry.mkTransport [] ∅ []) (lookup_empty _))
    as [Hjson Hbytes].
  split; [apply Hjson | apply Hbytes].
Defined.

(** ** The monad and the tools *)

Ltac unfold_M :=
  repeat progress
    unfold mbind, M_bind, mret, M_ret, throw, lift, gets, modify, try_except,
      async_session, log_call, requires_auth, log_critical_action in *.

Lemma new_calls_same (w : World) : new_calls w w = [].
Proof. unfold new_calls. apply drop_all. Qed.

Lemma new_calls_logged (w w' : World) (l : list ToolCall) :
  tool_log w' = (tool_log w ++ l)%list -> new_calls w w' = l.
Proof. unfold new_calls. intros ->. apply drop_app_length. Qed.

Lemma try_except_world {A} (body : M A) (h : exn -> A) (w : World) :
  try_except body (fun e => mret (h e)) w =
    (fst (body w),
     Return (match snd (body w) with Return a => a | Raise e => h e end)).
Proof.
  unfold try_except, mret, M_ret.
  destruct (body w) as [w' [a|e]]; reflexivity.
Qed.

(** A call of [block_card] is logged once, whatever comes of it; only the
    [cards] table and the log can differ afterwards. *)
Lemma block_card_effect (s : AgentState) (c r : string) (w : World) :
  exists cs o,
    Banking.block_card s c r w =
      (set_cards cs (set_tool_log (tool_log w ++ [Call_block_card c r]) w), o).
Proof.
  unfold Banking.block_card, Banking.block_card_body. unfold_M.
  unfold set_cards, set_tool_log. cbn.
  destruct (authenticated s); cbn;
    [|eexists (cards w), _; reflexivity].
  destruct (db_fault w) as [e|]; cbn;
    [eexists (cards w), _; reflexivity|].
  destruct (cards w !! c) as [card|]; cbn;
    [|eexists (cards w), _; reflexivity].
  destruct (String.eqb (Models.status card) "blocked"); cbn.
  - destruct (Models.blocked_at card); cbn;
      eexists (cards w), _; reflexivity.
  - eexists _, _; reflexivity.
Qed.

Lemma get_card_details_effect (s : AgentState) (c : string) (w : World) :
  exists o,
    Banking.get_card_details s c w =
      (set_tool_log (tool_log w ++ [Call_get_card_details c]) w, o).
Proof.
  unfold Banking.get_card_details. unfold_M. unfold set_tool_log. cbn.
  destruct (db_fault w) as [e|]; cbn; [eexists; reflexivity|].
  destruct (cards w !! c) as [card|]; cbn; eexists; reflexivity.
Qed.

(** ** The card agent *)

Lemma block_not_invoked_same (w : World) : block_invoked w w = false.
Proof. unfold block_invoked. by rewrite new_calls_same. Qed.

Lemma block_invoked_logged (w : World) (cs : gmap string Models.Card)
    (c r : string) :
  block_invoked w
    (set_cards cs (set_tool_log (tool_log w ++ [Call_block_card c r]) w))
    = true.
Proof.
  unfold block_invoked.
  by rewrite (new_calls_logged _ _ [Call_block_card c r]).
Qed.

Lemma block_not_invoked_details (w : World) (c : string) :
  block_invoked w
    (set_tool_log (tool_log w ++ [Call_get_card_details c]) w) = false.
Proof.
  unfold block_invoked.
  by rewrite (new_calls_logged _ _ [Call_get_card_details c]).
Qed.

Lemma card_try_decided (env : Env) (s : AgentState) (w : World)
    (d : CardAction.t) :
  llm_card env (card_agent_prompt env s) = Return d ->
  card_atm_agent_try env s w = card_atm_agent_dispatch s d w.
Proof.
  intros Hd. unfold card_atm_agent_try, mbind, M_bind, lift. by rewrite Hd.
Qed.

Lemma card_try_raised (env : Env) (s : AgentState) (w : World) (e : exn) :
  llm_card env (card_agent_prompt env s) = Raise e ->
  card_atm_agent_try env s w = (w, Raise e).
Proof.
  intros Hd. unfold card_atm_agent_try, mbind, M_bind, lift. by rewrite Hd.
Qed.

(** The world a dispatch ends in: [block_card] is called exactly when the
    decision is a confirmed block naming a card. *)
Lemma card_dispatch_world (s : AgentState) (d : CardAction.t) (w : World) :
  if String.eqb (CardAction.action d) "block_card"
     && negb (CardAction.confirmation_needed d)
     && truthy (CardAction.card_id d)
  then
    exists cs,
      fst (card_atm_agent_dispatch s d w) =
        set_cards cs
          (set_tool_log
             (tool_log w ++
              [Call_block_card (str_of (CardAction.card_id d))
                 (or_else (CardAction.reason d) "Customer request")]) w)
  else
    block_invoked w (fst (card_atm_agent_dispatch s d w)) = false /\
    cards (fst (card_atm_agent_dispatch s d w)) = cards w.
Proof.
  unfold card_atm_agent_dispatch. cbv zeta.
  destruct (String.eqb (CardAction.action d) "block_card"); cbn [andb].
  - destruct (CardAction.confirmation_needed d); cbn [andb negb].
    { split; [apply block_not_invoked_same | reflexivity]. }
    destruct (truthy (CardAction.card_id d)).
    2: { split; [apply block_not_invoked_same | reflexivity]. }
    destruct (block_card_effect s (str_of (CardAction.card_id d))
                (or_else (CardAction.reason d) "Customer request") w)
      as (cs & o & Hb).
    exists cs. unfold mbind, M_bind. rewrite Hb.
    destruct o as [[[] st]|e]; reflexivity.
  - destruct (String.eqb (CardAction.action d) "check_status").
    + destruct (truthy (CardAction.card_id d)).
      2: { split; [apply block_not_invoked_same | reflexivity]. }
      destruct (get_card_details_effect s (str_of (CardAction.card_id d)) w)
        as (o & Hg).
      unfold mbind, M_bind. rewrite Hg.
      destruct o as [info|e]; cbn [fst];
        (split; [apply block_not_invoked_details | reflexivity]).
    + destruct (String.eqb (CardAction.action d) "escalate");
        [split; [apply block_not_invoked_same | reflexivity]|].
      destruct (String.eqb (CardAction.action d) "complete");
        split; try apply block_not_invoked_same; reflexivity.
Qed.

Lemma card_node_run (env : Env) (s : AgentState) (w : World) :
  card_atm_agent_node env s w =
    (fst (card_atm_agent_try env s w),
     Return
       match snd (card_atm_agent_try env s w) with
       | Return r => r
       | Raise e => Some (agent_error card_apology e s)
       end).
Proof. unfold card_atm_agent_node. apply try_except_world. Qed.

Lemma card_dispatch_confirmation (s : AgentState) (d : CardAction.t)
    (w : World) :
  CardAction.action d = "block_card" ->
  CardAction.confirmation_needed d = true ->
  card_atm_agent_dispatch s d w =
    (w, Return (Some (ask_user "card_atm_agent" (CardAction.response d)
                        (set_flow_stage (Some "awaiting_confirmation") s)))).
Proof.
  intros Ha Hc. unfold card_atm_agent_dispatch. cbv zeta.
  rewrite Ha, Hc. reflexivity.
Qed.

Lemma card_dispatch_blocks (s : AgentState) (d : CardAction.t) (w : World)
    (c : string) (card : Models.Card) :
  CardAction.action d = "block_card" ->
  CardAction.confirmation_needed d = false ->
  CardAction.card_id d = Some c -> c <> EmptyString ->
  authenticated s = true ->
  db_fault w = None ->
  cards w !! c = Some card ->
  Models.status card <> "blocked" ->
  exists w' s',
    card_atm_agent_dispatch s d w = (w', Return (Some s')) /\
    Models.status <$> (cards w' !! c) = Some "blocked" /\
    flow_stage s' = Some "card_blocked" /\
    critical_actions_taken s'
      = (critical_actions_taken s ++ ["CARD_BLOCKED"])%list /\
    messages s' =
      (messages s ++
       [AIMessage
          ("Your card ending in XXXX has been blocked successfully. "
           ++ "Reference number: " ++ ("BLK-" ++ c ++ "-" ++ now_stamp w)
           ++ ". "
           ++ "A replacement card will be mailed to your address on file within 5-7 business days. "
           ++ "Is there anything else I can help you with?")])%list.
Proof.
  intros Ha Hc Hid Hne Hauth Hdb Hcard Hst.
  unfold card_atm_agent_dispatch. cbv zeta.
  rewrite Ha, Hc, Hid. cbn [negb truthy str_of String.eqb Ascii.eqb].
  assert (Ht : negb (String.eqb c EmptyString) = true).
  { destruct (String.eqb_spec c EmptyString); done. }
  change ("block_card" =? "block_card")%string with true. cbv iota.
  rewrite Ht.
  unfold Banking.block_card, Banking.block_card_body. unfold_M.
  unfold set_cards, set_tool_log.
  rewrite Hauth. cbn. rewrite Hdb. cbn. rewrite Hcard. cbn.
  destruct (String.eqb_spec (Models.status card) "blocked") as [Hb|_];
    [done|].
  cbn. eexists _, _. split; [reflexivity|]. cbn.
  rewrite lookup_insert_eq. done.
Qed.

(** C5. Card blocking in two phases.  On a turn whose decision is
    [block_card] with [confirmation_needed] true, no tool is called and
    nothing in the world changes; the node returns the state with
    [flow_stage = "awaiting_confirmation"], [needs_user_input] true and
    [resume_node = "card_atm_agent"], so the check suspends the graph.
    [block_card] is called, or the card table changes, only on a turn whose
    decision is [block_card] with [confirmation_needed] false and a card id
    present; on such a turn it is called, and when the session is
    authenticated and the card exists and is not yet blocked, the card
    becomes blocked and the reply carries the reference id. *)
Theorem card_block_two_phase (env : Env) (s : AgentState) (w : World) :
  (forall d,
     llm_card env (card_agent_prompt env s) = Return d ->
     CardAction.action d = "block_card" ->
     CardAction.confirmation_needed d = true ->
     exists s',
       card_atm_agent_node env s w = (w, Return (Some s')) /\
       block_invoked w w = false /\
       flow_stage s' = Some "awaiting_confirmation" /\
       needs_user_input s' = true /\
       resume_node s' = Some "card_atm_agent" /\
       critical_actions_taken s' = critical_actions_taken s /\
       messages s' = (messages s ++ [AIMessage (CardAction.response d)])%list /\
       (escalation_requested s = false ->
        check_card_flow_completion s' = "__end__")) /\
  (forall w' r,
     card_atm_agent_node env s w = (w', r) ->
     block_invoked w w' = true \/ cards w' <> cards w ->
     exists d,
       llm_card env (card_agent_prompt env s) = Return d /\
       CardAction.action d = "block_card" /\
       CardAction.confirmation_needed d = false /\
       truthy (CardAction.card_id d) = true) /\
  (forall d c,
     llm_card env (card_agent_prompt env s) = Return d ->
     CardAction.action d = "block_card" ->
     CardAction.confirmation_needed d = false ->
     CardAction.card_id d = Some c -> c <> EmptyString ->
     block_invoked w (fst (card_atm_agent_node env s w)) = true /\
     (forall card,
        authenticated s = true ->
        db_fault w = None ->
        cards w !! c = Some card ->
        Models.status card <> "blocked" ->
        exists w' s',
          card_atm_agent_node env s w = (w', Return (Some s')) /\
          Models.status <$> (cards w' !! c) = Some "blocked" /\
          flow_stage s' = Some "card_blocked" /\
          messages s' =
            (messages s ++
             [AIMessage
                ("Your card ending in XXXX has been blocked successfully. "
                 ++ "Reference number: "
                 ++ ("BLK-" ++ c ++ "-" ++ now_stamp w) ++ ". "
                 ++ "A replacement card will be mailed to your address on file within 5-7 business days. "
                 ++ "Is there anything else I can help you with?")])%list)).
Proof.
  split; [|split].
  - intros d Hd Ha Hc.
    eexists. rewrite card_node_run, (card_try_decided env s w d Hd).
    rewrite (card_dispatch_confirmation s d w Ha Hc). cbn [fst snd].
    split; [reflexivity|]. split; [apply block_not_invoked_same|].
    repeat (split; [reflexivity|]).
    intros He. unfold check_card_flow_completion. cbn. by rewrite He.
  - intros w' r Hrun Hinv. rewrite card_node_run in Hrun.
    injection Hrun as Hw _. subst w'.
    destruct (llm_card env (card_agent_prompt env s)) as [d|e] eqn:Hd.
    + rewrite (card_try_decided env s w d Hd) in Hinv.
      pose proof (card_dispatch_world s d w) as Hworld.
      exists d. split; [reflexivity|].
      destruct (String.eqb_spec (CardAction.action d) "block_card")
        as [Ha|Ha]; cbn [andb] in Hworld.
      * destruct (CardAction.confirmation_needed d); cbn [andb negb] in Hworld.
        { destruct Hworld as [Hb Hc]. destruct Hinv; congruence. }
        destruct (truthy (CardAction.card_id d)); [done|].
        destruct Hworld as [Hb Hc]. destruct Hinv; congruence.
      * destruct Hworld as [Hb Hc]. destruct Hinv; congruence.
    + rewrite (card_try_raised env s w e Hd) in Hinv. cbn [fst] in Hinv.
      rewrite block_not_invoked_same in Hinv. destruct Hinv; congruence.
  - intros d c Hd Ha Hc Hid Hne. split.
    + rewrite card_node_run, (card_try_decided env s w d Hd). cbn [fst].
      pose proof (card_dispatch_world s d w) as Hworld.
      rewrite Ha, Hc, Hid in Hworld. cbn [negb truthy] in Hworld.
      destruct (String.eqb_spec c EmptyString); [done|].
      change ("block_card" =? "block_card")%string with true in Hworld.
      cbn [andb negb] in Hworld. destruct Hworld as [cs ->].
      apply block_invoked_logged.
    + intros card Hauth Hdb Hcard Hst.
      destruct (card_dispatch_blocks s d w c card Ha Hc Hid Hne Hauth Hdb
                  Hcard Hst) as (w' & s' & Hrun & Hblocked & Hfs & _ & Hmsg).
      exists w', s'.
      rewrite card_node_run, (card_try_decided env s w d Hd), Hrun.
      done.
Qed.

Lemma card_block_two_phase_witness :
  (exists s',
     card_atm_agent_node (env_card (Return (block_request true)))
       state_authenticated world0 = (world0, Return (Some s')) /\
     flow_stage s' = Some "awaiting_confirmation" /\
     needs_user_input s' = true) /\
  block_invoked world0
    (fst (card_atm_agent_node (env_card (Return (block_request false)))
            state_authenticated world0)) = true /\
  (exists w' s',
     card_atm_agent_node (env_card (Return (block_request false)))
       state_authenticated world0 = (w', Return (Some s')) /\
     Models.status <$> (cards w' !! "CARD000010") = Some "blocked" /\
     flow_stage s' = Some "card_blocked").
Proof.
  split; [|split].
  - destruct (card_block_two_phase (env_card (Return (block_request true)))
                state_authenticated world0) as (Hask & _).
    destruct (Hask (block_request true) eq_refl eq_refl eq_refl)
      as (s' & Hrun & _ & Hfs & Hn & _).
    exists s'. split; [exact Hrun|]. split; [exact Hfs | exact Hn].
  - destruct (card_block_two_phase (env_card (Return (block_request false)))
                state_authenticated world0) as (_ & _ & Hdo).
    destruct (Hdo (block_request false) "CARD000010" eq_refl eq_refl eq_refl
                eq_refl ltac:(discriminate)) as (Hcalled & _).
    exact Hcalled.
  - destruct (card_block_two_phase (env_card (Return (block_request false)))
                state_authenticated world0) as (_ & _ & Hdo).
    destruct (Hdo (block_request false) "CARD000010" eq_refl eq_refl eq_refl
                eq_refl ltac:(discriminate)) as (_ & Hblocks).
    destruct (Hblocks
                (Models.mkCard "CARD000010" "ACC000010" "4242" "active" None
                   None None)
                eq_refl eq_refl ltac:(vm_compute; reflexivity)
                ltac:(discriminate))
      as (w' & s' & Hrun & Hst & Hfs & _).
    exists w', s'. split; [exact Hrun|]. split; [exact Hst | exact Hfs].
Defined.

(** ** Exceptions inside the two agents *)

Lemma bind_raise {A B} (m : M A) (k : A -> M B) (w w' : World) (e : exn) :
  m w = (w', Raise e) -> (m ≫= k) w = (w', Raise e).
Proof. intros H. unfold mbind, M_bind. by rewrite H. Qed.

Lemma account_node_run (env : Env) (s : AgentState) (w : World) :
  account_servicing_agent_node env s w =
    (fst (account_servicing_agent_try env s w),
     Return
       match snd (account_servicing_agent_try env s w) with
       | Return r => r
       | Raise e => Some (agent_error account_apology e s)
       end).
Proof. unfold account_servicing_agent_node. apply try_except_world. Qed.

Lemma account_try_decided (env : Env) (s : AgentState) (w : World)
    (d : AccountServiceAction.t) :
  llm_account env (account_agent_prompt env s) = Return d ->
  account_servicing_agent_try env s w
    = account_servicing_agent_dispatch env s d w.
Proof.
  intros Hd. unfold account_servicing_agent_try, mbind, M_bind, lift.
  by rewrite Hd.
Qed.

Lemma account_try_raised (env : Env) (s : AgentState) (w : World) (e : exn) :
  llm_account env (account_agent_prompt env s) = Raise e ->
  account_servicing_agent_try env s w = (w, Raise e).
Proof.
  intros Hd. unfold account_servicing_agent_try, mbind, M_bind, lift.
  by rewrite Hd.
Qed.

Lemma agent_error_fields (apology : string) (e : exn) (s : AgentState) :
  escalation_requested (agent_error apology e s) = true /\
  escalation_reason (agent_error apology e s)
    = Some ("Agent error: " ++ exn_str e) /\
  messages (agent_error apology e s)
    = (messages s ++ [AIMessage apology])%list.
Proof. done. Qed.

(** A tool that raises makes the dispatch raise the same exception. *)
Lemma card_dispatch_tool_raises (s : AgentState) (d : CardAction.t)
    (w w' : World) (e : exn) :
  (CardAction.action d = "block_card" /\
   CardAction.confirmation_needed d = false /\
   truthy (CardAction.card_id d) = true /\
   Banking.block_card s (str_of (CardAction.card_id d))
     (or_else (CardAction.reason d) "Customer request") w = (w', Raise e)) \/
  (CardAction.action d = "check_status" /\
   truthy (CardAction.card_id d) = true /\
   Banking.get_card_details s (str_of (CardAction.card_id d)) w
     = (w', Raise e)) ->
  card_atm_agent_dispatch s d w = (w', Raise e).
Proof.
  unfold card_atm_agent_dispatch. cbv zeta.
  intros [(Ha & Hc & Hid & Hr) | (Ha & Hid & Hr)]; rewrite Ha.
  - change ("block_card" =? "block_card")%string with true. cbv iota.
    rewrite Hc, Hid. cbn [negb]. by apply bind_raise.
  - change ("check_status" =? "block_card")%string with false.
    change ("check_status" =? "check_status")%string with true. cbv iota.
    rewrite Hid. by apply bind_raise.
Qed.

Lemma account_dispatch_tool_raises (env : Env) (s : AgentState)
    (d : AccountServiceAction.t) (w w' : World) (e : exn) :
  (AccountServiceAction.action d = "get_balance" /\
   Banking.get_account_balance s (customer_id s) w = (w', Raise e)) \/
  (AccountServiceAction.action d = "request_statement" /\
   Banking.request_statement s (customer_id s)
     (or_else (AccountServiceAction.statement_period d) "monthly") w
     = (w', Raise e)) \/
  (AccountServiceAction.action d = "update_profile" /\
   exists updates,
     AccountServiceAction.profile_updates d = Some updates /\
     updates <> [] /\
     Banking.update_profile s (customer_id s) updates w = (w', Raise e)) ->
  account_servicing_agent_dispatch env s d w = (w', Raise e).
Proof.
  unfold account_servicing_agent_dispatch. cbv zeta.
  intros [(Ha & Hr) | [(Ha & Hr) | (Ha & updates & Hu & Hne & Hr)]];
    rewrite Ha.
  - change ("get_balance" =? "get_balance")%string with true. cbv iota.
    by apply bind_raise.
  - change ("request_statement" =? "get_balance")%string with false.
    change ("request_statement" =? "request_statement")%string with true.
    cbv iota. by apply bind_raise.
  - change ("update_profile" =? "get_balance")%string with false.
    change ("update_profile" =? "request_statement")%string with false.
    change ("update_profile" =? "update_profile")%string with true.
    cbv iota. rewrite Hu. destruct updates as [|kv kvs]; [done|].
    by apply bind_raise.
Qed.

(** C6. In the card agent and in the account-servicing agent, an exception
    raised inside the [try] block, by the model call or by a dispatched
    tool, is caught: the node returns the incoming state with
    [escalation_requested] true, [escalation_reason] equal to
    ["Agent error: "] followed by [str(e)], and one apology appended to the
    messages.  Neither node ever raises. *)
Theorem agent_exceptions_escalate (env : Env) (s : AgentState) (w : World) :
  (* any exception out of the try block *)
  (forall w' e,
     card_atm_agent_try env s w = (w', Raise e) ->
     card_atm_agent_node env s w
       = (w', Return (Some (agent_error card_apology e s)))) /\
  (forall w' e,
     account_servicing_agent_try env s w = (w', Raise e) ->
     account_servicing_agent_node env s w
       = (w', Return (Some (agent_error account_apology e s)))) /\
  (* the model call raises *)
  (forall e,
     llm_card env (card_agent_prompt env s) = Raise e ->
     card_atm_agent_node env s w
       = (w, Return (Some (agent_error card_apology e s)))) /\
  (forall e,
     llm_account env (account_agent_prompt env s) = Raise e ->
     account_servicing_agent_node env s w
       = (w, Return (Some (agent_error account_apology e s)))) /\
  (* a dispatched tool raises *)
  (forall d w' e,
     llm_card env (card_agent_prompt env s) = Return d ->
     (CardAction.action d = "block_card" /\
      CardAction.confirmation_needed d = false /\
      truthy (CardAction.card_id d) = true /\
      Banking.block_card s (str_of (CardAction.card_id d))
        (or_else (CardAction.reason d) "Customer request") w
        = (w', Raise e)) \/
     (CardAction.action d = "check_status" /\
      truthy (CardAction.card_id d) = true /\
      Banking.get_card_details s (str_of (CardAction.card_id d)) w
        = (w', Raise e)) ->
     card_atm_agent_node env s w
       = (w', Return (Some (agent_error card_apology e s)))) /\
  (forall d w' e,
     llm_account env (account_agent_prompt env s) = Return d ->
     (AccountServiceAction.action d = "get_balance" /\
      Banking.get_account_balance s (customer_id s) w = (w', Raise e)) \/
     (AccountServiceAction.action d = "request_statement" /\
      Banking.request_statement s (customer_id s)
        (or_else (AccountServiceAction.statement_period d) "monthly") w
        = (w', Raise e)) \/
     (AccountServiceAction.action d = "update_profile" /\
      exists updates,
        AccountServiceAction.profile_updates d = Some updates /\
        updates <> [] /\
        Banking.update_profile s (customer_id s) updates w
          = (w', Raise e)) ->
     account_servicing_agent_node env s w
       = (w', Return (Some (agent_error account_apology e s)))) /\
  (* what the returned state holds *)
  (forall apology e,
     escalation_requested (agent_error apology e s) = true /\
     escalation_reason (agent_error apology e s)
       = Some ("Agent error: " ++ exn_str e) /\
     messages (agent_error apology e s)
       = (messages s ++ [AIMessage apology])%list) /\
  (* nothing propagates *)
  is_raise (snd (card_atm_agent_node env s w)) = false /\
  is_raise (snd (account_servicing_agent_node env s w)) = false.
Proof.
  assert (Hcard : forall w' e,
            card_atm_agent_try env s w = (w', Raise e) ->
            card_atm_agent_node env s w
              = (w', Return (Some (agent_error card_apology e s)))).
  { intros w' e H. by rewrite card_node_run, H. }
  assert (Hacct : forall w' e,
            account_servicing_agent_try env s w = (w', Raise e) ->
            account_servicing_agent_node env s w
              = (w', Return (Some (agent_error account_apology e s)))).
  { intros w' e H. by rewrite account_node_run, H. }
  split; [exact Hcard|]. split; [exact Hacct|].
  split; [intros e He; apply Hcard; by apply card_try_raised|].
  split; [intros e He; apply Hacct; by apply account_try_raised|].
  split.
  { intros d w' e Hd Htool. apply Hcard.
    rewrite (card_try_decided env s w d Hd).
    by apply card_dispatch_tool_raises. }
  split.
  { intros d w' e Hd Htool. apply Hacct.
    rewrite (account_try_decided env s w d Hd).
    by apply account_dispatch_tool_raises. }
  split; [intros apology e; apply agent_error_fields|].
  split; [by rewrite card_node_run | by rewrite account_node_run].
Qed.

Lemma agent_exceptions_escalate_witness :
  card_atm_agent_node env_model_down state_authenticated world0
    = (world0,
       Return (Some (agent_error card_apology api_error
                       state_authenticated))) /\
  card_atm_agent_node (env_card (Return (block_request false)))
    state_lost_card world0
    = (set_tool_log [Call_block_card "CARD000010" "Lost"] world0,
       Return (Some (agent_error card_apology
                       (AuthenticationRequired
                          "block_card requires authentication")
                       state_lost_card))) /\
  account_servicing_agent_node (env_account (Return balance_request))
    state_lost_card world0
    = (set_tool_log [Call_get_account_balance None] world0,
       Return (Some (agent_error account_apology
                       (AuthenticationRequired
                          "get_account_balance requires authentication")
                       state_lost_card))).
Proof.
  split; [|split].
  - destruct (agent_exceptions_escalate env_model_down state_authenticated
                world0) as (_ & _ & Hmodel & _).
    exact (Hmodel api_error eq_refl).
  - destruct (agent_exceptions_escalate
                (env_card (Return (block_request false))) state_lost_card
                world0) as (_ & _ & _ & _ & Htool & _).
    apply (Htool (block_request false)); [reflexivity|].
    left. repeat split.
  - destruct (agent_exceptions_escalate
                (env_account (Return balance_request)) state_lost_card
                world0) as (_ & _ & _ & _ & _ & Htool & _).
    apply (Htool balance_request); [reflexivity|].
    left. split; reflexivity.
Defined.

(** ** The card agent's missing return *)

(** C10 fails on the code.  When the decision is [check_status] and no card
    id is present, no branch of the card agent returns: control leaves the
    [if]/[elif] chain and the [try] block, and the node yields [None], with
    no reply and no state. *)
Theorem card_check_status_without_card_returns_nothing (env : Env)
    (s : AgentState) (w : World) (d : CardAction.t) :
  llm_card env (card_agent_prompt env s) = Return d ->
  CardAction.action d = "check_status" ->
  truthy (CardAction.card_id d) = false ->
  card_atm_agent_node env s w = (w, Return None).
Proof.
  intros Hd Ha Hid.
  rewrite card_node_run, (card_try_decided env s w d Hd).
  unfold card_atm_agent_dispatch. cbv zeta. rewrite Ha.
  change ("check_status" =? "block_card")%string with false.
  change ("check_status" =? "check_status")%string with true. cbv iota.
  by rewrite Hid.
Qed.

Lemma card_check_status_without_card_returns_nothing_witness :
  card_atm_agent_node (env_card (Return status_request_without_card))
    state_authenticated world0 = (world0, Return None).
Proof.
  apply (card_check_status_without_card_returns_nothing
           (env_card (Return status_request_without_card))
           state_authenticated world0 status_request_without_card);
    reflexivity.
Defined.

(** ** The counter of failed verifications *)

Section Counter.
  Variable env : Env.

(** The security check leaves the counter alone or adds one to a counter
    below three. *)
Lemma security_check_attempts (s s' : AgentState) (w w' : World) :
  security_check_node env s w = (w', Return s') ->
  verification_attempts s' = verification_attempts s \/
  (verification_attempts s < 3 /\
   verification_attempts s' = verification_attempts s + 1).
Proof.
  unfold security_check_node, verify_pin. unfold_M.
  intros H.
  repeat (case_match; simplify_eq; cbn in *; try (by left));
    try (by left).
  all: right; split; [|reflexivity].
  all: match goal with Hle : (3 <=? _) = false |- _ =>
         apply Z.leb_gt in Hle; exact Hle end.
Qed.

(** What a failed PIN check returns. *)
Lemma security_check_failed_pin (s : AgentState) (w w' : World)
    (ex : IdentityExtraction.t) :
  authenticated s = false ->
  verification_attempts s < 3 ->
  llm_identity env (identity_prompt env s) = Return ex ->
  IdentityExtraction.has_identity_info ex = true ->
  truthy (IdentityExtraction.customer_id ex) = true ->
  truthy (IdentityExtraction.pin ex) = true ->
  verify_pin env (str_of (IdentityExtraction.customer_id ex))
    (str_of (IdentityExtraction.pin ex)) w = (w', Return false) ->
  exists s',
    security_check_node env s w = (w', Return s') /\
    verification_attempts s' = verification_attempts s + 1 /\
    needs_user_input s' = true /\
    resume_node s' = Some "security_check" /\
    authenticated s' = false /\
    escalation_requested s' = escalation_requested s.
Proof.
  intros Hauth Hlt Hex Hinfo Hid Hpin Hverify.
  unfold security_check_node. rewrite Hauth.
  apply Z.leb_gt in Hlt. rewrite Hlt, Hex, Hinfo. cbn [negb].
  rewrite Hid, Hpin. cbn [andb].
  unfold try_except, mbind, M_bind. rewrite Hverify.
  eexists. split; [reflexivity|]. cbn. by rewrite Hauth.
Qed.

(** The guard at the head of the security check. *)
Lemma security_check_exhausted (s : AgentState) (w : World) :
  authenticated s = false ->
  3 <= verification_attempts s ->
  exists s',
    security_check_node env s w = (w, Return s') /\
    escalation_requested s' = true /\
    escalation_reason s' = Some "Failed authentication after 3 attempts" /\
    verification_attempts s' = verification_attempts s /\
    check_auth_status s' = "escalation".
Proof.
  intros Hauth Hge. unfold security_check_node. rewrite Hauth.
  apply Z.leb_le in Hge. rewrite Hge.
  eexists. split; [reflexivity|]. done.
Qed.

Lemma route_intent_node_attempts (s : AgentState) :
  verification_attempts (route_intent_node env s) = verification_attempts s.
Proof. unfold route_intent_node. repeat case_match; reflexivity. Qed.

Lemma card_node_attempts (s s' : AgentState) (w w' : World) :
  card_atm_agent_node env s w = (w', Return (Some s')) ->
  verification_attempts s' = verification_attempts s.
Proof.
  unfold card_atm_agent_node, card_atm_agent_try, card_atm_agent_dispatch,
    Banking.block_card, Banking.block_card_body, Banking.get_card_details.
  unfold_M. intros H.
  repeat (case_match; simplify_eq; cbn in *; try done).
Qed.

Lemma account_node_attempts (s s' : AgentState) (w w' : World) :
  account_servicing_agent_node env s w = (w', Return (Some s')) ->
  verification_attempts s' = verification_attempts s.
Proof.
  unfold account_servicing_agent_node, account_servicing_agent_try,
    account_servicing_agent_dispatch, Banking.get_account_balance,
    Banking.request_statement, Banking.update_profile.
  unfold_M. intros H.
  repeat (case_match; simplify_eq; cbn in *; try done).
Qed.

Lemma opening_node_attempts (s s' : AgentState) (w w' : World) :
  Stubs.account_opening_agent_node env s w = (w', Return s') ->
  verification_attempts s' = verification_attempts s.
Proof.
  unfold Stubs.account_opening_agent_node, Stubs.create_lead.
  unfold_M. intros H.
  repeat (case_match; simplify_eq; cbn in *; try done).
Qed.

(** Every move of a session keeps the counter within [0, 3]. *)
Lemma step_attempts_bounded (c c' : World * AgentState) :
  step env c c' ->
  0 <= verification_attempts (snd c) <= 3 ->
  0 <= verification_attempts (snd c') <= 3.
Proof.
  intros Hstep Hb.
  destruct Hstep as
    [w s text | w s | w s w' s' H | w s w' s' H | w s w' s' H
    | w s w' s' H | w s | w s | w s | w s | w s]; cbn [snd] in *;
    try exact Hb.
  - by rewrite route_intent_node_attempts.
  - destruct (security_check_attempts s s' w w' H) as [-> | [Hlt ->]];
      lia.
  - by rewrite (card_node_attempts s s' w w' H).
  - by rewrite (account_node_attempts s s' w w' H).
  - by rewrite (opening_node_attempts s s' w w' H).
  - unfold Stubs.account_closure_agent_node. by case_match.
Qed.

Lemma reachable_attempts_bounded (w0 : World) (s0 : AgentState)
    (c : World * AgentState) :
  0 <= verification_attempts s0 <= 3 ->
  reachable env w0 s0 c ->
  0 <= verification_attempts (snd c) <= 3.
Proof.
  intros H0 Hreach. induction Hreach as [|c c' _ IH Hstep]; [exact H0|].
  exact (step_attempts_bounded c c' Hstep IH).
Qed.

End Counter.

(** C1. The counter [verification_attempts] and the exhausted attempts.
    A failed PIN check adds exactly one to the counter, no other outcome
    of the security check changes it ([security_check_attempts]), and the
    counter stays within [0, 3] along a session
    ([reachable_attempts_bounded]).  But the failed check that brings the
    counter to 3 does not escalate.  It tells the caller
    ["I need to transfer you to a representative ... Please hold."] and
    returns like the earlier failures: suspended at the security check,
    with [escalation_requested] and [escalation_reason] as they were, so
    the edge out of the node answers [__end__] and the run ends waiting
    for input.  The session is escalated, with reason
    ["Failed authentication after 3 attempts"], only if the caller speaks
    again: the router then goes straight to the security check, whose
    guard fires. *)
Theorem third_failed_pin_suspends_without_escalation (env : Env)
    (s : AgentState) (w w' : World) (ex : IdentityExtraction.t) :
  authenticated s = false ->
  escalation_requested s = false ->
  verification_attempts s = 2 ->
  llm_identity env (identity_prompt env s) = Return ex ->
  IdentityExtraction.has_identity_info ex = true ->
  truthy (IdentityExtraction.customer_id ex) = true ->
  truthy (IdentityExtraction.pin ex) = true ->
  verify_pin env (str_of (IdentityExtraction.customer_id ex))
    (str_of (IdentityExtraction.pin ex)) w = (w', Return false) ->
  exists s',
    security_check_node env s w = (w', Return s') /\
    verification_attempts s' = 3 /\
    messages s' =
      (messages s ++
       [AIMessage
          ("I'm sorry, but I need to transfer you to a representative "
           ++ "for security reasons. Please hold.")%string])%list /\
    escalation_requested s' = false /\
    escalation_reason s' = escalation_reason s /\
    flow_stage s' = flow_stage s /\
    needs_user_input s' = true /\
    resume_node s' = Some "security_check" /\
    check_auth_status s' = "__end__" /\
    (forall text w1,
       route_intent_node env (user_turn text s') = user_turn text s' /\
       route_to_flow (user_turn text s') = Return "security_check" /\
       exists s'',
         security_check_node env (user_turn text s') w1 = (w1, Return s'') /\
         escalation_requested s'' = true /\
         escalation_reason s''
           = Some "Failed authentication after 3 attempts" /\
         check_auth_status s'' = "escalation").
Proof.
  intros Hauth Hesc Hva Hex Hinfo Hid Hpin Hverify.
  assert (Hrun : security_check_node env s w =
            (w', Return
               (ask_user "security_check"
                  ("I'm sorry, but I need to transfer you to a representative "
                   ++ "for security reasons. Please hold.")
                  (set_verification_attempts 3
                     (set_customer_id (IdentityExtraction.customer_id ex)
                        s))))).
  { unfold security_check_node. rewrite Hauth, Hva.
    change (3 <=? 2) with false. cbv iota.
    rewrite Hex, Hinfo. cbn [negb]. rewrite Hid, Hpin. cbn [andb].
    unfold try_except, mbind, M_bind. rewrite Hverify. reflexivity. }
  eexists. split; [exact Hrun|].
  split; [reflexivity|]. split; [reflexivity|].
  split; [exact Hesc|]. split; [reflexivity|]. split; [reflexivity|].
  split; [reflexivity|]. split; [reflexivity|].
  split; [unfold check_auth_status; cbn; by rewrite Hesc|].
  intros text w1.
  set (s1 := user_turn text
               (ask_user "security_check"
                  ("I'm sorry, but I need to transfer you to a representative "
                   ++ "for security reasons. Please hold.")
                  (set_verification_attempts 3
                     (set_customer_id (IdentityExtraction.customer_id ex)
                        s)))).
  destruct (resume_passthrough env s1 eq_refl) as (Hsame & Hroute).
  split; [exact Hsame|]. split; [exact Hroute|].
  destruct (security_check_exhausted env s1 w1 Hauth
              ltac:(cbn; lia)) as (s'' & Hrun2 & He & Hwhy & _ & Hedge).
  by exists s''.
Qed.

Lemma third_failed_pin_suspends_without_escalation_witness :
  exists s',
    security_check_node env_wrong_pin (state_awaiting_pin 2) world0
      = (world0, Return s') /\
    verification_attempts s' = 3 /\
    escalation_requested s' = false /\
    check_auth_status s' = "__end__".
Proof.
  destruct (third_failed_pin_suspends_without_escalation env_wrong_pin
              (state_awaiting_pin 2) world0 world0 wrong_pin
              eq_refl eq_refl eq_refl eq_refl eq_refl eq_refl eq_refl
              ltac:(vm_compute; reflexivity))
    as (s' & Hrun & Hva & _ & He & _ & _ & _ & _ & Hedge & _).
  exists s'. split; [exact Hrun|]. split; [exact Hva|].
  split; [exact He | exact Hedge].
Defined.

(* ================================================================= *)
(** * Further properties of the code *)

(** ** The security check *)

Lemma security_check_run (env : Env) (s : AgentState) (w : World) :
  exists s', security_check_node env s w = (w, Return s').
Proof.
  unfold security_check_node, verify_pin. unfold_M.
  repeat (case_match; simplify_eq; cbn in *; try (by eexists)).
Qed.

(** X1. The security check never raises and never writes: whatever the
    model, bcrypt and the database do, it returns a state and leaves the
    world as it found it. *)
Theorem security_check_returns (env : Env) (s : AgentState) (w : World) :
  is_raise (snd (security_check_node env s w)) = false /\
  fst (security_check_node env s w) = w.
Proof. destruct (security_check_run env s w) as (s' & ->). done. Qed.

Lemma verify_pin_true (env : Env) (cid pin : string) (w w' : World) :
  verify_pin env cid pin w = (w', Return true) ->
  db_fault w = None /\
  exists cust,
    customers w !! cid = Some cust /\
    checkpw env pin (Models.pin_hash cust) = Return true.
Proof.
  unfold verify_pin. unfold_M. intros H.
  destruct (db_fault w) as [e|]; [done|]. split; [done|].
  cbn in H. destruct (customers w !! cid) as [cust|]; cbn in H; [|done].
  exists cust. split; [done|].
  destruct (checkpw env pin (Models.pin_hash cust)) as [[]|]; by simplify_eq.
Qed.

(** What a successful check found and what it returns. *)
Lemma security_check_success (env : Env) (s s' : AgentState) (w w' : World) :
  authenticated s = false ->
  security_check_node env s w = (w', Return s') ->
  authenticated s' = true ->
  exists ex cid pin cust,
    llm_identity env (identity_prompt env s) = Return ex /\
    IdentityExtraction.has_identity_info ex = true /\
    IdentityExtraction.customer_id ex = Some cid /\
    IdentityExtraction.pin ex = Some pin /\
    db_fault w = None /\
    customers w !! cid = Some cust /\
    checkpw env pin (Models.pin_hash cust) = Return true /\
    verification_attempts s < 3 /\
    customer_id s' = Some cid /\
    authentication_method s' = Some "pin" /\
    verification_attempts s' = verification_attempts s /\
    resume_node s' = None /\
    needs_user_input s' = false /\
    escalation_requested s' = escalation_requested s /\
    intent s' = intent s.
Proof.
  intros Hauth Hrun Hs'. unfold security_check_node in Hrun.
  rewrite Hauth in Hrun.
  destruct (3 <=? verification_attempts s) eqn:Hle.
  { unfold mret, M_ret in Hrun. simplify_eq. cbn in Hs'. congruence. }
  apply Z.leb_gt in Hle.
  destruct (llm_identity env (identity_prompt env s)) as [ex|e] eqn:Hex.
  2: { unfold mret, M_ret in Hrun. simplify_eq. cbn in Hs'. congruence. }
  destruct (IdentityExtraction.has_identity_info ex) eqn:Hinfo; cbn in Hrun.
  2: { unfold mret, M_ret in Hrun. simplify_eq. cbn in Hs'. congruence. }
  destruct (truthy (IdentityExtraction.customer_id ex)) eqn:Hid;
    cbn [andb] in Hrun.
  2: { unfold try_except, mret, M_ret in Hrun. simplify_eq. cbn in Hs'.
       congruence. }
  destruct (truthy (IdentityExtraction.pin ex)) eqn:Hpin; cbn in Hrun.
  2: { unfold try_except, mret, M_ret in Hrun. simplify_eq. cbn in Hs'.
       congruence. }
  destruct (truthy_Some _ Hid) as (cid & Hcid & _ & Hcs).
  destruct (truthy_Some _ Hpin) as (pin & Hp & _ & Hps).
  rewrite Hcs, Hps in Hrun.
  unfold try_except, mbind, M_bind in Hrun.
  destruct (verify_pin env cid pin w) as [w1 [[]|e]] eqn:Hv;
    unfold mret, M_ret in Hrun; injection Hrun as Hw Hs; subst w1 s';
    cbn in Hs'; try congruence.
  destruct (verify_pin_true env cid pin w w' Hv) as (Hdb & cust & Hc & Hok).
  exists ex, cid, pin, cust. rewrite Hcid. cbn. by repeat split.
Qed.

(** X2. A session becomes authenticated only through a PIN that verifies:
    if the security check turns an unauthenticated state into an
    authenticated one, then the model extracted a customer id and a PIN,
    that customer is in the database and bcrypt accepted the PIN against
    the stored hash.  The state then carries that customer id and method
    ["pin"], is no longer suspended, and its counter is unchanged. *)
Theorem authentication_requires_matching_pin (env : Env)
    (s s' : AgentState) (w w' : World) :
  authenticated s = false ->
  security_check_node env s w = (w', Return s') ->
  authenticated s' = true ->
  exists ex cid pin cust,
    llm_identity env (identity_prompt env s) = Return ex /\
    IdentityExtraction.has_identity_info ex = true /\
    IdentityExtraction.customer_id ex = Some cid /\
    IdentityExtraction.pin ex = Some pin /\
    db_fault w = None /\
    customers w !! cid = Some cust /\
    checkpw env pin (Models.pin_hash cust) = Return true /\
    verification_attempts s < 3 /\
    customer_id s' = Some cid /\
    authentication_method s' = Some "pin" /\
    verification_attempts s' = verification_attempts s /\
    resume_node s' = None /\
    needs_user_input s' = false.
Proof.
  intros Hauth Hrun Hs'.
  destruct (security_check_success env s s' w w' Hauth Hrun Hs')
    as (ex & cid & pin & cust & H).
  exists ex, cid, pin, cust. intuition.
Qed.

Lemma authentication_requires_matching_pin_witness :
  exists s' cust,
    security_check_node env_right_pin (state_awaiting_pin 2) world0
      = (world0, Return s') /\
    authenticated s' = true /\
    customers world0 !! "CUST00001" = Some cust /\
    checkpw env_right_pin "1234" (Models.pin_hash cust) = Return true /\
    customer_id s' = Some "CUST00001".
Proof.
  destruct (security_check_run env_right_pin (state_awaiting_pin 2)
              world0) as (s' & Hrun).
  assert (Hs' : authenticated s' = true).
  { vm_compute in Hrun. by simplify_eq. }
  destruct (authentication_requires_matching_pin env_right_pin
              (state_awaiting_pin 2) s' world0 world0 eq_refl Hrun Hs')
    as (ex & cid & pin & cust & Hex & _ & Hcid & Hpin & _ & Hc & Hok & _
        & Hid & _).
  vm_compute in Hex. simplify_eq. cbn in Hcid, Hpin. simplify_eq.
  exists s', cust. by repeat split.
Defined.

(** X3. Failures that are not a wrong PIN cost no attempt.  When the model
    call raises, or the model extracted an id and a PIN but the
    verification itself raises (database unreachable, bcrypt error), the
    security check reprompts: the counter, [authenticated] and
    [escalation_requested] are unchanged, the session is suspended at the
    security check and one apology is appended. *)
Theorem security_check_soft_failures (env : Env) (s : AgentState)
    (w : World) :
  authenticated s = false ->
  verification_attempts s < 3 ->
  (forall s',
     (exists e, llm_identity env (identity_prompt env s) = Raise e) \/
     (exists ex e w',
        llm_identity env (identity_prompt env s) = Return ex /\
        IdentityExtraction.has_identity_info ex = true /\
        truthy (IdentityExtraction.customer_id ex) = true /\
        truthy (IdentityExtraction.pin ex) = true /\
        verify_pin env (str_of (IdentityExtraction.customer_id ex))
          (str_of (IdentityExtraction.pin ex)) w = (w', Raise e)) ->
     security_check_node env s w = (w, Return s') ->
     verification_attempts s' = verification_attempts s /\
     authenticated s' = false /\
     escalation_requested s' = escalation_requested s /\
     needs_user_input s' = true /\
     resume_node s' = Some "security_check" /\
     messages s' = (messages s ++ [AIMessage identity_apology])%list).
Proof.
  intros Hauth Hlt s' Hfail Hrun.
  unfold security_check_node in Hrun. rewrite Hauth in Hrun.
  apply Z.leb_gt in Hlt. rewrite Hlt in Hrun.
  destruct Hfail as [(e & He) | (ex & e & w' & Hex & Hinfo & Hid & Hpin & Hv)].
  - rewrite He in Hrun. unfold mret, M_ret in Hrun. simplify_eq. cbn.
    by rewrite Hauth.
  - rewrite Hex, Hinfo in Hrun. cbn [negb] in Hrun.
    rewrite Hid, Hpin in Hrun. cbn [andb] in Hrun.
    unfold try_except, mbind, M_bind in Hrun. rewrite Hv in Hrun.
    unfold mret, M_ret in Hrun. simplify_eq. cbn. by rewrite Hauth.
Qed.

Lemma security_check_soft_failures_witness :
  exists s',
    security_check_node env_right_pin (state_awaiting_pin 2) world_db_down
      = (world_db_down, Return s') /\
    verification_attempts s' = 2 /\
    authenticated s' = false.
Proof.
  destruct (security_check_run env_right_pin (state_awaiting_pin 2)
              world_db_down) as (s' & Hrun).
  exists s'. split; [exact Hrun|].
  destruct (security_check_soft_failures env_right_pin (state_awaiting_pin 2)
              world_db_down eq_refl eq_refl s') as (Hva & Ha & _).
  - right.
    exists right_pin, (Exception "OperationalError" "connection refused"),
      world_db_down.
    repeat split.
  - exact Hrun.
  - split; [exact Hva | exact Ha].
Defined.

(** X4. An id that is not in the customers table is a failed attempt like a
    wrong PIN: [verify_pin] answers false without consulting bcrypt, the
    counter goes up by one, and the unverified id is kept in
    [customer_id]. *)
Theorem unknown_customer_consumes_attempt (env : Env) (s : AgentState)
    (w : World) (ex : IdentityExtraction.t) (cid pin : string) :
  authenticated s = false ->
  verification_attempts s < 3 ->
  llm_identity env (identity_prompt env s) = Return ex ->
  IdentityExtraction.has_identity_info ex = true ->
  IdentityExtraction.customer_id ex = Some cid -> cid <> EmptyString ->
  IdentityExtraction.pin ex = Some pin -> pin <> EmptyString ->
  db_fault w = None ->
  customers w !! cid = None ->
  exists s',
    security_check_node env s w = (w, Return s') /\
    verification_attempts s' = verification_attempts s + 1 /\
    authenticated s' = false /\
    customer_id s' = Some cid /\
    needs_user_input s' = true.
Proof.
  intros Hauth Hlt Hex Hinfo Hcid Hc Hpin Hp Hdb Hnone.
  unfold security_check_node. rewrite Hauth.
  apply Z.leb_gt in Hlt. rewrite Hlt, Hex, Hinfo, Hcid, Hpin.
  cbn [negb truthy str_of].
  destruct (String.eqb_spec cid EmptyString); [done|].
  destruct (String.eqb_spec pin EmptyString); [done|].
  cbn [negb andb]. unfold verify_pin. unfold_M. rewrite Hdb. cbn.
  rewrite Hnone. cbn. eexists. split; [reflexivity|]. cbn.
  by rewrite Hauth.
Qed.

Lemma unknown_customer_consumes_attempt_witness :
  exists s',
    security_check_node env_unknown_customer (state_awaiting_pin 0) world0
      = (world0, Return s') /\
    verification_attempts s' = 1 /\
    customer_id s' = Some "CUST99999".
Proof.
  destruct (unknown_customer_consumes_attempt env_unknown_customer
              (state_awaiting_pin 0) world0 unknown_customer "CUST99999"
              "1234" eq_refl eq_refl eq_refl eq_refl eq_refl
              ltac:(discriminate) eq_refl ltac:(discriminate) eq_refl
              ltac:(vm_compute; reflexivity))
    as (s' & Hrun & Hva & _ & Hid & _).
  exists s'. split; [exact Hrun|]. split; [exact Hva | exact Hid].
Defined.

(** ** The edge out of the security check *)

Lemma check_auth_status_cases (s : AgentState) :
  (check_auth_status s = "escalation") \/
  (check_auth_status s = "__end__" /\ escalation_requested s = false /\
   needs_user_input s = true) \/
  (check_auth_status s = "security_check" /\ escalation_requested s = false /\
   needs_user_input s = false /\ authenticated s = false) \/
  (escalation_requested s = false /\ needs_user_input s = false /\
   authenticated s = true /\
   ((intent s = Some "card_atm" /\ check_auth_status s = "card_atm_agent") \/
    (intent s = Some "account_servicing" /\
     check_auth_status s = "account_servicing_agent") \/
    (intent s = Some "transfer_payment" /\
     check_auth_status s = "transfer_agent") \/
    (intent s = Some "account_closure" /\
     check_auth_status s = "closure_agent"))).
Proof.
  unfold check_auth_status.
  destruct (escalation_requested s); [by left|].
  destruct (needs_user_input s); [by right; left|].
  destruct (authenticated s); cbn [negb]; [|by right; right; left].
  destruct (intent s) as [i|]; [|by left]. cbn.
  destruct (String.eqb_spec i "card_atm") as [->|_];
    [right; right; right; repeat split; by left|].
  destruct (String.eqb_spec i "account_servicing") as [->|_];
    [right; right; right; repeat split; right; by left|].
  destruct (String.eqb_spec i "transfer_payment") as [->|_];
    [right; right; right; repeat split; right; right; by left|].
  destruct (String.eqb_spec i "account_closure") as [->|_];
    [right; right; right; repeat split; right; right; by right|].
  by left.
Qed.

(** X5. The edge out of the security check sends a session to a task
    handler only when it is authenticated, not escalated and not waiting
    for input, and then to the handler of its intent: [card_atm] to the
    card agent, [account_servicing] to the account agent,
    [transfer_payment] to the transfer agent and [account_closure] to the
    closure agent, and no other intent to any handler.  Every label it
    returns is a key of the path map registered with it. *)
Theorem check_auth_status_guards (s : AgentState) :
  (exists t,
     Graph.lookup_label (check_auth_status s)
       (Graph.path_map Graph.security_check) = Some t) /\
  (forall h,
     Graph.lookup_label (check_auth_status s)
       (Graph.path_map Graph.security_check) = Some (Graph.To (Graph.handler h)) ->
     authenticated s = true /\
     escalation_requested s = false /\
     needs_user_input s = false /\
     Graph.protected (Graph.handler h) = true /\
     check_auth_status s = node_name h /\
     (intent s = Some "card_atm" /\ h = card_atm_agent \/
      intent s = Some "account_servicing" /\ h = account_servicing_agent \/
      intent s = Some "transfer_payment" /\ h = transfer_agent \/
      intent s = Some "account_closure" /\ h = closure_agent)) /\
  (authenticated s = true ->
   escalation_requested s = false ->
   needs_user_input s = false ->
   check_auth_status s
     = dict_get auth_intent_to_node (intent s) "escalation" /\
   (intent s = Some "card_atm" ->
    check_auth_status s = "card_atm_agent") /\
   (intent s = Some "account_servicing" ->
    check_auth_status s = "account_servicing_agent") /\
   (intent s = Some "transfer_payment" ->
    check_auth_status s = "transfer_agent") /\
   (intent s = Some "account_closure" ->
    check_auth_status s = "closure_agent")).
Proof.
  split; [|split].
  - destruct (check_auth_status_cases s)
      as [H | [(H & _) | [(H & _) | (_ & _ & _ & Hi)]]];
      [| | |destruct Hi as [(_ & H) | [(_ & H) | [(_ & H) | (_ & H)]]]];
      rewrite H; by eexists.
  - destruct (check_auth_status_cases s)
      as [H | [(H & _) | [(H & _) | (He & Hn & Ha & Hi)]]].
    + rewrite H. intros h Hl. cbn in Hl. done.
    + rewrite H. intros h Hl. cbn in Hl. done.
    + rewrite H. intros h Hl. cbn in Hl. done.
    + destruct Hi as [(Hi & H) | [(Hi & H) | [(Hi & H) | (Hi & H)]]];
        rewrite H; intros h Hl; cbn in Hl; simplify_eq;
        (split; [done|]); (split; [done|]); (split; [done|]);
        (split; [done|]); (split; [done|]); auto 10.
  - intros Ha He Hn. unfold check_auth_status. rewrite Ha, He, Hn.
    cbn [negb]. split; [reflexivity|].
    split; [|split; [|split]]; intros ->; reflexivity.
Qed.

Lemma check_auth_status_guards_witness :
  authenticated (set_needs_user_input false
                   (set_resume_node None state_authenticated)) = true /\
  check_auth_status (set_needs_user_input false
                       (set_resume_node None state_authenticated))
    = "card_atm_agent" /\
  intent (set_needs_user_input false
            (set_resume_node None state_authenticated)) = Some "card_atm".
Proof.
  destruct (check_auth_status_guards
              (set_needs_user_input false
                 (set_resume_node None state_authenticated)))
    as (_ & Hg & _).
  destruct (Hg card_atm_agent eq_refl) as (Ha & _ & _ & _ & Hl & Hi).
  split; [exact Ha|]. split; [exact Hl|].
  destruct Hi as [(Hi & _)|[(_ & Hh)|[(_ & Hh)|(_ & Hh)]]];
    [exact Hi | discriminate Hh..].
Defined.

(** X6. The security check never sends a session back to itself in the
    same run: after the node, the edge is never ["security_check"], so the
    retry entry of its path map is not taken. *)
Theorem security_check_no_self_loop (env : Env) (s s' : AgentState)
    (w w' : World) :
  security_check_node env s w = (w', Return s') ->
  check_auth_status s' <> "security_check".
Proof.
  intros Hrun Hloop.
  destruct (check_auth_status_cases s')
    as [H | [(H & _) | [(_ & He & Hn & Ha) | (_ & _ & _ & Hi)]]];
    try congruence.
  - unfold security_check_node, verify_pin in Hrun. unfold_M.
    repeat (case_match; simplify_eq; cbn in *; try done; try congruence).
  - destruct Hi as [(_ & H) | [(_ & H) | [(_ & H) | (_ & H)]]]; congruence.
Qed.

Lemma security_check_no_self_loop_witness :
  check_auth_status state_after_first_failure <> "security_check".
Proof.
  apply (security_check_no_self_loop env_wrong_pin state_first_attempt
           state_after_first_failure world0 world0).
  vm_compute. reflexivity.
Defined.

(** X7. After a successful PIN check on a session that is not escalated,
    the edge routes by the intent classified before authentication:
    [card_atm], [account_servicing], [transfer_payment] and
    [account_closure] go to their handlers, every other intent (or none)
    goes to [escalation]. *)
Theorem authenticated_session_routes_by_intent (env : Env)
    (s s' : AgentState) (w w' : World) :
  authenticated s = false ->
  escalation_requested s = false ->
  security_check_node env s w = (w', Return s') ->
  authenticated s' = true ->
  check_auth_status s' = dict_get auth_intent_to_node (intent s) "escalation"
  /\ (intent s = Some "card_atm" -> check_auth_status s' = "card_atm_agent")
  /\ (intent s = Some "account_servicing" ->
      check_auth_status s' = "account_servicing_agent")
  /\ (intent s = Some "transfer_payment" ->
      check_auth_status s' = "transfer_agent")
  /\ (intent s = Some "account_closure" ->
      check_auth_status s' = "closure_agent")
  /\ (intent s = None -> check_auth_status s' = "escalation")
  /\ (intent s = Some "general_inquiry" ->
      check_auth_status s' = "escalation").
Proof.
  intros Hauth Hesc Hrun Hs'.
  destruct (security_check_success env s s' w w' Hauth Hrun Hs')
    as (ex & cid & pin & cust & H).
  destruct H as (_ & _ & _ & _ & _ & _ & _ & _ & _ & _ & _ & _ & Hn & He & Hi).
  assert (Hcheck : check_auth_status s'
            = dict_get auth_intent_to_node (intent s) "escalation").
  { unfold check_auth_status. by rewrite He, Hesc, Hn, Hs', Hi. }
  split; [exact Hcheck|].
  repeat split; intros Hint; rewrite Hcheck, Hint; reflexivity.
Qed.

Lemma authenticated_session_routes_by_intent_witness :
  exists s',
    security_check_node env_right_pin (state_awaiting_pin 2) world0
      = (world0, Return s') /\
    check_auth_status s' = "card_atm_agent".
Proof.
  destruct (security_check_run env_right_pin (state_awaiting_pin 2)
              world0) as (s' & Hrun).
  exists s'. split; [exact Hrun|].
  assert (Hs' : authenticated s' = true).
  { vm_compute in Hrun. by simplify_eq. }
  destruct (authenticated_session_routes_by_intent env_right_pin
              (state_awaiting_pin 2) s' world0 world0 eq_refl eq_refl Hrun
              Hs') as (_ & Hcard & _).
  exact (Hcard eq_refl).
Defined.

(** ** The banking tools *)

(** The card row [block_card] writes. *)
Lemma block_card_success (s : AgentState) (c r : string) (w : World)
    (card : Models.Card) :
  authenticated s = true ->
  db_fault w = None ->
  cards w !! c = Some card ->
  Models.status card <> "blocked" ->
  Banking.block_card s c r w =
    (mkWorld (customers w) (accounts w)
       (<[c := Models.mkCard (Models.card_id card)
                 (Models.card_account_id card)
                 (Models.card_number_last4 card) "blocked"
                 (Some (utcnow_iso w 0%nat)) (Some r)
                 (Models.expiration_date card)]> (cards w))
       (db_fault w) (utcnow_iso w) (now_stamp w) (now_day w)
       (tool_log w ++ [Call_block_card c r]),
     Return (Banking.BlockOk c ("BLK-" ++ c ++ "-" ++ now_stamp w)
               (utcnow_iso w 1%nat)
               ("Card ending in " ++ Models.card_number_last4 card
                ++ " has been blocked successfully."),
             set_critical_actions_taken
               (critical_actions_taken s ++ ["CARD_BLOCKED"]) s)).
Proof.
  intros Hauth Hdb Hcard Hst.
  unfold Banking.block_card, Banking.block_card_body. unfold_M.
  unfold set_cards, set_tool_log.
  rewrite Hauth. cbn. rewrite Hdb. cbn. rewrite Hcard. cbn.
  destruct (String.eqb_spec (Models.status card) "blocked"); [done|].
  reflexivity.
Qed.

(** X8. Every protected tool refuses an unauthenticated state: it raises
    [AuthenticationRequired] with the tool's name and changes neither the
    customers nor the cards, nor the list of critical actions (no state is
    returned).  The card lookup carries no such guard: with the database
    up it answers for any state. *)
Theorem protected_tools_require_authentication (s : AgentState) (w : World) :
  authenticated s = false ->
  (forall c r,
     exists w',
       Banking.block_card s c r w =
         (w', Raise (AuthenticationRequired
                       "block_card requires authentication")) /\
       cards w' = cards w /\ customers w' = customers w) /\
  (forall cid,
     exists w',
       Banking.get_account_balance s cid w =
         (w', Raise (AuthenticationRequired
                       "get_account_balance requires authentication")) /\
       cards w' = cards w /\ customers w' = customers w) /\
  (forall cid updates,
     exists w',
       Banking.update_profile s cid updates w =
         (w', Raise (AuthenticationRequired
                       "update_profile requires authentication")) /\
       cards w' = cards w /\ customers w' = customers w) /\
  (forall cid period,
     exists w',
       Banking.request_statement s cid period w =
         (w', Raise (AuthenticationRequired
                       "request_statement requires authentication")) /\
       cards w' = cards w /\ customers w' = customers w) /\
  (forall clock cid count,
     BankingExtra.get_recent_transactions clock s cid count w =
       (w, Raise (AuthenticationRequired
                    "get_recent_transactions requires authentication"))) /\
  (forall c,
     db_fault w = None ->
     is_raise (snd (Banking.get_card_details s c w)) = false).
Proof.
  intros Hauth.
  repeat split; intros;
    unfold Banking.block_card, Banking.get_account_balance,
      Banking.update_profile, Banking.request_statement,
      BankingExtra.get_recent_transactions, Banking.get_card_details;
    unfold_M; try rewrite Hauth; cbn;
    try (eexists; split; [reflexivity|done]); try done.
  rewrite H. cbn. by destruct (cards w !! c).
Qed.

Lemma protected_tools_require_authentication_witness :
  snd (Banking.block_card state_lost_card "CARD000010" "Lost" world0)
    = Raise (AuthenticationRequired "block_card requires authentication") /\
  cards (fst (Banking.block_card state_lost_card "CARD000010" "Lost" world0))
    = cards world0.
Proof.
  destruct (protected_tools_require_authentication state_lost_card world0
              eq_refl) as (Hblock & _).
  destruct (Hblock "CARD000010" "Lost") as (w' & -> & Hcards & _).
  split; [reflexivity | exact Hcards].
Defined.

(** X9. Blocking a card and reading it back.  After a successful
    [block_card] the card lookup reports the card as ["blocked"], with the
    reason given and the time the UPDATE stored (the first reading of the
    clock); a second [block_card] on it returns ["Card is already blocked"]
    with that stored time and reason, and leaves the table as it is.  The
    time in the result of the successful call is a second reading of the
    clock, not the stored one. *)
Theorem block_card_then_lookup (s : AgentState) (c r r2 : string)
    (w : World) (card : Models.Card) :
  authenticated s = true ->
  db_fault w = None ->
  cards w !! c = Some card ->
  Models.status card <> "blocked" ->
  exists w1 s1 reference_id message,
    Banking.block_card s c r w =
      (w1, Return (Banking.BlockOk c reference_id (utcnow_iso w 1%nat)
                     message, s1))
    /\ reference_id = "BLK-" ++ c ++ "-" ++ now_stamp w
    /\ snd (Banking.get_card_details s1 c w1) =
         Return (Banking.CardFound (Models.card_id card)
                   (Models.card_number_last4 card) "blocked"
                   (Models.expiration_date card)
                   (Some (utcnow_iso w 0%nat)) (Some r))
    /\ (exists w2 s2,
          Banking.block_card s1 c r2 w1 =
            (w2, Return (Banking.BlockFail "Card is already blocked"
                           (Some (utcnow_iso w 0%nat)) (Some r), s2)) /\
          cards w2 = cards w1).
Proof.
  intros Hauth Hdb Hcard Hst.
  eexists _, _, _, _.
  split; [apply (block_card_success s c r w card Hauth Hdb Hcard Hst)|].
  split; [reflexivity|]. split.
  - unfold Banking.get_card_details. unfold_M. unfold set_tool_log. cbn.
    rewrite Hdb. cbn. rewrite lookup_insert_eq. reflexivity.
  - unfold Banking.block_card, Banking.block_card_body. unfold_M.
    unfold set_cards, set_tool_log. cbn. rewrite Hauth. cbn.
    rewrite Hdb. cbn. rewrite lookup_insert_eq. cbn.
    eexists _, _. split; reflexivity.
Qed.

Lemma block_card_then_lookup_witness :
  exists w1 s1 ref msg,
    Banking.block_card state_authenticated "CARD000010" "Lost" world0
      = (w1, Return (Banking.BlockOk "CARD000010" ref
                       "2026-01-01T00:00:00.000200" msg, s1)) /\
    snd (Banking.get_card_details s1 "CARD000010" w1) =
      Return (Banking.CardFound "CARD000010" "4242" "blocked" None
                (Some "2026-01-01T00:00:00.000100") (Some "Lost")).
Proof.
  destruct (block_card_then_lookup state_authenticated "CARD000010" "Lost"
              "Stolen" world0
              (Models.mkCard "CARD000010" "ACC000010" "4242" "active" None
                 None None)
              eq_refl eq_refl ltac:(vm_compute; reflexivity)
              ltac:(discriminate))
    as (w1 & s1 & ref & msg & Hrun & _ & Hlook & _).
  exists w1, s1, ref, msg. split; [exact Hrun | exact Hlook].
Defined.

(** X10. [block_card] touches one row at most.  Whatever it returns or
    raises, every other card, every customer and every account is as
    before; and unless it returns success the whole card table is as
    before. *)
Theorem block_card_is_local (s : AgentState) (c r : string) (w : World) :
  let w' := fst (Banking.block_card s c r w) in
  (forall c', c' <> c -> cards w' !! c' = cards w !! c') /\
  customers w' = customers w /\
  accounts w' = accounts w /\
  (cards w' <> cards w ->
   exists reference_id at_ message s1,
     snd (Banking.block_card s c r w) =
       Return (Banking.BlockOk c reference_id at_ message, s1)).
Proof.
  unfold Banking.block_card, Banking.block_card_body. unfold_M.
  unfold set_cards, set_tool_log. cbn.
  destruct (authenticated s); cbn; [|done].
  destruct (db_fault w); cbn; [done|].
  destruct (cards w !! c) as [card|]; cbn; [|done].
  destruct (String.eqb (Models.status card) "blocked"); cbn.
  - destruct (Models.blocked_at card); cbn; done.
  - repeat split; [|by eexists _, _, _, _].
    intros c' Hne. by rewrite lookup_insert_ne.
Qed.

Lemma block_card_is_local_witness :
  cards (fst (Banking.block_card state_authenticated "CARD000010" "Lost"
                world0)) !! "CARD000011" = None /\
  customers (fst (Banking.block_card state_authenticated "CARD000010" "Lost"
                    world0)) = customers world0.
Proof.
  destruct (block_card_is_local state_authenticated "CARD000010" "Lost"
              world0) as (Hother & Hcust & _).
  split; [|exact Hcust].
  rewrite (Hother "CARD000011" ltac:(discriminate)).
  vm_compute. reflexivity.
Defined.

(** X11. The list of critical actions records every [block_card] that
    returns, successful or not: the state handed back is the incoming one
    with ["CARD_BLOCKED"] appended, also when the result is a failure (card
    not found, already blocked).  A call that raises hands back no
    state. *)
Theorem block_card_logs_critical_action (s s1 : AgentState) (c r : string)
    (w w' : World) (result : Banking.BlockResult) :
  Banking.block_card s c r w = (w', Return (result, s1)) ->
  s1 = set_critical_actions_taken
         (critical_actions_taken s ++ ["CARD_BLOCKED"]) s /\
  authenticated s = true.
Proof.
  unfold Banking.block_card, Banking.block_card_body. unfold_M.
  unfold set_cards, set_tool_log. cbn. intros H.
  destruct (authenticated s); cbn in H; [|done].
  repeat (case_match; simplify_eq; cbn in *; try done).
Qed.

Lemma block_card_logs_critical_action_witness :
  exists w' s1,
    Banking.block_card state_authenticated "CARD404" "Lost" world0
      = (w', Return (Banking.BlockFail "Card not found" None None, s1)) /\
    critical_actions_taken s1 = ["CARD_BLOCKED"].
Proof.
  eexists _, _. split; [vm_compute; reflexivity|].
  match goal with |- critical_actions_taken ?s1 = _ =>
    destruct (block_card_logs_critical_action state_authenticated s1
                "CARD404" "Lost" world0 _ _ eq_refl) as (-> & _)
  end.
  reflexivity.
Defined.

(** ** Profile updates *)

Lemma apply_profile_update_keeps (c : Models.Customer) (kv : string * string) :
  Models.customer_id (Banking.apply_profile_update c kv)
    = Models.customer_id c /\
  Models.name (Banking.apply_profile_update c kv) = Models.name c /\
  Models.pin_hash (Banking.apply_profile_update c kv) = Models.pin_hash c.
Proof. unfold Banking.apply_profile_update. by repeat case_match. Qed.

Lemma fold_profile_update_keeps (kvs : list (string * string))
    (c : Models.Customer) :
  let c' := fold_left Banking.apply_profile_update kvs c in
  Models.customer_id c' = Models.customer_id c /\
  Models.name c' = Models.name c /\
  Models.pin_hash c' = Models.pin_hash c.
Proof.
  revert c. induction kvs as [|kv kvs IH]; intros c; [done|].
  cbn. destruct (IH (Banking.apply_profile_update c kv)) as (H1 & H2 & H3).
  destruct (apply_profile_update_keeps c kv) as (K1 & K2 & K3).
  cbn in *. repeat split; congruence.
Qed.

(** The worlds [update_profile] can end in. *)
Lemma update_profile_world (s : AgentState) (cid : option string)
    (updates : list (string * string)) (w : World) :
  let w' := fst (Banking.update_profile s cid updates w) in
  cards w' = cards w /\ accounts w' = accounts w /\
  (customers w' = customers w \/
   exists id kvs,
     cid = Some id /\
     kvs = filter (fun kv => str_in (fst kv) Banking.allowed_fields = true)
             updates /\
     customers w' =
       alter (fun c => fold_left Banking.apply_profile_update kvs c) id
         (customers w)).
Proof.
  unfold Banking.update_profile. unfold_M. unfold set_tool_log, set_customers.
  cbn. destruct (authenticated s); cbn; [|by repeat split; left].
  destruct (filter _ updates) as [|kv kvs] eqn:Hf; cbn;
    [by repeat split; left|].
  destruct (db_fault w); cbn; [by repeat split; left|].
  repeat case_match; cbn; try (by repeat split; left).
  repeat split. right. by eexists _, (kv :: kvs).
Qed.

(** X12. [update_profile] can change an e-mail address and a phone number
    and nothing else: whatever keys the update holds, every customer keeps
    its id, name and PIN hash, customers other than the one addressed are
    untouched, and cards and accounts are as before. *)
Theorem update_profile_changes_contact_only (s : AgentState)
    (cid : option string) (updates : list (string * string)) (w : World) :
  let w' := fst (Banking.update_profile s cid updates w) in
  cards w' = cards w /\
  accounts w' = accounts w /\
  (forall id,
     Models.pin_hash <$> (customers w' !! id)
       = Models.pin_hash <$> (customers w !! id) /\
     Models.name <$> (customers w' !! id)
       = Models.name <$> (customers w !! id) /\
     Models.customer_id <$> (customers w' !! id)
       = Models.customer_id <$> (customers w !! id)) /\
  (forall id, cid <> Some id -> customers w' !! id = customers w !! id).
Proof.
  destruct (update_profile_world s cid updates w) as (Hc & Ha & Hcust).
  cbn in *. split; [exact Hc|]. split; [exact Ha|].
  destruct Hcust as [-> | (id0 & kvs & -> & _ & ->)]; [done|].
  split.
  - intros id. rewrite lookup_alter. case_decide as Heq; [|done].
    subst id0. destruct (customers w !! id) as [c|]; [|done]. cbn.
    destruct (fold_profile_update_keeps kvs c) as (H1 & H2 & H3).
    cbn in *. by rewrite H1, H2, H3.
  - intros id Hne. rewrite lookup_alter. case_decide; [congruence|done].
Qed.

Lemma update_profile_changes_contact_only_witness :
  Models.pin_hash <$>
    (customers
       (fst (Banking.update_profile state_authenticated (Some "CUST00001")
               [("pin_hash", "0000"); ("email", "new@test.com")] world0))
     !! "CUST00001") = Some "1234".
Proof.
  destruct (update_profile_changes_contact_only state_authenticated
              (Some "CUST00001")
              [("pin_hash", "0000"); ("email", "new@test.com")] world0)
    as (_ & _ & Hkeep & _).
  destruct (Hkeep "CUST00001") as (Hpin & _).
  rewrite Hpin. vm_compute. reflexivity.
Defined.

(** [update_profile] on an authenticated state, case by case. *)
Lemma update_profile_run (s : AgentState) (cid : option string)
    (updates : list (string * string)) (w : World) :
  authenticated s = true ->
  Banking.update_profile s cid updates w =
    let logged :=
      set_tool_log (tool_log w ++ [Call_update_profile cid updates]) w in
    match filter allowed updates with
    | [] => (logged, Return (Banking.ProfileFail "No valid fields to update"))
    | kvs =>
        match db_fault w with
        | Some e => (logged, Raise e)
        | None =>
            match filter too_long kvs with
            | kv :: _ =>
                (logged, Raise (Banking.StringDataRightTruncation (fst kv)))
            | [] =>
                (match cid with
                 | Some id =>
                     set_customers
                       (alter (fun c =>
                                 fold_left Banking.apply_profile_update
                                   kvs c) id (customers w)) logged
                 | None => logged
                 end,
                 Return (Banking.ProfileOk (map fst kvs)
                           "Profile updated successfully"))
            end
        end
    end.
Proof.
  intros Hauth. unfold Banking.update_profile. unfold_M. rewrite Hauth.
  change (filter (fun kv => str_in (fst kv) Banking.allowed_fields = true)
            updates) with (filter allowed updates).
  cbv zeta. cbn [negb].
  destruct (filter allowed updates) as [|kv kvs]; [reflexivity|].
  change (filter (fun kv0 => Banking.fits_column kv0 = false) (kv :: kvs))
    with (filter too_long (kv :: kvs)).
  unfold set_tool_log at 1. cbn [db_fault].
  destruct (db_fault w); [reflexivity|].
  destruct (filter too_long (kv :: kvs)); [|reflexivity].
  destruct cid; reflexivity.
Qed.

Lemma values_fit_none_too_long (updates : list (string * string)) :
  values_fit updates -> filter too_long (filter allowed updates) = [].
Proof.
  intros Hfit.
  destruct (filter too_long (filter allowed updates)) as [|[k v] l] eqn:Hf;
    [done|]. exfalso.
  assert (Hin : (k, v) ∈ filter too_long (filter allowed updates))
    by (rewrite Hf; by left).
  apply list_elem_of_filter in Hin as [Hlong Hin].
  apply list_elem_of_filter in Hin as [Hall Hin].
  specialize (Hfit k v Hin Hall).
  unfold too_long, Banking.fits_column in Hlong. cbn [fst snd] in Hlong.
  apply orb_false_iff in Hlong as [Hlong _].
  apply Nat.leb_gt in Hlong. lia.
Qed.

Lemma fold_profile_update_no_email (kvs : list (string * string))
    (c : Models.Customer) :
  "email" ∉ map fst kvs ->
  Models.email (fold_left Banking.apply_profile_update kvs c)
    = Models.email c.
Proof.
  revert c. induction kvs as [|[k v] kvs IH]; intros c Hnot; [done|].
  cbn in *. rewrite IH by (intros Hin; apply Hnot; by right).
  unfold Banking.apply_profile_update. cbn.
  destruct (String.eqb_spec k "email") as [->|_].
  - exfalso. apply Hnot. by left.
  - by destruct (String.eqb k "phone").
Qed.

Lemma fold_profile_update_email (updates : list (string * string))
    (c : Models.Customer) (e : string) :
  NoDup (map fst updates) ->
  ("email", e) ∈ updates ->
  Models.email
    (fold_left Banking.apply_profile_update (filter allowed updates) c)
    = Some (Banking.stored_value ("email", e)).
Proof.
  revert c. induction updates as [|[k v] kvs IH]; intros c Hnd Hin.
  { by apply elem_of_nil in Hin. }
  cbn in Hnd. apply NoDup_cons in Hnd as [Hk Hnd].
  apply elem_of_cons in Hin as [Heq | Hin].
  - injection Heq as <- <-.
    rewrite filter_cons_True by reflexivity. cbn.
    rewrite fold_profile_update_no_email; [reflexivity|].
    intros Hin. apply Hk.
    apply list_elem_of_fmap in Hin as (kv & Hfst & Hkv).
    apply list_elem_of_filter in Hkv as [_ Hkv].
    apply list_elem_of_fmap. by exists kv.
  - rewrite filter_cons. case_decide; cbn; by apply IH.
Qed.

(** X13. Writing an e-mail address and reading it back.  For an
    authenticated session, with the database up and a row for the
    customer, take an update that holds ["email"] (once, as the keys of a
    dict are).  If every value to be written fits its column ([email] 100
    characters, [phone] 20), the customer's row holds the new address
    afterwards and the tool reports success.  If the address is longer
    than 100 characters, and what exceeds them is not all spaces, the tool
    raises, since the database rejects the UPDATE, and the table is as
    before. *)
Theorem update_profile_sets_email (s : AgentState) (id e : string)
    (updates : list (string * string)) (w : World) (c : Models.Customer) :
  authenticated s = true ->
  db_fault w = None ->
  customers w !! id = Some c ->
  NoDup (map fst updates) ->
  ("email", e) ∈ updates ->
  (values_fit updates ->
   Models.email <$>
     (customers (fst (Banking.update_profile s (Some id) updates w)) !! id)
     = Some (Some e) /\
   exists fields,
     snd (Banking.update_profile s (Some id) updates w)
       = Return (Banking.ProfileOk fields "Profile updated successfully") /\
     "email" ∈ fields) /\
  ((100 < String.length e)%nat ->
   Banking.all_spaces (Banking.excess 100 e) = false ->
   is_raise (snd (Banking.update_profile s (Some id) updates w)) = true /\
   customers (fst (Banking.update_profile s (Some id) updates w))
     = customers w).
Proof.
  intros Hauth Hdb Hc Hnd Hin.
  pose proof (fold_profile_update_email updates c e Hnd Hin) as Hfold.
  assert (Hmem : ("email", e) ∈ filter allowed updates).
  { apply list_elem_of_filter. split; [reflexivity | exact Hin]. }
  rewrite (update_profile_run s (Some id) updates w Hauth). cbv zeta.
  split.
  - intros Hfit. pose proof (values_fit_none_too_long updates Hfit) as Hnone.
    destruct (filter allowed updates) as [|kv kvs] eqn:Hf.
    { by apply elem_of_nil in Hmem. }
    rewrite Hdb, Hnone. cbn [fst snd]. split.
    + unfold set_customers. cbn [customers].
      rewrite lookup_alter. case_decide; [|done]. rewrite Hc.
      cbn [fmap option_fmap option_map]. rewrite Hfold.
      unfold Banking.stored_value. cbn [fst snd].
      specialize (Hfit "email" e Hin eq_refl).
      apply Nat.leb_le in Hfit. by rewrite Hfit.
    + eexists. split; [reflexivity|].
      apply list_elem_of_fmap. by exists ("email", e).
  - intros Hlong Hexcess.
    assert (Hbad : ("email", e) ∈ filter too_long (filter allowed updates)).
    { apply list_elem_of_filter. split; [|exact Hmem].
      unfold too_long, Banking.fits_column. cbn [fst snd].
      apply orb_false_iff. split; [apply Nat.leb_gt; cbn; lia|].
      exact Hexcess. }
    destruct (filter allowed updates) as [|kv kvs] eqn:Hf.
    { by apply elem_of_nil in Hmem. }
    rewrite Hdb.
    destruct (filter too_long (kv :: kvs)) as [|bad rest].
    { by apply elem_of_nil in Hbad. }
    by split.
Qed.

Lemma update_profile_sets_email_witness :
  Models.email <$>
    (customers
       (fst (Banking.update_profile state_authenticated (Some "CUST00001")
               [("pin_hash", "0000"); ("email", "new@test.com")] world0))
     !! "CUST00001") = Some (Some "new@test.com").
Proof.
  destruct (update_profile_sets_email state_authenticated "CUST00001"
              "new@test.com"
              [("pin_hash", "0000"); ("email", "new@test.com")] world0
              (Models.mkCustomer "CUST00001" "Test Customer" None None "1234")
              eq_refl eq_refl ltac:(vm_compute; reflexivity))
    as (Hfits & _).
  - cbn. apply NoDup_cons. split.
    + intros Hin. apply list_elem_of_singleton in Hin. discriminate.
    + apply NoDup_singleton.
  - apply elem_of_cons. right. apply elem_of_cons. by left.
  - destruct Hfits as (Hread & _); [|exact Hread].
    intros k v Hin _.
    apply elem_of_cons in Hin as [[= -> ->]|Hin]; [cbn; lia|].
    apply list_elem_of_singleton in Hin as [= -> ->]. cbn. lia.
Defined.

(** X14. Two edges of [update_profile].  An update with no allowed key
    returns ["No valid fields to update"] before any database session is
    opened, so also while the database is down, and changes nothing.  An
    update whose values fit their columns, addressed to an id that has no
    customer row, still reports success, and the table is as before. *)
Theorem update_profile_edges (s : AgentState) (cid : option string)
    (updates : list (string * string)) (w : World) :
  authenticated s = true ->
  (filter allowed updates = [] ->
     snd (Banking.update_profile s cid updates w)
       = Return (Banking.ProfileFail "No valid fields to update") /\
     customers (fst (Banking.update_profile s cid updates w)) = customers w)
  /\
  (filter allowed updates <> [] ->
   values_fit updates ->
   db_fault w = None ->
   (forall id, cid = Some id -> customers w !! id = None) ->
     snd (Banking.update_profile s cid updates w)
       = Return (Banking.ProfileOk (map fst (filter allowed updates))
                   "Profile updated successfully") /\
     customers (fst (Banking.update_profile s cid updates w)) = customers w).
Proof.
  intros Hauth.
  rewrite (update_profile_run s cid updates w Hauth). cbv zeta.
  split.
  - intros ->. done.
  - intros Hne Hfit Hdb Hmissing.
    pose proof (values_fit_none_too_long updates Hfit) as Hnone.
    destruct (filter allowed updates) as [|kv kvs]; [done|].
    rewrite Hdb, Hnone. cbn [fst snd]. split; [done|].
    destruct cid as [id|]; [|done].
    unfold set_customers. cbn [customers].
    apply map_eq. intros i. rewrite lookup_alter.
    case_decide as Heq; [|done]. subst i. by rewrite (Hmissing id eq_refl).
Qed.

Lemma update_profile_edges_witness :
  snd (Banking.update_profile state_authenticated (Some "CUST00001")
         [("address", "1 Main St")] world_db_down)
    = Return (Banking.ProfileFail "No valid fields to update") /\
  snd (Banking.update_profile state_authenticated (Some "CUST99999")
         [("email", "new@test.com")] world0)
    = Return (Banking.ProfileOk ["email"] "Profile updated successfully").
Proof.
  split.
  - destruct (update_profile_edges state_authenticated (Some "CUST00001")
                [("address", "1 Main St")] world_db_down eq_refl)
      as (Hnone & _).
    destruct (Hnone eq_refl) as (Hres & _). exact Hres.
  - destruct (update_profile_edges state_authenticated (Some "CUST99999")
                [("email", "new@test.com")] world0 eq_refl) as (_ & Hmiss).
    destruct (Hmiss ltac:(discriminate)) as (Hres & _).
    + intros k v Hin _.
      apply list_elem_of_singleton in Hin as [= -> ->]. cbn. lia.
    + reflexivity.
    + intros id Hid. injection Hid as <-. vm_compute. reflexivity.
    + exact Hres.
Defined.

(** X15. The two PIN checks agree.  [verify_identity] (the tool) succeeds
    exactly when [verify_pin] (the security check's helper) answers true,
    fails with ["Customer not found"] or ["Invalid PIN"] exactly when it
    answers false, and raises the same exception when it raises; neither
    changes the world. *)
Theorem verify_identity_agrees_with_verify_pin (env : Env) (s : AgentState)
    (cid pin : string) (w : World) :
  match verify_pin env cid pin w with
  | (w1, Return true) =>
      w1 = w /\
      exists name,
        BankingExtra.verify_identity env s cid pin w
          = (w, Return (BankingExtra.IdentityOk cid name)) /\
        Models.name <$> (customers w !! cid) = Some name
  | (w1, Return false) =>
      w1 = w /\
      (BankingExtra.verify_identity env s cid pin w
         = (w, Return (BankingExtra.IdentityFail "Customer not found")) /\
       customers w !! cid = None
       \/
       BankingExtra.verify_identity env s cid pin w
         = (w, Return (BankingExtra.IdentityFail "Invalid PIN")) /\
       customers w !! cid <> None)
  | (w1, Raise e) =>
      w1 = w /\ BankingExtra.verify_identity env s cid pin w = (w, Raise e)
  end.
Proof.
  unfold verify_pin, BankingExtra.verify_identity. unfold_M.
  destruct (db_fault w); cbn; [done|].
  destruct (customers w !! cid) as [c|]; cbn; [|by split; [|left]].
  destruct (checkpw env pin (Models.pin_hash c)) as [[]|e]; cbn.
  - split; [done|]. by exists (Models.name c).
  - split; [done|]. by right.
  - done.
Qed.

(** ** The card agent and the account agent: what they return *)

Lemma card_dispatch_none (s : AgentState) (d : CardAction.t) (w : World) :
  snd (card_atm_agent_dispatch s d w) = Return None <->
  CardAction.action d = "check_status" /\
  truthy (CardAction.card_id d) = false.
Proof.
  unfold card_atm_agent_dispatch. cbv zeta. split.
  - destruct (String.eqb_spec (CardAction.action d) "block_card") as [Ha|Ha].
    { destruct (CardAction.confirmation_needed d); cbn [negb]; [done|].
      destruct (truthy (CardAction.card_id d)); [|done].
      unfold mbind, M_bind.
      destruct (Banking.block_card _ _ _ w) as [w1 [[[] st]|e]]; done. }
    destruct (String.eqb_spec (CardAction.action d) "check_status")
      as [Hc|Hc].
    { destruct (truthy (CardAction.card_id d)); [|done].
      unfold mbind, M_bind.
      destruct (Banking.get_card_details _ _ w) as [w1 [info|e]]; done. }
    destruct (String.eqb (CardAction.action d) "escalate"); [done|].
    destruct (String.eqb (CardAction.action d) "complete"); done.
  - intros [-> ->]. reflexivity.
Qed.

(** X16. The card agent returns no state in exactly one case: the decision
    is [check_status] and names no card.  In every other case, also when
    the model or a tool raises, it returns a state. *)
Theorem card_agent_returns_nothing_iff (env : Env) (s : AgentState)
    (w : World) :
  snd (card_atm_agent_node env s w) = Return None <->
  exists d,
    llm_card env (card_agent_prompt env s) = Return d /\
    CardAction.action d = "check_status" /\
    truthy (CardAction.card_id d) = false.
Proof.
  rewrite card_node_run. cbn [snd].
  destruct (llm_card env (card_agent_prompt env s)) as [d|e] eqn:Hd.
  - rewrite (card_try_decided env s w d Hd). split.
    + intros H. exists d. split; [done|]. apply (card_dispatch_none s d w).
      destruct (snd (card_atm_agent_dispatch s d w)) as [r|]; by simplify_eq.
    + intros (d' & Hd' & Ha & Hc). simplify_eq.
      by rewrite (proj2 (card_dispatch_none s d' w) (conj Ha Hc)).
  - rewrite (card_try_raised env s w e Hd). cbn. split; [done|].
    by intros (d & Hd' & _).
Qed.

Lemma card_agent_returns_nothing_iff_witness :
  snd (card_atm_agent_node (env_card (Return status_request_without_card))
         state_authenticated world0) = Return None /\
  snd (card_atm_agent_node (env_card (Return (block_request true)))
         state_authenticated world0) <> Return None.
Proof.
  split.
  - apply (card_agent_returns_nothing_iff
             (env_card (Return status_request_without_card))
             state_authenticated world0).
    exists status_request_without_card. by repeat split.
  - intros H.
    apply (card_agent_returns_nothing_iff
             (env_card (Return (block_request true)))
             state_authenticated world0) in H.
    destruct H as (d & Hd & Ha & _). cbn in Hd. simplify_eq.
Defined.

Lemma request_statement_succeeds (s : AgentState) (cid : option string)
    (period : string) (w w' : World) (r : Banking.StatementResult) :
  Banking.request_statement s cid period w = (w', Return r) ->
  Banking.st_success r = true.
Proof.
  unfold Banking.request_statement. unfold_M. cbn.
  destruct (authenticated s); cbn; [|done]. intros H. by simplify_eq.
Qed.

Lemma account_dispatch_none (env : Env) (s : AgentState)
    (d : AccountServiceAction.t) (w : World) :
  snd (account_servicing_agent_dispatch env s d w) = Return None <->
  AccountServiceAction.action d = "update_profile" /\
  (AccountServiceAction.profile_updates d = None \/
   AccountServiceAction.profile_updates d = Some []).
Proof.
  unfold account_servicing_agent_dispatch. cbv zeta. split.
  - destruct (String.eqb_spec (AccountServiceAction.action d) "get_balance")
      as [Ha|Ha].
    { unfold mbind, M_bind.
      destruct (Banking.get_account_balance _ _ w) as [w1 [[]|e]]; done. }
    destruct (String.eqb_spec (AccountServiceAction.action d)
                "request_statement") as [Hr|Hr].
    { unfold mbind, M_bind.
      destruct (Banking.request_statement _ _ _ w) as [w1 [r|e]] eqn:Hst;
        [|done].
      by rewrite (request_statement_succeeds _ _ _ _ _ _ Hst). }
    destruct (String.eqb_spec (AccountServiceAction.action d)
                "update_profile") as [Hu|Hu].
    { destruct (AccountServiceAction.profile_updates d) as [[|kv kvs]|];
        [by intros _; split; [|right] | | by intros _; split; [|left]].
      unfold mbind, M_bind.
      destruct (Banking.update_profile _ _ _ w) as [w1 [[]|e]]; done. }
    destruct (String.eqb (AccountServiceAction.action d) "escalate"); [done|].
    destruct (String.eqb (AccountServiceAction.action d) "complete"); done.
  - intros [-> [-> | ->]]; reflexivity.
Qed.

(** X17. The account agent returns no state in exactly one case: the
    decision is [update_profile] with no fields to update (no dict, or an
    empty one).  The [request_statement] branch always returns, since the
    tool never reports a failure. *)
Theorem account_agent_returns_nothing_iff (env : Env) (s : AgentState)
    (w : World) :
  snd (account_servicing_agent_node env s w) = Return None <->
  exists d,
    llm_account env (account_agent_prompt env s) = Return d /\
    AccountServiceAction.action d = "update_profile" /\
    (AccountServiceAction.profile_updates d = None \/
     AccountServiceAction.profile_updates d = Some []).
Proof.
  rewrite account_node_run. cbn [snd].
  destruct (llm_account env (account_agent_prompt env s)) as [d|e] eqn:Hd.
  - rewrite (account_try_decided env s w d Hd). split.
    + intros H. exists d. split; [done|].
      apply (account_dispatch_none env s d w).
      destruct (snd (account_servicing_agent_dispatch env s d w)) as [r|];
        by simplify_eq.
    + intros (d' & Hd' & Ha & Hc). simplify_eq.
      by rewrite (proj2 (account_dispatch_none env s d' w) (conj Ha Hc)).
  - rewrite (account_try_raised env s w e Hd). cbn. split; [done|].
    by intros (d & Hd' & _).
Qed.

Lemma account_agent_returns_nothing_iff_witness :
  snd (account_servicing_agent_node
         (env_account (Return profile_request_without_fields))
         state_authenticated world0) = Return None.
Proof.
  apply (account_agent_returns_nothing_iff
           (env_account (Return profile_request_without_fields))
           state_authenticated world0).
  exists profile_request_without_fields. split; [reflexivity|].
  split; [reflexivity | by left].
Defined.

Lemma card_node_reply (env : Env) (s s' : AgentState) (w w' : World) :
  card_atm_agent_node env s w = (w', Return (Some s')) ->
  (exists c, messages s' = (messages s ++ [AIMessage c])%list) /\
  same_session s s'.
Proof.
  unfold card_atm_agent_node, card_atm_agent_try, card_atm_agent_dispatch,
    Banking.block_card, Banking.block_card_body, Banking.get_card_details,
    same_session.
  unfold_M. intros H.
  repeat (case_match; simplify_eq; cbn in *; try done);
    (split; [by eexists | done]).
Qed.

Lemma account_node_reply (env : Env) (s s' : AgentState) (w w' : World) :
  account_servicing_agent_node env s w = (w', Return (Some s')) ->
  (exists c, messages s' = (messages s ++ [AIMessage c])%list) /\
  same_session s s'.
Proof.
  unfold account_servicing_agent_node, account_servicing_agent_try,
    account_servicing_agent_dispatch, same_session.
  unfold mbind, M_bind, mret, M_ret, try_except, lift. intros H.
  repeat (case_match; simplify_eq; cbn in *; try done);
    (split; [by eexists | done]).
Qed.

(** X18. One reply per run.  Whenever the card agent or the account agent
    returns a state, its messages are the incoming ones followed by exactly
    one agent message, and the session id, the authentication
    ([authenticated], [customer_id], method), the counter of failed
    attempts and the classified intent are the incoming ones. *)
Theorem task_agents_append_one_reply (env : Env) (s s' : AgentState)
    (w w' : World) :
  card_atm_agent_node env s w = (w', Return (Some s')) \/
  account_servicing_agent_node env s w = (w', Return (Some s')) ->
  (exists c, messages s' = (messages s ++ [AIMessage c])%list) /\
  session_id s' = session_id s /\
  authenticated s' = authenticated s /\
  customer_id s' = customer_id s /\
  authentication_method s' = authentication_method s /\
  verification_attempts s' = verification_attempts s /\
  intent s' = intent s /\
  intent_confidence s' = intent_confidence s.
Proof.
  intros [H | H].
  - exact (card_node_reply env s s' w w' H).
  - exact (account_node_reply env s s' w w' H).
Qed.

Lemma task_agents_append_one_reply_witness :
  exists s' c,
    card_atm_agent_node (env_card (Return (block_request true)))
      state_authenticated world0 = (world0, Return (Some s')) /\
    messages s' = (messages state_authenticated ++ [AIMessage c])%list /\
    authenticated s' = true.
Proof.
  eexists _, _. split; [vm_compute; reflexivity|].
  match goal with |- messages ?s' = _ /\ _ =>
    destruct (task_agents_append_one_reply
                (env_card (Return (block_request true)))
                state_authenticated s' world0 world0
                (or_introl eq_refl)) as ((c & Hc) & _ & Ha & _)
  end.
  split; [reflexivity | exact Ha].
Defined.

(** ** Replies that leave the flow open *)

Lemma card_check_open (s : AgentState) :
  flow_open s -> check_card_flow_completion s = "card_atm_agent".
Proof.
  intros (He & Hn & Hc & Hb). unfold check_card_flow_completion.
  by rewrite He, Hn, (flow_stage_terminal_card s Hc Hb).
Qed.

Lemma account_check_open (s : AgentState) :
  flow_open s -> check_account_flow_completion s = "account_servicing_agent".
Proof.
  intros (He & Hn & Hc & Hb). unfold check_account_flow_completion.
  rewrite He, Hn. by rewrite bool_decide_eq_false_2.
Qed.

(** X19. Some replies do not end the run.  On a session that is neither
    escalated, suspended nor finished, a card status report (decision
    [check_status] with a card id, database up), a failed balance lookup
    and a rejected profile update each append their reply and leave the
    flow fields as they were, so the completion check names the same
    handler again: it is re-entered in the same run, without new input. *)
Theorem open_replies_reenter_handler (env : Env) (s : AgentState)
    (w : World) :
  flow_open s ->
  (forall d,
     llm_card env (card_agent_prompt env s) = Return d ->
     CardAction.action d = "check_status" ->
     truthy (CardAction.card_id d) = true ->
     db_fault w = None ->
     exists w' s' c,
       card_atm_agent_node env s w = (w', Return (Some s')) /\
       messages s' = (messages s ++ [AIMessage c])%list /\
       check_card_flow_completion s' = "card_atm_agent") /\
  (forall d error w',
     llm_account env (account_agent_prompt env s) = Return d ->
     AccountServiceAction.action d = "get_balance" ->
     Banking.get_account_balance s (customer_id s) w
       = (w', Return (Banking.BalanceFail error)) ->
     exists s',
       account_servicing_agent_node env s w = (w', Return (Some s')) /\
       messages s' =
         (messages s ++
          [AIMessage ("I couldn't retrieve your balance: " ++ error)])%list /\
       check_account_flow_completion s' = "account_servicing_agent") /\
  (forall d kv kvs error w',
     llm_account env (account_agent_prompt env s) = Return d ->
     AccountServiceAction.action d = "update_profile" ->
     AccountServiceAction.profile_updates d = Some (kv :: kvs) ->
     Banking.update_profile s (customer_id s) (kv :: kvs) w
       = (w', Return (Banking.ProfileFail error)) ->
     exists s',
       account_servicing_agent_node env s w = (w', Return (Some s')) /\
       messages s' =
         (messages s ++ [AIMessage ("Update failed: " ++ error)])%list /\
       check_account_flow_completion s' = "account_servicing_agent").
Proof.
  intros Hopen. split; [|split].
  - intros d Hd Ha Hid Hdb.
    rewrite card_node_run, (card_try_decided env s w d Hd).
    unfold card_atm_agent_dispatch. cbv zeta. rewrite Ha.
    change ("check_status" =? "block_card")%string with false.
    change ("check_status" =? "check_status")%string with true. cbv iota.
    rewrite Hid. unfold Banking.get_card_details. unfold_M.
    unfold set_tool_log. cbn. rewrite Hdb. cbn.
    destruct (cards w !! str_of (CardAction.card_id d)); cbn;
      (eexists _, _, _; split; [reflexivity|]; split; [reflexivity|]);
      by apply card_check_open.
  - intros d error w' Hd Ha Hb.
    rewrite account_node_run, (account_try_decided env s w d Hd).
    unfold account_servicing_agent_dispatch. cbv zeta. rewrite Ha.
    change ("get_balance" =? "get_balance")%string with true. cbv iota.
    unfold mbind, M_bind. rewrite Hb. cbn.
    eexists. split; [reflexivity|]. split; [reflexivity|].
    by apply account_check_open.
  - intros d kv kvs error w' Hd Ha Hu Hb.
    rewrite account_node_run, (account_try_decided env s w d Hd).
    unfold account_servicing_agent_dispatch. cbv zeta. rewrite Ha.
    change ("update_profile" =? "get_balance")%string with false.
    change ("update_profile" =? "request_statement")%string with false.
    change ("update_profile" =? "update_profile")%string with true.
    cbv iota. rewrite Hu. unfold mbind, M_bind. rewrite Hb. cbn.
    eexists. split; [reflexivity|]. split; [reflexivity|].
    by apply account_check_open.
Qed.

Lemma open_replies_reenter_handler_witness :
  (exists w' s',
     card_atm_agent_node (env_card (Return (status_request "CARD000010")))
       state_open world0 = (w', Return (Some s')) /\
     check_card_flow_completion s' = "card_atm_agent") /\
  (exists w' s',
     account_servicing_agent_node (env_account (Return address_update))
       state_open world0 = (w', Return (Some s')) /\
     check_account_flow_completion s' = "account_servicing_agent").
Proof.
  assert (Hopen : flow_open state_open) by (repeat split; discriminate).
  split.
  - destruct (open_replies_reenter_handler
                (env_card (Return (status_request "CARD000010"))) state_open
                world0 Hopen) as (Hcard & _).
    destruct (Hcard (status_request "CARD000010") eq_refl eq_refl eq_refl
                eq_refl) as (w' & s' & c & Hrun & _ & Hloop).
    by exists w', s'.
  - destruct (open_replies_reenter_handler
                (env_account (Return address_update)) state_open world0
                Hopen) as (_ & _ & Hupd).
    destruct (Hupd address_update ("address", "1 Main St") []
                "No valid fields to update" _ eq_refl eq_refl eq_refl
                eq_refl) as (s' & Hrun & _ & Hloop).
    by eexists _, s'.
Defined.

(** ** A balance inquiry, end to end *)

Lemma sum_balances_rows (rows : list Models.Account) (acc0 : float) :
  fold_left (fun acc b => PrimFloat.add acc (Banking.ab_balance b))
    (map (fun acc =>
            Banking.mkAccountBalance (Models.account_id acc)
              (Models.account_type acc) (Models.balance acc)
              (Models.currency acc)) rows) acc0
  = fold_left (fun acc a => PrimFloat.add acc (Models.balance a)) rows acc0.
Proof.
  revert acc0. induction rows as [|a rows IH]; intros acc0; [done|].
  cbn. apply IH.
Qed.

(** X20. A balance inquiry by an authenticated customer who has accounts
    completes in one run: the reply lists those accounts, one line each in
    table order, and their total; the total (the balances of exactly the
    rows owned by the session's customer, added up from 0) is cached in
    [account_balance]; [flow_stage] becomes ["complete"]; and no table is
    written. *)
Theorem balance_inquiry_reports_total (env : Env) (s : AgentState)
    (w : World) (d : AccountServiceAction.t) (row : Models.Account)
    (rows : list Models.Account) :
  authenticated s = true ->
  db_fault w = None ->
  llm_account env (account_agent_prompt env s) = Return d ->
  AccountServiceAction.action d = "get_balance" ->
  filter (fun acc => Some (Models.owner_id acc) = customer_id s) (accounts w)
    = row :: rows ->
  let total :=
    fold_left (fun acc a => PrimFloat.add acc (Models.balance a))
      (row :: rows) 0%float in
  exists w' s',
    account_servicing_agent_node env s w = (w', Return (Some s')) /\
    account_balance s' = Some total /\
    flow_stage s' = Some "complete" /\
    messages s' =
      (messages s ++
       [AIMessage
          ("Here are your account balances:" ++ newline
           ++ join newline
                (map (fun a =>
                        "- " ++ title env (Models.account_type a) ++ ": $"
                        ++ format_money env (Models.balance a))
                     (row :: rows))
           ++ newline ++ "Total: $" ++ format_money env total ++ newline
           ++ "Is there anything else I can help you with?")%string])%list /\
    customers w' = customers w /\
    accounts w' = accounts w /\
    cards w' = cards w /\
    (escalation_requested s = false -> needs_user_input s = false ->
     check_account_flow_completion s' = "complete").
Proof.
  intros Hauth Hdb Hd Ha Hrows total.
  rewrite account_node_run, (account_try_decided env s w d Hd).
  unfold account_servicing_agent_dispatch. cbv zeta. rewrite Ha.
  change ("get_balance" =? "get_balance")%string with true. cbv iota.
  unfold Banking.get_account_balance. unfold_M. unfold set_tool_log.
  rewrite Hauth. cbn [negb accounts db_fault]. rewrite Hdb.
  cbn [accounts]. rewrite Hrows.
  unfold Banking.sum_balances. rewrite sum_balances_rows.
  cbn [fst snd]. eexists _, _. split; [reflexivity|].
  split; [reflexivity|]. split; [reflexivity|]. split.
  { cbn [messages reply set_messages set_flow_stage set_account_balance].
    do 3 f_equal. rewrite map_map. reflexivity. }
  split; [reflexivity|]. split; [reflexivity|]. split; [reflexivity|].
  intros He Hn. unfold check_account_flow_completion. cbn. by rewrite He, Hn.
Qed.

Lemma balance_inquiry_reports_total_witness :
  exists w' s',
    account_servicing_agent_node (env_account (Return balance_request))
      state_authenticated world0 = (w', Return (Some s')) /\
    account_balance s' = Some 100%float /\
    flow_stage s' = Some "complete".
Proof.
  destruct (balance_inquiry_reports_total
              (env_account (Return balance_request)) state_authenticated
              world0 balance_request
              (Models.mkAccount "ACC000010" "CUST00001" "checking" 100%float
                 "USD") []
              eq_refl eq_refl eq_refl eq_refl ltac:(vm_compute; reflexivity))
    as (w' & s' & Hrun & Hbal & Hfs & _).
  exists w', s'. split; [exact Hrun|]. split; [|exact Hfs].
  rewrite Hbal. vm_compute. reflexivity.
Defined.

(** ** A block that fails *)

(** X21. When the confirmed block of a named card fails (the card is not in
    the table, or is blocked already), the card agent escalates with reason
    ["Card block failed: "] followed by the tool's error, the card table is
    as before, and ["CARD_BLOCKED"] is appended to the critical actions all
    the same. *)
Theorem failed_block_escalates (env : Env) (s : AgentState) (w : World)
    (d : CardAction.t) (c : string) :
  authenticated s = true ->
  db_fault w = None ->
  llm_card env (card_agent_prompt env s) = Return d ->
  CardAction.action d = "block_card" ->
  CardAction.confirmation_needed d = false ->
  CardAction.card_id d = Some c -> c <> EmptyString ->
  forall error,
    (cards w !! c = None /\ error = "Card not found") \/
    (exists card at_,
       cards w !! c = Some card /\ Models.status card = "blocked" /\
       Models.blocked_at card = Some at_ /\
       error = "Card is already blocked") ->
    exists w' s',
      card_atm_agent_node env s w = (w', Return (Some s')) /\
      escalation_requested s' = true /\
      escalation_reason s' = Some ("Card block failed: " ++ error) /\
      check_card_flow_completion s' = "escalation" /\
      cards w' = cards w /\
      critical_actions_taken s'
        = (critical_actions_taken s ++ ["CARD_BLOCKED"])%list.
Proof.
  intros Hauth Hdb Hd Ha Hc Hid Hne error Hfail.
  rewrite card_node_run, (card_try_decided env s w d Hd).
  unfold card_atm_agent_dispatch. cbv zeta.
  rewrite Ha, Hc, Hid. cbn [negb truthy str_of].
  change ("block_card" =? "block_card")%string with true. cbv iota.
  destruct (String.eqb_spec c EmptyString); [done|]. cbn [negb].
  unfold Banking.block_card, Banking.block_card_body. unfold_M.
  unfold set_cards, set_tool_log.
  rewrite Hauth. cbn. rewrite Hdb. cbn.
  destruct Hfail as [(Hnone & ->) | (card & at_ & Hcard & Hst & Hat & ->)].
  - rewrite Hnone. cbn. eexists _, _. by repeat split.
  - rewrite Hcard. cbn. rewrite Hst. cbn. rewrite Hat. cbn.
    eexists _, _. by repeat split.
Qed.

Lemma failed_block_escalates_witness :
  exists w' s',
    card_atm_agent_node
      (env_card (Return (CardAction.mk "block_card" (Some "CARD404")
                           (Some "Lost") false "Blocking your card.")))
      state_authenticated world0 = (w', Return (Some s')) /\
    escalation_reason s' = Some "Card block failed: Card not found" /\
    critical_actions_taken s' = ["CARD_BLOCKED"].
Proof.
  destruct (failed_block_escalates
              (env_card (Return (CardAction.mk "block_card" (Some "CARD404")
                                   (Some "Lost") false "Blocking your card.")))
              state_authenticated world0 _ "CARD404"
              eq_refl eq_refl eq_refl eq_refl eq_refl eq_refl
              ltac:(discriminate) "Card not found")
    as (w' & s' & Hrun & _ & Hwhy & _ & _ & Hcrit).
  - left. split; [vm_compute; reflexivity | reflexivity].
  - exists w', s'. split; [exact Hrun|]. split; [exact Hwhy | exact Hcrit].
Defined.

(** ** The stub handlers and their edges *)

Lemma opening_node_run (env : Env) (s : AgentState) (w : World) :
  exists s',
    Stubs.account_opening_agent_node env s w = (w, Return s') /\
    escalation_requested s' = escalation_requested s /\
    (needs_user_input s' = true \/ flow_stage s' = Some "complete").
Proof.
  unfold Stubs.account_opening_agent_node, Stubs.create_lead. unfold_M.
  destruct (email_search env _); cbn; eexists; (split; [reflexivity|]);
    (split; [reflexivity|]); [by right | by left].
Qed.

Lemma stub_check_settled (s : AgentState) :
  escalation_requested s = true \/ needs_user_input s = true \/
  flow_stage s = Some "complete" ->
  check_flow_completion s = Return "escalation" \/
  check_flow_completion s = Return "__end__" \/
  check_flow_completion s = Return "complete".
Proof.
  unfold check_flow_completion. intros H.
  destruct (escalation_requested s); [by left|].
  destruct (needs_user_input s); [by right; left|].
  destruct H as [H | [H | H]]; try done.
  rewrite H. by right; right.
Qed.

(** X22. After a stub handler has run, the fall-through branch of its
    completion check (which builds a label from the intent, and raises when
    there is none) is never reached: after the digital and the transfer
    handler the check answers [escalation]; after the opening and the
    closure handler it answers [escalation], [__end__] or [complete].  The
    edge of the general-inquiry handler always answers [complete] after its
    node, so the self-loop in that edge is never taken. *)
Theorem stub_handlers_settle (env : Env) (s : AgentState) (w : World) :
  check_flow_completion (Stubs.digital_support_agent_node s)
    = Return "escalation" /\
  check_flow_completion (Stubs.transfer_payment_agent_node s)
    = Return "escalation" /\
  (let s' := Stubs.account_closure_agent_node s in
   check_flow_completion s' = Return "escalation" \/
   check_flow_completion s' = Return "__end__") /\
  (exists s',
     Stubs.account_opening_agent_node env s w = (w, Return s') /\
     (check_flow_completion s' = Return "escalation" \/
      check_flow_completion s' = Return "__end__" \/
      check_flow_completion s' = Return "complete")) /\
  general_inquiry_edge (Stubs.general_inquiry_agent_node s) = "complete".
Proof.
  split; [reflexivity|]. split; [reflexivity|]. split; [|split].
  - unfold Stubs.account_closure_agent_node, check_flow_completion.
    destruct (truthy (flow_stage s)); cbn; [by left|].
    destruct (escalation_requested s); [by left | by right].
  - destruct (opening_node_run env s w) as (s' & Hrun & He & Hs).
    exists s'. split; [exact Hrun|]. apply stub_check_settled.
    destruct Hs; [by right; left | by right; right].
  - reflexivity.
Qed.

(** X23. Closing an account takes two entries.  Entered with no flow stage,
    the closure handler asks for the reason and suspends with
    [flow_stage = "retention_attempt"]; entered again on the state it
    returned, after the caller's next message, it escalates with reason
    ["Account closure - retention specialist needed"].  Entered with any
    flow stage already set, it escalates at once. *)
Theorem closure_retention_then_escalation (s : AgentState) :
  (truthy (flow_stage s) = false ->
     let s1 := Stubs.account_closure_agent_node s in
     flow_stage s1 = Some "retention_attempt" /\
     needs_user_input s1 = true /\
     resume_node s1 = Some "closure_agent" /\
     escalation_requested s1 = escalation_requested s /\
     forall user_text,
       let s2 := Stubs.account_closure_agent_node (user_turn user_text s1) in
       escalation_requested s2 = true /\
       escalation_reason s2
         = Some "Account closure - retention specialist needed" /\
       check_flow_completion s2 = Return "escalation") /\
  (truthy (flow_stage s) = true ->
     let s1 := Stubs.account_closure_agent_node s in
     escalation_requested s1 = true /\
     flow_stage s1 = flow_stage s).
Proof.
  unfold Stubs.account_closure_agent_node. split; intros Hf.
  - rewrite Hf. cbn. repeat split.
  - rewrite Hf. cbn. by split.
Qed.

Lemma closure_retention_then_escalation_witness :
  needs_user_input (Stubs.account_closure_agent_node state_open) = true /\
  escalation_requested
    (Stubs.account_closure_agent_node
       (user_turn "The fees are too high"
          (Stubs.account_closure_agent_node state_open))) = true.
Proof.
  destruct (closure_retention_then_escalation state_open) as (Hfirst & _).
  destruct (Hfirst eq_refl) as (_ & Hn & _ & _ & Hnext).
  split; [exact Hn|].
  destruct (Hnext "The fees are too high") as (He & _). exact He.
Defined.

(** ** Classification followed by routing *)

Lemma route_table_targets (i : option string) :
  dict_get intent_to_node i "general_inquiry_node"
    ∈ ["security_check"; "opening_agent"; "digital_agent";
       "general_inquiry_node"].
Proof.
  destruct i as [i|]; cbn; [|set_solver].
  repeat (case_match; [set_solver|]). set_solver.
Qed.

Lemma route_after_router (env : Env) (s : AgentState) :
  truthy (resume_node s) = false ->
  exists label,
    route_to_flow (route_intent_node env s) = Return label /\
    label ∈ ["security_check"; "opening_agent"; "digital_agent";
             "general_inquiry_node"].
Proof.
  intros Hres. unfold route_intent_node. rewrite Hres.
  destruct (last (user_messages s)) as [m|].
  - destruct (llm_intent env _) as [r|e].
    + unfold route_to_flow. cbn. rewrite Hres.
      destruct (PrimFloat.ltb _ _); eexists; (split; [reflexivity|]);
        [set_solver
        | exact (route_table_targets
                   (Some (IntentClassification.intent r)))].
    + eexists. split; [unfold route_to_flow; cbn; by rewrite Hres|].
      set_solver.
  - eexists. split; [unfold route_to_flow; cbn; by rewrite Hres|].
    set_solver.
Qed.

(** X24. Classification followed by routing always lands on a node.  With
    [resume_node] unset, whatever the model answers (any label, any
    confidence, or an exception) and whatever the history holds, the router
    node followed by its edge returns one of [security_check],
    [opening_agent], [digital_agent] and [general_inquiry_node]; the
    comparison with a missing confidence, which raises in [route_to_flow]
    alone, cannot occur after the node.  The node changes nothing but
    [intent] and [intent_confidence]. *)
Theorem classification_then_routing (env : Env) (s : AgentState) :
  truthy (resume_node s) = false ->
  (exists label,
     route_to_flow (route_intent_node env s) = Return label /\
     label ∈ ["security_check"; "opening_agent"; "digital_agent";
              "general_inquiry_node"]) /\
  set_intent_confidence (intent_confidence s)
    (set_intent (intent s) (route_intent_node env s)) = s /\
  is_raise (route_to_flow (set_intent_confidence None s)) = true.
Proof.
  intros Hres. split; [by apply route_after_router|]. split.
  - unfold route_intent_node. rewrite Hres. destruct s.
    repeat case_match; reflexivity.
  - unfold route_to_flow. cbn. by rewrite Hres.
Qed.

Lemma classification_then_routing_witness :
  route_to_flow (route_intent_node env_model_down state_lost_card)
    = Return "general_inquiry_node" /\
  is_raise (route_to_flow fresh_state) = true.
Proof.
  destruct (classification_then_routing env_model_down state_lost_card
              eq_refl) as ((label & Hroute & _) & _ & _).
  destruct (classification_then_routing env_model_down fresh_state eq_refl)
    as (_ & _ & Hraise).
  split; [|exact Hraise].
  rewrite Hroute. vm_compute in Hroute. by simplify_eq.
Defined.

(* ================================================================= *)
(** ** Sessions driven through the graph *)


































(* ================================================================= *)
(** ** The connection registry, beyond unknown sessions *)

(** X29. The registry delivers to the handle registered last under a
    session id, and to no other.  After [connect] on a healthy handle, a
    send to that session writes exactly one frame, after all earlier ones,
    to that handle, whatever handle the id had before; the other sessions
    keep their handles; after [disconnect] a send to the session writes
    nothing, the other sessions still keep theirs, and a second
    [disconnect] changes nothing.  When the handshake raises, [connect]
    raises and registers nothing; when a write raises, [send_json] raises
    to its caller and the handle stays registered. *)
Theorem registry_routes_to_latest_handle
    (self : Registry.VoiceConnectionManager) (session_id : string)
    (websocket : Registry.WebSocket) (t : Registry.Transport) :
  Registry.broken t !! websocket = None ->
  exists self1 t1,
    Registry.connect self session_id websocket t = (t1, Return self1) /\
    t1 = Registry.mkTransport (Registry.sent t) (Registry.broken t)
           (Registry.accepted t ++ [websocket]) /\
    (forall other, other <> session_id ->
       Registry.active_connections self1 !! other
         = Registry.active_connections self !! other) /\
    (forall message,
       Registry.send_json self1 session_id message t1 =
         (Registry.mkTransport
            (Registry.sent t ++ [(websocket, Registry.JsonFrame message)])
            (Registry.broken t) (Registry.accepted t ++ [websocket]),
          Return tt)) /\
    (forall data,
       Registry.send_bytes self1 session_id data t1 =
         (Registry.mkTransport
            (Registry.sent t ++ [(websocket, Registry.BytesFrame data)])
            (Registry.broken t) (Registry.accepted t ++ [websocket]),
          Return tt)) /\
    (forall message,
       Registry.send_json (Registry.disconnect self1 session_id) session_id
         message t1 = (t1, Return tt)) /\
    (forall other, other <> session_id ->
       Registry.active_connections (Registry.disconnect self1 session_id)
         !! other = Registry.active_connections self !! other) /\
    Registry.disconnect (Registry.disconnect self1 session_id) session_id
      = Registry.disconnect self1 session_id /\
    (forall dead e message,
       Registry.broken t !! dead = Some e ->
       Registry.connect self session_id dead t = (t, Raise e) /\
       Registry.send_json
         (Registry.mkManager
            (<[session_id := dead]> (Registry.active_connections self)))
         session_id message t = (t, Raise e)).
Proof.
  intros Hok.
  exists (Registry.mkManager
            (<[session_id := websocket]> (Registry.active_connections self))).
  eexists. split.
  { unfold Registry.connect, Registry.ws_accept. rewrite Hok. reflexivity. }
  split; [reflexivity|]. split.
  { intros other Hne. cbn. by rewrite lookup_insert_ne. }
  split.
  { intros message. unfold Registry.send_json, Registry.ws_send. cbn.
    by rewrite lookup_insert_eq, Hok. }
  split.
  { intros data. unfold Registry.send_bytes, Registry.ws_send. cbn.
    by rewrite lookup_insert_eq, Hok. }
  split.
  { intros message. unfold Registry.send_json.
    by rewrite disconnect_unregisters. }
  split.
  { intros other Hne. unfold Registry.disconnect. cbn.
    rewrite bool_decide_eq_true_2 by (rewrite lookup_insert_eq; by eexists).
    cbn. by rewrite lookup_delete_ne, lookup_insert_ne. }
  split.
  { unfold Registry.disconnect at 1.
    rewrite bool_decide_eq_false_2; [done|].
    rewrite disconnect_unregisters. by intros [? ?]. }
  intros dead e message Hdead. split.
  - unfold Registry.connect, Registry.ws_accept. by rewrite Hdead.
  - unfold Registry.send_json, Registry.ws_send. cbn.
    by rewrite lookup_insert_eq, Hdead.
Qed.

Lemma registry_routes_to_latest_handle_witness :
  exists self1 t1,
    Registry.connect Registry.init "session-1" 7%nat
      (Registry.mkTransport [] ∅ []) = (t1, Return self1) /\
    Registry.send_json self1 "session-1" [("type", "status")] t1 =
      (Registry.mkTransport
         [(7%nat, Registry.JsonFrame [("type", "status")])] ∅ [7%nat],
       Return tt).
Proof.
  destruct (registry_routes_to_latest_handle Registry.init "session-1"
              7%nat (Registry.mkTransport [] ∅ []) (lookup_empty _))
    as (self1 & t1 & Hconn & -> & _ & Hsend & _).
  exists self1. eexists. split; [exact Hconn|].
  exact (Hsend [("type", "status")]).
Defined.

(* ================================================================= *)
(** ** The ingress task *)

Lemma handle_spec (json_loads : string -> Ingress.Json) (p : Ingress.Pass)
    (st : Ingress.State) :
  Ingress.audio_in_queue (fst (Ingress.handle json_loads (Ingress.received p) st))
    = (Ingress.audio_in_queue st ++ Ingress.payload p)%list /\
  match snd (Ingress.handle json_loads (Ingress.received p) st) with
  | Ingress.Exited =>
      Ingress.shutdown_event
        (fst (Ingress.handle json_loads (Ingress.received p) st)) = true /\
      Ingress.payload p = []
  | Ingress.Looping =>
      Ingress.shutdown_event
        (fst (Ingress.handle json_loads (Ingress.received p) st))
        = Ingress.shutdown_event st
  end.
Proof.
  unfold Ingress.handle, Ingress.payload.
  destruct (Ingress.received p) as [|m|e]; cbn;
    [by rewrite app_nil_r| |by rewrite app_nil_r].
  repeat case_match; cbn; by rewrite ?app_nil_r.
Qed.

(** X30. The ingress task queues audio in arrival order and only ends with
    the shutdown event set.  Run against any sequence of receive results:
    what it has put on the queue is what was there followed by the binary
    payloads of the first [k] results, in order, each once; if it is still
    looping, the event is unset and [k] is all of them (timeouts, messages
    without payload, control messages other than stop and invalid JSON
    drop nothing); if it has ended (disconnect, stop, a receive that
    raises, JSON that is not an object, or the event set by another task)
    the event is set; and entered with the event set it reads nothing. *)
Theorem audio_receiver_queues_in_order
    (json_loads : string -> Ingress.Json) (passes : list Ingress.Pass)
    (st : Ingress.State) :
  let out := Ingress.audio_receiver json_loads passes st in
  (exists k,
     (k <= length passes)%nat /\
     Ingress.audio_in_queue (fst out)
       = (Ingress.audio_in_queue st
          ++ concat (map Ingress.payload (take k passes)))%list) /\
  (snd out = Ingress.Looping ->
     Ingress.shutdown_event (fst out) = false /\
     Ingress.audio_in_queue (fst out)
       = (Ingress.audio_in_queue st
          ++ concat (map Ingress.payload passes))%list) /\
  (snd out = Ingress.Exited -> Ingress.shutdown_event (fst out) = true) /\
  (Ingress.shutdown_event st = true -> out = (st, Ingress.Exited)).
Proof.
  revert st. induction passes as [|p rest IH]; intros st; cbn zeta.
  - cbn. destruct (Ingress.shutdown_event st) eqn:Hev; cbn.
    + split; [exists 0%nat; by rewrite app_nil_r|]. by repeat split.
    + split; [exists 0%nat; by rewrite app_nil_r|].
      split; [by rewrite app_nil_r|]. by split.
  - cbn [Ingress.audio_receiver].
    destruct (Ingress.shutdown_event st) eqn:Hev.
    { cbn. split; [exists 0%nat; split; [lia | by rewrite app_nil_r]|].
      by repeat split. }
    cbn [orb].
    set (st1 := Ingress.mkState (Ingress.set_meanwhile p)
                  (Ingress.audio_in_queue st)).
    destruct (handle_spec json_loads p st1) as (Hq & Hs).
    destruct (Ingress.handle json_loads (Ingress.received p) st1)
      as [st2 [|]]; cbn [fst snd] in Hq, Hs.
    + destruct (IH st2) as ((k & Hk & Hqk) & Hloop & Hexit & _).
      cbn zeta in Hqk, Hloop, Hexit. rewrite Hq in Hqk, Hloop. cbn in Hq.
      split.
      { exists (S k). split; [cbn; lia|]. rewrite Hqk. cbn.
        by rewrite app_assoc. }
      split; [|split; [exact Hexit | done]].
      intros Hl. destruct (Hloop Hl) as (He & Hall). split; [exact He|].
      rewrite Hall. cbn. by rewrite app_assoc.
    + destruct Hs as (Hs & Hp). cbn. split.
      { exists 0%nat. split; [lia|]. rewrite Hq, Hp. cbn.
        by rewrite !app_nil_r. }
      by repeat split.
Qed.

Lemma audio_receiver_queues_in_order_witness :
  Ingress.audio_receiver parse_control
    [binary_frame chunk_a; text_frame "not json"; binary_frame chunk_b]
    idle
  = (Ingress.mkState false [chunk_a; chunk_b], Ingress.Looping) /\
  Ingress.shutdown_event
    (fst (Ingress.audio_receiver parse_control
            [binary_frame chunk_a; text_frame "stop-message";
             binary_frame chunk_b] idle)) = true.
Proof.
  destruct (audio_receiver_queues_in_order parse_control
              [binary_frame chunk_a; text_frame "not json";
               binary_frame chunk_b] idle) as (_ & Hloop & _).
  destruct (audio_receiver_queues_in_order parse_control
              [binary_frame chunk_a; text_frame "stop-message";
               binary_frame chunk_b] idle) as (_ & _ & Hexit & _).
  split; [|exact (Hexit eq_refl)].
  destruct (Hloop eq_refl) as (Hev & Hq).
  destruct (Ingress.audio_receiver parse_control _ idle) as [[ev q] status]
    eqn:Hrun.
  cbn in Hev, Hq. subst ev q. vm_compute in Hrun. by simplify_eq.
Defined.
